(** * Binance futures trading bot: command line and order dispatcher

    A shallow embedding of [cli.py] and [bot.py].

    Conventions of the model.

    - A Python [str] is a Rocq [string] whose characters are the ASCII code
      points U+0000..U+007F.  The 128 other values of Rocq's [ascii] type are
      kept as uncased characters that are neither white space nor digits;
      Python strings with code points above U+007F are outside the model.
    - A Python [float] is an IEEE 754 binary64 value, represented by
      [spec_float] with precision 53 and maximal exponent 1024.
    - The builtins the program calls ([str.upper], [str.strip], [in] on
      strings, [float], [int], [repr], [str]) are modelled after CPython.
    - Standard input, standard output, the log and the calls made to the
      exchange client are fields of an explicit [world]; exceptions and
      [sys.exit] are outcomes of a small state-and-exception monad. *)

From Stdlib Require Import ZArith NArith List String Ascii Bool Lia.
From Stdlib Require Import Floats.SpecFloat DecimalString.
Import ListNotations.
Local Open Scope string_scope.
Local Open Scope Z_scope.

(* ===================================================================== *)
(** ** Python string builtins *)
(* ===================================================================== *)

Module PyStr.

Definition code (c : ascii) : Z := Z.of_N (N_of_ascii c).

Definition in_range (lo hi : Z) (c : ascii) : bool :=
  (lo <=? code c) && (code c <=? hi).

Definition is_lower (c : ascii) : bool := in_range 97 122 c.
Definition is_digit (c : ascii) : bool := in_range 48 57 c.

(** [str.upper] on one ASCII character. *)
Definition upper_char (c : ascii) : ascii :=
  if is_lower c then ascii_of_N (Z.to_N (code c - 32)) else c.

(** [s.upper()] *)
Fixpoint upper (s : string) : string :=
  match s with
  | EmptyString => EmptyString
  | String c r => String (upper_char c) (upper r)
  end.

(** White space for [str.strip()]: U+0009..U+000D, U+001C..U+001F, U+0020. *)
Definition is_space (c : ascii) : bool :=
  in_range 9 13 c || in_range 28 32 c.

(** White space for the C-level scanners of [float] and [int] (Py_ISSPACE):
    U+0009..U+000D and U+0020. *)
Definition is_c_space (c : ascii) : bool :=
  in_range 9 13 c || (code c =? 32).

Fixpoint lstrip_with (sp : ascii -> bool) (s : string) : string :=
  match s with
  | EmptyString => EmptyString
  | String c r => if sp c then lstrip_with sp r else s
  end.

Fixpoint rstrip_with (sp : ascii -> bool) (s : string) : string :=
  match s with
  | EmptyString => EmptyString
  | String c r =>
      match rstrip_with sp r with
      | EmptyString => if sp c then EmptyString else String c EmptyString
      | r' => String c r'
      end
  end.

(** [s.strip()] *)
Definition strip (s : string) : string :=
  rstrip_with is_space (lstrip_with is_space s).

Fixpoint starts_with (p s : string) : bool :=
  match p, s with
  | EmptyString, _ => true
  | String a p', String b s' => Ascii.eqb a b && starts_with p' s'
  | String _ _, EmptyString => false
  end.

(** [needle in s] *)
Fixpoint contains (needle s : string) : bool :=
  starts_with needle s ||
  match s with
  | EmptyString => false
  | String _ r => contains needle r
  end.

Fixpoint mem_char (c : ascii) (s : string) : bool :=
  match s with
  | EmptyString => false
  | String d r => Ascii.eqb c d || mem_char c r
  end.

Definition hex_digit (n : Z) : ascii :=
  if n <? 10 then ascii_of_N (Z.to_N (48 + n)) else ascii_of_N (Z.to_N (87 + n)).

Definition str1 (c : ascii) : string := String c EmptyString.

Definition backslash : ascii := ascii_of_N 92.
Definition dquote : ascii := ascii_of_N 34.
Definition squote : ascii := ascii_of_N 39.

(** One character of [repr(s)] for the chosen quote. *)
Definition repr_char (quote c : ascii) : string :=
  if Ascii.eqb c quote || Ascii.eqb c backslash then String backslash (str1 c)
  else if code c =? 9 then String backslash "t"
  else if code c =? 10 then String backslash "n"
  else if code c =? 13 then String backslash "r"
  else if (code c <? 32) || (code c =? 127) then
    String backslash
      (String "x" (String (hex_digit (code c / 16)) (str1 (hex_digit (code c mod 16)))))
  else str1 c.

Fixpoint repr_body (quote : ascii) (s : string) : string :=
  match s with
  | EmptyString => EmptyString
  | String c r => repr_char quote c ++ repr_body quote r
  end.

(** [repr(s)]: single quotes unless the text has a single quote and no
    double quote. *)
Definition repr (s : string) : string :=
  let quote : ascii :=
    if mem_char squote s && negb (mem_char dquote s) then dquote else squote in
  String quote (repr_body quote s ++ str1 quote).

Fixpoint repeat_char (c : ascii) (n : nat) : string :=
  match n with
  | O => EmptyString
  | S k => String c (repeat_char c k)
  end.

End PyStr.

(* ===================================================================== *)
(** ** Python floats: [float(s)], comparison with zero, [repr] *)
(* ===================================================================== *)

Module PyFloat.
Import PyStr.

Definition float : Type := spec_float.

Definition prec : Z := 53.
Definition emax : Z := 1024.

Definition zero : float := S754_zero false.
Definition inf : float := S754_infinity false.
Definition nan : float := S754_nan.

(** [x <= y] and [x < y]; both are false when an operand is a nan. *)
Definition le (x y : float) : bool := SFleb x y.
Definition lt (x y : float) : bool := SFltb x y.

(** [bool(x)]: false exactly for the two zeros. *)
Definition truthy (x : float) : bool :=
  match x with
  | S754_zero _ => false
  | _ => true
  end.

Definition is_finite (x : float) : bool :=
  match x with
  | S754_zero _ | S754_finite _ _ _ => true
  | S754_infinity _ | S754_nan => false
  end.

Definition same (x y : float) : bool :=
  match x, y with
  | S754_zero a, S754_zero b => Bool.eqb a b
  | S754_infinity a, S754_infinity b => Bool.eqb a b
  | S754_nan, S754_nan => true
  | S754_finite a m e, S754_finite b n f => Bool.eqb a b && Pos.eqb m n && Z.eqb e f
  | _, _ => false
  end.

(** *** Decimal text to binary64, correctly rounded (round half to even) *)

Definition of_decimal (neg : bool) (m e10 : Z) : float :=
  if m <=? 0 then S754_zero neg
  else if 0 <=? e10 then binary_round prec emax neg (Z.to_pos (m * 10 ^ e10)) 0
  else SFdiv prec emax (S754_finite neg (Z.to_pos m) 0)
                       (S754_finite false (Z.to_pos (10 ^ (- e10))) 0).

(** *** The scanner behind [float(s)] *)

Definition digit_value (c : ascii) : Z := code c - 48.

Fixpoint digits_value_from (acc : Z) (s : string) : Z :=
  match s with
  | EmptyString => acc
  | String c r => digits_value_from (10 * acc + digit_value c) r
  end.

Definition digits_value (s : string) : Z := digits_value_from 0 s.

Fixpoint span_digits (s : string) : string * string :=
  match s with
  | EmptyString => (EmptyString, EmptyString)
  | String c r =>
      if is_digit c then let (d, rest) := span_digits r in (String c d, rest)
      else (EmptyString, s)
  end.

Fixpoint skip_zeros (s : string) : string :=
  match s with
  | String "0" r => skip_zeros r
  | _ => s
  end.

Definition strlen (s : string) : Z := Z.of_nat (String.length s).

(** Underscores are dropped when each one stands between two digits
    (the group separators of PEP 515); any other underscore is an error.
    [prev] is the character before [s], U+0000 at the start. *)
Fixpoint remove_underscores_from (prev : ascii) (s : string) : option string :=
  match s with
  | EmptyString => if Ascii.eqb prev "_" then None else Some EmptyString
  | String c r =>
      if Ascii.eqb c "_" then
        if is_digit prev then remove_underscores_from c r else None
      else if Ascii.eqb prev "_" && negb (is_digit c) then None
      else option_map (String c) (remove_underscores_from c r)
  end.

Definition remove_underscores (s : string) : option string :=
  remove_underscores_from Ascii.zero s.

Definition parse_sign (s : string) : bool * string :=
  match s with
  | String "-" r => (true, r)
  | String "+" r => (false, r)
  | _ => (false, s)
  end.

Definition lower_char (c : ascii) : ascii :=
  if in_range 65 90 c then ascii_of_N (Z.to_N (code c + 32)) else c.

(** [p] is lower case; the rest of [s] after a case-insensitive match. *)
Fixpoint match_nocase (p s : string) : option string :=
  match p, s with
  | EmptyString, _ => Some s
  | String a p', String b s' =>
      if Ascii.eqb a (lower_char b) then match_nocase p' s' else None
  | String _ _, EmptyString => None
  end.

Definition parse_inf_or_nan (s : string) : option (float * string) :=
  let (neg, r) := parse_sign s in
  match match_nocase "inf" r with
  | Some r1 =>
      match match_nocase "inity" r1 with
      | Some r2 => Some (S754_infinity neg, r2)
      | None => Some (S754_infinity neg, r1)
      end
  | None =>
      match match_nocase "nan" r with
      | Some r1 => Some (S754_nan, r1)
      | None => None
      end
  end.

Definition MAX_ABS_EXP : Z := 1100000000.
Definition MAX_DIGITS : Z := 1000000000.

(** The exponent part; without a digit after the marker nothing is consumed. *)
Definition parse_exponent (s : string) : Z * string :=
  match s with
  | String c r =>
      if Ascii.eqb c "e" || Ascii.eqb c "E" then
        let (esign, r1) := parse_sign r in
        let (ds, r2) := span_digits r1 in
        match ds with
        | EmptyString => (0, s)
        | _ =>
            let sig := skip_zeros ds in
            let v := digits_value sig in
            let e := if (9 <? strlen sig) || (MAX_ABS_EXP <? v) then MAX_ABS_EXP else v in
            (if esign then - e else e, r2)
        end
      else (0, s)
  | EmptyString => (0, EmptyString)
  end.

(** The point and the digits after it, if the text starts with a point. *)
Definition parse_fraction (s : string) : string * string :=
  match s with
  | String "." r => span_digits r
  | _ => (EmptyString, s)
  end.

(** Sign, digits with an optional point, optional exponent: the value and
    the text left over. *)
Definition strtod (s : string) : option (float * string) :=
  let (neg, s1) := parse_sign s in
  let (ip, s2) := span_digits s1 in
  let (fp, s3) := parse_fraction s2 in
  match ip ++ fp with
  | EmptyString => None
  | all =>
      let sig := skip_zeros all in
      if (MAX_DIGITS <? strlen sig) || (MAX_DIGITS <? strlen fp) then None
      else
        let (e, s4) := parse_exponent s3 in
        Some (of_decimal neg (digits_value sig) (e - strlen fp), s4)
  end.

(** The number that the whole of [u] spells: an infinity or a nan, else a
    decimal number. *)
Definition scan (u : string) : option float :=
  match parse_inf_or_nan u with
  | Some (x, EmptyString) => Some x
  | Some (_, String _ _) => None
  | None =>
      match strtod u with
      | Some (x, EmptyString) => Some x
      | _ => None
      end
  end.

(** [float(s)]: [None] stands for
    [ValueError("could not convert string to float: " + repr(s))]. *)
Definition of_string (s : string) : option float :=
  match remove_underscores s with
  | None => None
  | Some t => scan (rstrip_with is_c_space (lstrip_with is_c_space t))
  end.

(** *** [repr(x)] = [str(x)]: the shortest digits that read back as [x] *)

Definition string_of_Z (z : Z) : string := NilZero.string_of_int (Z.to_int z).

(** [v = num / den > 0]; is [v < 10 ^ d] ? *)
Definition below_pow10 (num den d : Z) : bool :=
  if 0 <=? d then num <? den * 10 ^ d else num * 10 ^ (- d) <? den.

Fixpoint first_decpt (fuel : nat) (num den d : Z) : Z :=
  match fuel with
  | O => d
  | S k => if below_pow10 num den d then d else first_decpt k num den (d + 1)
  end.

(** The least [d] with [num / den < 10 ^ d]. *)
Definition decimal_point (num den : Z) : Z :=
  let l := Z.log2 num - Z.log2 den in
  first_decpt 8 num den ((l - 1) * 30103 / 100000 - 2).

(** [floor (num / den / 10 ^ k)] *)
Definition scaled_floor (num den k : Z) : Z :=
  if 0 <=? k then num / (den * 10 ^ k) else (num * 10 ^ (- k)) / den.

(** Is [num / den] nearer to [(lo + 1) * 10 ^ k] than to [lo * 10 ^ k]?
    A tie goes to the even one. *)
Definition upper_is_nearer (num den lo k : Z) : bool :=
  let cmp :=
    if 0 <=? k then (2 * num ?= (2 * lo + 1) * den * 10 ^ k)
    else (2 * num * 10 ^ (- k) ?= (2 * lo + 1) * den) in
  match cmp with
  | Gt => true
  | Eq => Z.odd lo
  | Lt => false
  end.

(** With [n] significant digits: the digits [d] with [d * 10 ^ k]
    reading back as [x], if any. *)
Definition digits_at (x : float) (num den decpt : Z) (n : Z) : option (Z * Z) :=
  let k := decpt - n in
  let lo := scaled_floor num den k in
  let ok_lo := same (of_decimal false lo k) x in
  let ok_hi := same (of_decimal false (lo + 1) k) x in
  if ok_lo && ok_hi then
    Some (if upper_is_nearer num den lo k then lo + 1 else lo, k)
  else if ok_lo then Some (lo, k)
  else if ok_hi then Some (lo + 1, k)
  else None.

Fixpoint shortest_from (fuel : nat) (x : float) (num den decpt n : Z) : Z * Z :=
  match fuel with
  | O => (scaled_floor num den (decpt - n), decpt - n)
  | S f =>
      match digits_at x num den decpt n with
      | Some r => r
      | None => shortest_from f x num den decpt (n + 1)
      end
  end.

Fixpoint strip_trailing_zeros (s : string) : string :=
  match s with
  | EmptyString => EmptyString
  | String c r =>
      match strip_trailing_zeros r with
      | EmptyString => if Ascii.eqb c "0" then EmptyString else str1 c
      | r' => String c r'
      end
  end.

Definition zeros (n : Z) : string := repeat_char "0" (Z.to_nat n).

Definition take (n : Z) (s : string) : string := substring 0 (Z.to_nat n) s.
Definition drop (n : Z) (s : string) : string :=
  substring (Z.to_nat n) (String.length s - Z.to_nat n) s.

(** Fixed notation for [-4 < decpt <= 16], else exponent notation with at
    least two exponent digits. *)
Definition format_digits (ds : string) (decpt : Z) : string :=
  let nd := strlen ds in
  if (decpt <=? -4) || (16 <? decpt) then
    let e := decpt - 1 in
    let et := string_of_Z (Z.abs e) in
    take 1 ds ++ (if 1 <? nd then "." ++ drop 1 ds else "")
      ++ "e" ++ (if e <? 0 then "-" else "+")
      ++ (if Z.abs e <? 10 then "0" else "") ++ et
  else if decpt <=? 0 then "0." ++ zeros (- decpt) ++ ds
  else if nd <=? decpt then ds ++ zeros (decpt - nd) ++ ".0"
  else take decpt ds ++ "." ++ drop decpt ds.

Definition repr (x : float) : string :=
  match x with
  | S754_nan => "nan"
  | S754_infinity s => if s then "-inf" else "inf"
  | S754_zero s => if s then "-0.0" else "0.0"
  | S754_finite s m e =>
      let num := Z.pos m * 2 ^ (Z.max e 0) in
      let den := 2 ^ (Z.max (- e) 0) in
      let decpt := decimal_point num den in
      let (d, k) := shortest_from 17 (S754_finite false m e) num den decpt 1 in
      let all := string_of_Z d in
      (if s then "-" else "")
        ++ format_digits (strip_trailing_zeros all) (strlen all + k)
  end.

End PyFloat.

(* ===================================================================== *)
(** ** Python integers: [int(s)] in base 10 and [str(n)] *)
(* ===================================================================== *)

Module PyInt.
Import PyStr.

Definition str (n : Z) : string := PyFloat.string_of_Z n.

(** The default of [sys.get_int_max_str_digits()]. *)
Definition MAX_STR_DIGITS : Z := 4300.

(** Digits with single underscores between them: the value, the number of
    digits, the last character read and the text left over; [None] for two
    underscores in a row. *)
Fixpoint scan_digits (prev : ascii) (acc ndigits : Z) (s : string)
  : option (Z * Z * ascii * string) :=
  match s with
  | EmptyString => Some (acc, ndigits, prev, EmptyString)
  | String c r =>
      if is_digit c then scan_digits c (10 * acc + PyFloat.digit_value c) (ndigits + 1) r
      else if Ascii.eqb c "_" then
        if Ascii.eqb prev "_" then None else scan_digits c acc ndigits r
      else Some (acc, ndigits, prev, s)
  end.

Definition invalid_literal (s : string) : string :=
  "invalid literal for int() with base 10: " ++ repr s.

Definition exceeds_limit (ndigits : Z) : string :=
  "Exceeds the limit (4300 digits) for integer string conversion: value has "
    ++ str ndigits ++ " digits; use sys.set_int_max_str_digits() to increase the limit".

(** [int(s)]: the integer, or the text of the [ValueError]. *)
Definition of_string (s : string) : string + Z :=
  let (neg, t) := PyFloat.parse_sign (lstrip_with is_c_space s) in
  match t with
  | String "_" _ => inl (invalid_literal s)
  | _ =>
      match scan_digits Ascii.zero 0 0 t with
      | None => inl (invalid_literal s)
      | Some (v, ndigits, prev, rest) =>
          if Ascii.eqb prev "_" then inl (invalid_literal s)
          else if MAX_STR_DIGITS <? ndigits then inl (exceeds_limit ndigits)
          else if ndigits =? 0 then inl (invalid_literal s)
          else
            match lstrip_with is_c_space rest with
            | EmptyString => inr (if neg then - v else v)
            | String _ _ => inl (invalid_literal s)
            end
      end
  end.

End PyInt.

(* ===================================================================== *)
(** ** The run-time: exceptions, the world, the monad of effects *)
(* ===================================================================== *)

(** The exception classes the program names, [OtherException] for any other
    subclass of [Exception].  [KeyboardInterrupt] is the one class here that
    does not derive from [Exception]. *)
Inductive exn_class : Type :=
  | ValueError
  | EOFError
  | KeyboardInterrupt
  | BinanceAPIException
  | BinanceRequestException
  | OtherException (name : string).

(** An exception object: its class and the text [str(e)]. *)
Record exn : Type := mk_exn { exn_type : exn_class; exn_str : string }.

(** [type(e).__name__] *)
Definition class_name (c : exn_class) : string :=
  match c with
  | ValueError => "ValueError"
  | EOFError => "EOFError"
  | KeyboardInterrupt => "KeyboardInterrupt"
  | BinanceAPIException => "BinanceAPIException"
  | BinanceRequestException => "BinanceRequestException"
  | OtherException name => name
  end.

(** The [except] filters of the program. *)
Definition is_Exception (e : exn) : bool :=
  match exn_type e with
  | KeyboardInterrupt => false
  | _ => true
  end.

Definition is_ValueError (e : exn) : bool :=
  match exn_type e with
  | ValueError => true
  | _ => false
  end.

Definition is_KeyboardInterrupt (e : exn) : bool :=
  match exn_type e with
  | KeyboardInterrupt => true
  | _ => false
  end.

Definition is_BinanceAPIException (e : exn) : bool :=
  match exn_type e with
  | BinanceAPIException => true
  | _ => false
  end.

Definition is_BinanceRequestException (e : exn) : bool :=
  match exn_type e with
  | BinanceRequestException => true
  | _ => false
  end.

(** Values of the keyword arguments sent to the exchange. *)
Inductive pyval : Type :=
  | VStr (s : string)
  | VFloat (x : PyFloat.float).

(** A [dict] with string keys, in insertion order. *)
Definition dict (V : Type) : Type := list (string * V).

Fixpoint dict_get {V : Type} (d : dict V) (k : string) : option V :=
  match d with
  | [] => None
  | (k', v) :: r => if String.eqb k k' then Some v else dict_get r k
  end.

Definition dict_keys {V : Type} (d : dict V) : list string := map fst d.

Definition repr_pyval (v : pyval) : string :=
  match v with
  | VStr s => PyStr.repr s
  | VFloat x => PyFloat.repr x
  end.

Fixpoint join (sep : string) (l : list string) : string :=
  match l with
  | [] => EmptyString
  | [x] => x
  | x :: r => x ++ sep ++ join sep r
  end.

(** [repr(d)] of a keyword dictionary. *)
Definition repr_params (d : dict pyval) : string :=
  "{" ++ join ", " (map (fun kv => PyStr.repr (fst kv) ++ ": " ++ repr_pyval (snd kv)) d) ++ "}".

(** What the exchange returns is opaque to the program: a dictionary read
    with [.get(key)] and formatted with [str], and the text of its [repr]
    for the log.  Each value is kept as the text [str] gives for it. *)
Record response : Type := mk_response {
  fields : dict string;
  response_repr : string
}.

(** The calls made to the external client. *)
Inductive api_call : Type :=
  | ClientNew (api_key api_secret : string) (testnet : bool)
  | FuturesAccount
  | GetAccount
  | FuturesCreateOrder (params : dict pyval)
  | FuturesGetOrder (symbol : string) (orderId : Z)
  | FuturesCancelOrder (symbol : string) (orderId : Z).

Inductive api_result : Type :=
  | Returns (r : response)
  | Raises (e : exn).

(** The exchange answers a call knowing the calls made before it, the most
    recent first. *)
Definition exchange_model : Type := list api_call -> api_call -> api_result.

(** A line typed at a prompt, or Ctrl-C; the end of the list is end of file. *)
Inductive input_event : Type :=
  | Line (s : string)
  | Interrupt.

Inductive log_level : Type := INFO | ERROR.

(** [stdout], [log] and [calls] list the most recent entry first. *)
Record world : Type := mk_world {
  stdin : list input_event;
  stdout : list string;
  log : list (log_level * string);
  calls : list api_call;
  exchange : exchange_model;
  (** does the client class of the library have a [FUTURES_BASE_URL] ? *)
  has_futures_base_url : bool
}.

(** How a computation ends: a value, an exception, [sys.exit(code)], or
    [OutOfFuel] when the bound given to the menu loop is used up. *)
Inductive outcome (A : Type) : Type :=
  | Ret (a : A)
  | Raise (e : exn)
  | Exit (code : Z)
  | OutOfFuel.
Arguments Ret {A} a.
Arguments Raise {A} e.
Arguments Exit {A} code.
Arguments OutOfFuel {A}.

Definition M (A : Type) : Type := world -> outcome A * world.

Definition ret {A : Type} (a : A) : M A := fun w => (Ret a, w).

Definition bind {A B : Type} (m : M A) (k : A -> M B) : M B :=
  fun w =>
    match m w with
    | (Ret a, w') => k a w'
    | (Raise e, w') => (Raise e, w')
    | (Exit c, w') => (Exit c, w')
    | (OutOfFuel, w') => (OutOfFuel, w')
    end.

Declare Scope py_scope.
Delimit Scope py_scope with py.
Notation "x <- m ;; k" := (bind m (fun x => k))
  (at level 61, m at next level, right associativity) : py_scope.
Notation "m ;; k" := (bind m (fun _ => k))
  (at level 61, right associativity) : py_scope.
Local Open Scope py_scope.

Definition raise {A : Type} (e : exn) : M A := fun w => (Raise e, w).

(** [sys.exit(code)]: no [except] clause of the program catches it. *)
Definition sys_exit {A : Type} (code : Z) : M A := fun w => (Exit code, w).

Definition out_of_fuel {A : Type} : M A := fun w => (OutOfFuel, w).

(** [try: m  except <first clause whose filter accepts e> as e: handler e] *)
Fixpoint find_handler {A : Type} (hs : list ((exn -> bool) * (exn -> M A))) (e : exn)
  : option (exn -> M A) :=
  match hs with
  | [] => None
  | (accepts, h) :: r => if accepts e then Some h else find_handler r e
  end.

Definition try_except {A : Type} (m : M A) (hs : list ((exn -> bool) * (exn -> M A))) : M A :=
  fun w =>
    match m w with
    | (Raise e, w') =>
        match find_handler hs e with
        | Some h => h e w'
        | None => (Raise e, w')
        end
    | r => r
    end.

Definition with_stdout (f : list string -> list string) (w : world) : world :=
  mk_world (stdin w) (f (stdout w)) (log w) (calls w) (exchange w) (has_futures_base_url w).

Definition with_stdin (l : list input_event) (w : world) : world :=
  mk_world l (stdout w) (log w) (calls w) (exchange w) (has_futures_base_url w).

Definition with_log (f : list (log_level * string) -> list (log_level * string)) (w : world)
  : world :=
  mk_world (stdin w) (stdout w) (f (log w)) (calls w) (exchange w) (has_futures_base_url w).

Definition with_calls (l : list api_call) (w : world) : world :=
  mk_world (stdin w) (stdout w) (log w) l (exchange w) (has_futures_base_url w).

(** [print(text)] *)
Definition print (text : string) : M unit :=
  fun w => (Ret tt, with_stdout (fun o => text :: o) w).

(** [input(prompt)]: shows the prompt, then reads one event. *)
Definition input (prompt : string) : M string :=
  fun w =>
    let w1 := with_stdout (fun o => prompt :: o) w in
    match stdin w1 with
    | [] => (Raise (mk_exn EOFError "EOF when reading a line"), w1)
    | Line s :: r => (Ret s, with_stdin r w1)
    | Interrupt :: r => (Raise (mk_exn KeyboardInterrupt ""), with_stdin r w1)
    end.

(** [self.logger.info(text)] and [self.logger.error(text)] *)
Definition logger_info (text : string) : M unit :=
  fun w => (Ret tt, with_log (fun l => (INFO, text) :: l) w).

Definition logger_error (text : string) : M unit :=
  fun w => (Ret tt, with_log (fun l => (ERROR, text) :: l) w).

(** One call to the external client: recorded, then answered. *)
Definition call_client (c : api_call) : M response :=
  fun w =>
    let w1 := with_calls (c :: calls w) w in
    match exchange w (calls w) c with
    | Returns r => (Ret r, w1)
    | Raises e => (Raise e, w1)
    end.

(** A validator result: the value, or the exception it raises. *)
Definition lift {A : Type} (r : exn + A) : M A :=
  match r with
  | inl e => raise e
  | inr a => ret a
  end.

Definition nl : string := PyStr.str1 (ascii_of_N 10).

(** ["=" * 60] *)
Definition rule60 : string := PyStr.repeat_char "=" 60.

(** [d.get(key, default)] and [d.get(key)] formatted with [str]. *)
Definition get_default (r : response) (key default : string) : string :=
  match dict_get (fields r) key with
  | Some v => v
  | None => default
  end.

Definition get_or_None (r : response) (key : string) : string :=
  get_default r key "None".

(* ===================================================================== *)
(** ** bot.py: the order dispatcher *)
(* ===================================================================== *)

Module Bot.

(** What [BasicBot] writes into the client object it builds. *)
Record Client : Type := mk_Client {
  client_testnet : bool;
  FUTURES_URL : option string;
  FUTURES_BASE_URL : option string
}.

Record BasicBot : Type := mk_BasicBot {
  api_key : string;
  api_secret : string;
  testnet : bool;
  client : Client
}.

Definition testnet_url : string := "https://testnet.binancefuture.com".

Definition _log_request (method : string) (params : dict pyval) : M unit :=
  logger_info ("API Request - Method: " ++ method ++ ", Params: " ++ repr_params params).

Definition _log_response (r : response) : M unit :=
  logger_info ("API Response: " ++ response_repr r).

Definition _log_error (error : exn) (context : string) : M unit :=
  logger_error ("Error " ++ context ++ ": " ++ class_name (exn_type error)
                  ++ " - " ++ exn_str error).

Definition _test_connection (self : BasicBot) : M unit :=
  try_except
    (if testnet self then
       account_info <- call_client FuturesAccount ;;
       logger_info "Successfully connected to Binance Futures Testnet" ;;
       logger_info ("Account balance: "
                      ++ get_default account_info "totalWalletBalance" "N/A" ++ " USDT")
     else
       _ <- call_client GetAccount ;;
       logger_info "Successfully connected to Binance")
    [(is_Exception,
      fun e => logger_error ("Connection test failed: " ++ exn_str e) ;; raise e)].

(** [BasicBot(api_key, api_secret, testnet)] *)
Definition __init__ (api_key api_secret : string) (testnet : bool) : M BasicBot :=
  try_except
    (client <-
       (if testnet then
          _ <- call_client (ClientNew api_key api_secret true) ;;
          has <- (fun w => (Ret (has_futures_base_url w), w)) ;;
          logger_info "Initialized Binance Futures Testnet client" ;;
          logger_info ("Using Futures URL: " ++ testnet_url) ;;
          ret (mk_Client true (Some testnet_url) (if has then Some testnet_url else None))
        else
          _ <- call_client (ClientNew api_key api_secret false) ;;
          logger_info "Initialized Binance client (mainnet)" ;;
          ret (mk_Client false None None)) ;;
     let self := mk_BasicBot api_key api_secret testnet client in
     _test_connection self ;;
     ret self)
    [(is_Exception,
      fun e => logger_error ("Failed to initialize client: " ++ exn_str e) ;; raise e)].

(** The three [except] clauses of the order methods: each logs the error
    with the context and re-raises the exception it caught. *)
Definition order_handlers (context : string) : list ((exn -> bool) * (exn -> M response)) :=
  [(is_BinanceAPIException, fun e => _log_error e context ;; raise e);
   (is_BinanceRequestException, fun e => _log_error e context ;; raise e);
   (is_Exception, fun e => _log_error e context ;; raise e)].

Definition market_params (symbol side : string) (quantity : PyFloat.float) : dict pyval :=
  [("symbol", VStr symbol);
   ("side", VStr (PyStr.upper side));
   ("type", VStr "MARKET");
   ("quantity", VFloat quantity)].

Definition place_market_order (self : BasicBot)
    (symbol side : string) (quantity : PyFloat.float) : M response :=
  try_except
    (logger_info ("Placing market order: " ++ side ++ " " ++ PyFloat.repr quantity
                    ++ " " ++ symbol) ;;
     let params := market_params symbol side quantity in
     _log_request "futures_create_order" params ;;
     response <- call_client (FuturesCreateOrder params) ;;
     _log_response response ;;
     logger_info ("Market order placed successfully. Order ID: "
                    ++ get_or_None response "orderId") ;;
     ret response)
    (order_handlers ("placing market order for " ++ symbol)).

Definition limit_params (symbol side : string) (quantity price : PyFloat.float)
    (time_in_force : string) : dict pyval :=
  [("symbol", VStr symbol);
   ("side", VStr (PyStr.upper side));
   ("type", VStr "LIMIT");
   ("quantity", VFloat quantity);
   ("price", VFloat price);
   ("timeInForce", VStr time_in_force)].

(** [time_in_force] is a keyword argument with default ['GTC']:
    [None] is a call that does not pass it. *)
Definition default_GTC (time_in_force : option string) : string :=
  match time_in_force with
  | Some t => t
  | None => "GTC"
  end.

Definition place_limit_order (self : BasicBot)
    (symbol side : string) (quantity price : PyFloat.float)
    (time_in_force : option string) : M response :=
  try_except
    (logger_info ("Placing limit order: " ++ side ++ " " ++ PyFloat.repr quantity
                    ++ " " ++ symbol ++ " @ " ++ PyFloat.repr price) ;;
     let params := limit_params symbol side quantity price (default_GTC time_in_force) in
     _log_request "futures_create_order" params ;;
     response <- call_client (FuturesCreateOrder params) ;;
     _log_response response ;;
     logger_info ("Limit order placed successfully. Order ID: "
                    ++ get_or_None response "orderId") ;;
     ret response)
    (order_handlers ("placing limit order for " ++ symbol)).

Definition stop_limit_params (symbol side : string)
    (quantity price stop_price : PyFloat.float) (time_in_force : string) : dict pyval :=
  [("symbol", VStr symbol);
   ("side", VStr (PyStr.upper side));
   ("type", VStr "STOP");
   ("quantity", VFloat quantity);
   ("price", VFloat price);
   ("stopPrice", VFloat stop_price);
   ("timeInForce", VStr time_in_force)].

Definition place_stop_limit_order (self : BasicBot)
    (symbol side : string) (quantity price stop_price : PyFloat.float)
    (time_in_force : option string) : M response :=
  try_except
    (logger_info ("Placing stop-limit order: " ++ side ++ " " ++ PyFloat.repr quantity
                    ++ " " ++ symbol ++ " @ " ++ PyFloat.repr price
                    ++ " (stop: " ++ PyFloat.repr stop_price ++ ")") ;;
     let params :=
       stop_limit_params symbol side quantity price stop_price (default_GTC time_in_force) in
     _log_request "futures_create_order" params ;;
     response <- call_client (FuturesCreateOrder params) ;;
     _log_response response ;;
     logger_info ("Stop-limit order placed successfully. Order ID: "
                    ++ get_or_None response "orderId") ;;
     ret response)
    (order_handlers ("placing stop-limit order for " ++ symbol)).

Definition get_order_status (self : BasicBot) (symbol : string) (order_id : Z) : M response :=
  try_except
    (response <- call_client (FuturesGetOrder symbol order_id) ;;
     logger_info ("Order " ++ PyInt.str order_id ++ " status: "
                    ++ get_or_None response "status") ;;
     ret response)
    [(is_Exception,
      fun e => _log_error e ("getting order status for " ++ PyInt.str order_id) ;; raise e)].

Definition cancel_order (self : BasicBot) (symbol : string) (order_id : Z) : M response :=
  try_except
    (logger_info ("Cancelling order " ++ PyInt.str order_id ++ " for " ++ symbol) ;;
     response <- call_client (FuturesCancelOrder symbol order_id) ;;
     _log_response response ;;
     logger_info ("Order " ++ PyInt.str order_id ++ " cancelled successfully") ;;
     ret response)
    [(is_Exception,
      fun e => _log_error e ("cancelling order " ++ PyInt.str order_id) ;; raise e)].

(** The dictionary built from the account summary; a missing key reads as
    [None], missing assets as the empty list. *)
Definition get_account_balance (self : BasicBot) : M (dict string) :=
  try_except
    (account_info <- call_client FuturesAccount ;;
     ret [("total_wallet_balance", get_or_None account_info "totalWalletBalance");
          ("available_balance", get_or_None account_info "availableBalance");
          ("total_unrealized_pnl", get_or_None account_info "totalUnrealizedProfit");
          ("assets", get_default account_info "assets" "[]")])
    [(is_Exception, fun e => _log_error e "getting account balance" ;; raise e)].

End Bot.

(* ===================================================================== *)
(** ** cli.py: validators, interactive prompts, command line *)
(* ===================================================================== *)

Module Cli.
Import Bot.

Definition value_error {A : Type} (text : string) : exn + A :=
  inl (mk_exn ValueError text).

Definition validate_side (side : string) : exn + string :=
  let side_upper := PyStr.upper side in
  if negb (existsb (String.eqb side_upper) ["BUY"; "SELL"]) then
    value_error ("Side must be 'BUY' or 'SELL', got '" ++ side ++ "'")
  else inr side_upper.

(** [repr] of a list of strings. *)
Definition repr_list (l : list string) : string :=
  "[" ++ join ", " (map PyStr.repr l) ++ "]".

(** [s.replace('-', '_')] *)
Fixpoint replace_hyphen (s : string) : string :=
  match s with
  | EmptyString => EmptyString
  | String c r => String (if Ascii.eqb c "-" then "_"%char else c) (replace_hyphen r)
  end.

Definition validate_order_type (order_type : string) : exn + string :=
  let order_type_upper := PyStr.upper order_type in
  let valid_types := ["MARKET"; "LIMIT"; "STOP-LIMIT"; "STOP_LIMIT"] in
  if negb (existsb (String.eqb order_type_upper) valid_types) then
    value_error ("Order type must be one of " ++ repr_list valid_types
                   ++ ", got '" ++ order_type ++ "'")
  else inr (PyStr.upper (replace_hyphen order_type_upper)).

(** [float(value)] as the call that may raise. *)
Definition float_call (value : string) : exn + PyFloat.float :=
  match PyFloat.of_string value with
  | Some val => inr val
  | None => value_error ("could not convert string to float: " ++ PyStr.repr value)
  end.

Definition validate_positive_float (value name : string) : exn + PyFloat.float :=
  let body : exn + PyFloat.float :=
    match float_call value with
    | inl e => inl e
    | inr val =>
        if PyFloat.le val PyFloat.zero then
          value_error (name ++ " must be positive, got " ++ PyFloat.repr val)
        else inr val
    end in
  match body with
  | inr val => inr val
  | inl e =>
      if is_ValueError e then
        if PyStr.contains "could not convert" (exn_str e) then
          value_error (name ++ " must be a valid number, got '" ++ value ++ "'")
        else inl e
      else inl e
  end.

Definition has_key (r : response) (key : string) : bool :=
  match dict_get (fields r) key with
  | Some _ => true
  | None => false
  end.

Definition print_order_details (response : response) : M unit :=
  print (nl ++ rule60) ;;
  print "ORDER DETAILS" ;;
  print rule60 ;;
  print ("Order ID:        " ++ get_default response "orderId" "N/A") ;;
  print ("Symbol:          " ++ get_default response "symbol" "N/A") ;;
  print ("Side:            " ++ get_default response "side" "N/A") ;;
  print ("Type:            " ++ get_default response "type" "N/A") ;;
  print ("Quantity:        " ++ get_default response "origQty" "N/A") ;;
  print ("Price:           " ++ get_default response "price" "N/A") ;;
  print ("Status:          " ++ get_default response "status" "N/A") ;;
  print ("Time:            " ++ get_default response "updateTime" "N/A") ;;
  (if has_key response "stopPrice" then
     print ("Stop Price:      " ++ get_default response "stopPrice" "N/A")
   else ret tt) ;;
  print (rule60 ++ nl).

Definition balance_field (d : dict string) (key : string) : string :=
  match dict_get d key with
  | Some v => v
  | None => "N/A"
  end.

Definition print_account_info (bot : BasicBot) : M unit :=
  try_except
    (balance_info <- get_account_balance bot ;;
     print (nl ++ rule60) ;;
     print "ACCOUNT BALANCE" ;;
     print rule60 ;;
     print ("Total Wallet Balance:  " ++ balance_field balance_info "total_wallet_balance"
              ++ " USDT") ;;
     print ("Available Balance:    " ++ balance_field balance_info "available_balance"
              ++ " USDT") ;;
     print ("Unrealized PnL:        " ++ balance_field balance_info "total_unrealized_pnl"
              ++ " USDT") ;;
     print (rule60 ++ nl))
    [(is_Exception, fun e => print ("Error getting account balance: " ++ exn_str e))].

Definition order_type_map : dict string :=
  [("1", "MARKET"); ("2", "LIMIT"); ("3", "STOP-LIMIT")].

(** [try: x = validator  except ValueError as e: print(f"Error: {e}"); return]
    gives [None] after the message, for the caller to return. *)
Definition validated {A : Type} (r : exn + A) : M (option A) :=
  try_except
    (a <- lift r ;; ret (Some a))
    [(is_ValueError, fun e => print ("Error: " ++ exn_str e) ;; ret None)].

(** Reading [response] when no branch has assigned it. *)
Definition unbound_response : exn :=
  mk_exn (OtherException "UnboundLocalError")
    "cannot access local variable 'response' where it is not associated with a value".

Definition place_order_interactive (bot : BasicBot) : M unit :=
  print (nl ++ rule60) ;;
  print "PLACE ORDER" ;;
  print rule60 ;;
  try_except
    (symbol_line <- input "Enter symbol (e.g., BTCUSDT): " ;;
     let symbol := PyStr.upper (PyStr.strip symbol_line) in
     if String.eqb symbol "" then print "Error: Symbol cannot be empty"
     else
       print (nl ++ "Order types:") ;;
       print "1. MARKET" ;;
       print "2. LIMIT" ;;
       print "3. STOP-LIMIT" ;;
       choice_line <- input "Select order type (1-3): " ;;
       let order_type_choice := PyStr.strip choice_line in
       match dict_get order_type_map order_type_choice with
       | None => print "Error: Invalid order type selection"
       | Some order_type =>
           side_line <- input "Enter side (BUY/SELL): " ;;
           side_ok <- validated (validate_side (PyStr.strip side_line)) ;;
           match side_ok with
           | None => ret tt
           | Some side =>
               quantity_line <- input "Enter quantity: " ;;
               let quantity_str := PyStr.strip quantity_line in
               quantity_ok <- validated (validate_positive_float quantity_str "Quantity") ;;
               match quantity_ok with
               | None => ret tt
               | Some quantity =>
                   if String.eqb order_type "MARKET" then
                     response <- place_market_order bot symbol side quantity ;;
                     print_order_details response
                   else if String.eqb order_type "LIMIT" then
                     price_line <- input "Enter limit price: " ;;
                     let price_str := PyStr.strip price_line in
                     price_ok <- validated (validate_positive_float price_str "Price") ;;
                     match price_ok with
                     | None => ret tt
                     | Some price =>
                         response <- place_limit_order bot symbol side quantity price None ;;
                         print_order_details response
                     end
                   else if String.eqb order_type "STOP-LIMIT" then
                     price_line <- input "Enter limit price: " ;;
                     let price_str := PyStr.strip price_line in
                     stop_line <- input "Enter stop price: " ;;
                     let stop_price_str := PyStr.strip stop_line in
                     prices_ok <-
                       validated
                         match validate_positive_float price_str "Price" with
                         | inl e => inl e
                         | inr price =>
                             match validate_positive_float stop_price_str "Stop price" with
                             | inl e => inl e
                             | inr stop_price => inr (price, stop_price)
                             end
                         end ;;
                     match prices_ok with
                     | None => ret tt
                     | Some (price, stop_price) =>
                         response <-
                           place_stop_limit_order bot symbol side quantity price stop_price
                             None ;;
                         print_order_details response
                     end
                   else raise unbound_response
               end
           end
       end)
    [(is_KeyboardInterrupt, fun _ => print (nl ++ nl ++ "Operation cancelled by user"));
     (is_Exception, fun e => print (nl ++ "Error placing order: " ++ exn_str e))].

(** *** The command line

    The command line is kept as what [argparse] retains of it: for each
    option the text of its last occurrence, for each switch whether it was
    given.  Option abbreviations, [-h] and the order of the options are not
    modelled. *)
Record argv : Type := mk_argv {
  opt_api_key : option string;
  opt_api_secret : option string;
  opt_testnet : bool;
  opt_mainnet : bool;
  opt_order_type : option string;
  opt_symbol : option string;
  opt_side : option string;
  opt_quantity : option string;
  opt_price : option string;
  opt_stop_price : option string;
  opt_balance : bool;
  opt_order_status : bool;
  opt_order_id : option string;
  opt_cancel_order : bool;
  opt_interactive : bool
}.

(** The namespace returned by [parser.parse_args()]. *)
Record Namespace : Type := mk_Namespace {
  args_api_key : string;
  args_api_secret : string;
  args_testnet : bool;
  args_mainnet : bool;
  args_order_type : option string;
  args_symbol : option string;
  args_side : option string;
  args_quantity : option PyFloat.float;
  args_price : option PyFloat.float;
  args_stop_price : option PyFloat.float;
  args_balance : bool;
  args_order_status : bool;
  args_order_id : option Z;
  args_cancel_order : bool;
  args_interactive : bool
}.

(** [action='store_true'] with the given default. *)
Definition store_true (default given : bool) : bool :=
  if given then true else default.

(** [type=conv]: an absent option stays [None]; a text that [conv] refuses
    is a usage error. *)
Definition typed {A : Type} (conv : string -> option A) (raw : option string)
  : option (option A) :=
  match raw with
  | None => Some None
  | Some t =>
      match conv t with
      | Some a => Some (Some a)
      | None => None
      end
  end.

(** [choices=l] *)
Definition among (l : list string) (t : string) : option string :=
  if existsb (String.eqb t) l then Some t else None.

Definition int_conv (t : string) : option Z :=
  match PyInt.of_string t with
  | inr n => Some n
  | inl _ => None
  end.

(** [parser.parse_args()]; [None] is a usage error, which ends the process
    with status 2. *)
Definition parse_args (av : argv) : option Namespace :=
  match opt_api_key av, opt_api_secret av,
        typed (among ["market"; "limit"; "stop-limit"]) (opt_order_type av),
        typed (among ["BUY"; "SELL"]) (opt_side av),
        typed PyFloat.of_string (opt_quantity av),
        typed PyFloat.of_string (opt_price av),
        typed PyFloat.of_string (opt_stop_price av),
        typed int_conv (opt_order_id av)
  with
  | Some key, Some secret, Some order_type, Some side,
    Some quantity, Some price, Some stop_price, Some order_id =>
      Some (mk_Namespace key secret
              (store_true true (opt_testnet av))
              (store_true false (opt_mainnet av))
              order_type (opt_symbol av) side quantity price stop_price
              (store_true false (opt_balance av))
              (store_true false (opt_order_status av))
              order_id
              (store_true false (opt_cancel_order av))
              (store_true false (opt_interactive av)))
  | _, _, _, _, _, _, _, _ => None
  end.

(** The value of an option when it is truthy: [not x] holds for [None], for
    the empty string and for a zero. *)
Definition truthy_str (x : option string) : option string :=
  match x with
  | Some s => if String.eqb s "" then None else Some s
  | None => None
  end.

Definition truthy_float (x : option PyFloat.float) : option PyFloat.float :=
  match x with
  | Some v => if PyFloat.truthy v then Some v else None
  | None => None
  end.

Definition truthy_int (x : option Z) : option Z :=
  match x with
  | Some n => if n =? 0 then None else Some n
  | None => None
  end.

Definition use_testnet (args : Namespace) : bool :=
  args_testnet args && negb (args_mainnet args).

Definition menu_banner : M unit :=
  print (nl ++ rule60) ;;
  print "TRADING BOT - INTERACTIVE MODE" ;;
  print rule60 ;;
  print "1. Place order" ;;
  print "2. Check account balance" ;;
  print "3. Check order status" ;;
  print "4. Cancel order" ;;
  print "5. Exit".

(** [int(text)] as the call that may raise. *)
Definition int_call (text : string) : M Z :=
  match PyInt.of_string text with
  | inr n => ret n
  | inl msg => raise (mk_exn ValueError msg)
  end.

(** The [while True] menu of the interactive mode.  Every turn reads at
    least one event from standard input, so [fuel] above the number of
    pending events is never used up. *)
Fixpoint menu_loop (fuel : nat) (bot : BasicBot) : M unit :=
  match fuel with
  | O => out_of_fuel
  | S fuel' =>
      menu_banner ;;
      choice_line <- input (nl ++ "Select option (1-5): ") ;;
      let choice := PyStr.strip choice_line in
      if String.eqb choice "1" then
        place_order_interactive bot ;;
        menu_loop fuel' bot
      else if String.eqb choice "2" then
        print_account_info bot ;;
        menu_loop fuel' bot
      else if String.eqb choice "3" then
        symbol_line <- input "Enter symbol: " ;;
        let symbol := PyStr.upper (PyStr.strip symbol_line) in
        id_line <- input "Enter order ID: " ;;
        order_id <- int_call (PyStr.strip id_line) ;;
        try_except
          (status <- get_order_status bot symbol order_id ;;
           print_order_details status)
          [(is_Exception, fun e => print ("Error: " ++ exn_str e))] ;;
        menu_loop fuel' bot
      else if String.eqb choice "4" then
        symbol_line <- input "Enter symbol: " ;;
        let symbol := PyStr.upper (PyStr.strip symbol_line) in
        id_line <- input "Enter order ID: " ;;
        order_id <- int_call (PyStr.strip id_line) ;;
        try_except
          (_ <- cancel_order bot symbol order_id ;;
           print "Order cancelled successfully")
          [(is_Exception, fun e => print ("Error: " ++ exn_str e))] ;;
        menu_loop fuel' bot
      else if String.eqb choice "5" then
        print "Exiting..."
      else
        print "Invalid option" ;;
        menu_loop fuel' bot
  end.

Definition interactive_mode (bot : BasicBot) : M unit :=
  fun w => menu_loop (S (List.length (stdin w))) bot w.

(** [--order-status] and [--cancel-order] *)
Definition order_status_mode (bot : BasicBot) (args : Namespace) : M unit :=
  match truthy_str (args_symbol args), truthy_int (args_order_id args) with
  | Some symbol, Some order_id =>
      try_except
        (status <- get_order_status bot symbol order_id ;;
         print_order_details status)
        [(is_Exception, fun e => print ("Error: " ++ exn_str e) ;; sys_exit 1)]
  | _, _ =>
      print "Error: --symbol and --order-id are required for --order-status" ;;
      sys_exit 1
  end.

Definition cancel_order_mode (bot : BasicBot) (args : Namespace) : M unit :=
  match truthy_str (args_symbol args), truthy_int (args_order_id args) with
  | Some symbol, Some order_id =>
      try_except
        (_ <- cancel_order bot symbol order_id ;;
         print "Order cancelled successfully")
        [(is_Exception, fun e => print ("Error: " ++ exn_str e) ;; sys_exit 1)]
  | _, _ =>
      print "Error: --symbol and --order-id are required for --cancel-order" ;;
      sys_exit 1
  end.

(** [--order-type]: [order_type] is the truthy value of the option. *)
Definition place_order_mode (bot : BasicBot) (args : Namespace) (order_type : string)
  : M unit :=
  match truthy_str (args_symbol args), truthy_str (args_side args),
        truthy_float (args_quantity args) with
  | Some symbol, Some side, Some quantity =>
      try_except
        (response <-
           (if String.eqb order_type "market" then
              place_market_order bot symbol side quantity
            else if String.eqb order_type "limit" then
              match truthy_float (args_price args) with
              | Some price => place_limit_order bot symbol side quantity price None
              | None =>
                  print "Error: --price is required for limit orders" ;;
                  sys_exit 1
              end
            else if String.eqb order_type "stop-limit" then
              match truthy_float (args_price args), truthy_float (args_stop_price args) with
              | Some price, Some stop_price =>
                  place_stop_limit_order bot symbol side quantity price stop_price None
              | _, _ =>
                  print "Error: --price and --stop-price are required for stop-limit orders" ;;
                  sys_exit 1
              end
            else raise unbound_response) ;;
         print_order_details response)
        [(is_Exception, fun e => print ("Error placing order: " ++ exn_str e) ;; sys_exit 1)]
  | _, _, _ =>
      print "Error: --symbol, --side, and --quantity are required for placing orders" ;;
      sys_exit 1
  end.

Definition no_operation : M unit :=
  print "No operation specified. Use --interactive, --balance, --order-status, or --order-type" ;;
  (* parser.print_help() writes the usage text, which is not modelled *)
  sys_exit 1.

(** The chain of [if]/[elif] that selects the operation. *)
Definition dispatch (bot : BasicBot) (args : Namespace) : M unit :=
  if args_interactive args then interactive_mode bot
  else if args_balance args then print_account_info bot
  else if args_order_status args then order_status_mode bot args
  else if args_cancel_order args then cancel_order_mode bot args
  else
    match truthy_str (args_order_type args) with
    | Some order_type => place_order_mode bot args order_type
    | None => no_operation
    end.

(** The two [except] clauses around the body of [main]. *)
Definition main_handlers : list ((exn -> bool) * (exn -> M unit)) :=
  [(is_KeyboardInterrupt,
    fun _ => print (nl ++ nl ++ "Operation cancelled by user") ;; sys_exit 0);
   (is_Exception, fun e => print ("Error: " ++ exn_str e) ;; sys_exit 1)].

(** The body of [main] after the command line is parsed. *)
Definition run (args : Namespace) : M unit :=
  try_except
    (bot <- __init__ (args_api_key args) (args_api_secret args) (use_testnet args) ;;
     dispatch bot args)
    main_handlers.

Definition main (av : argv) : M unit :=
  match parse_args av with
  | None => sys_exit 2
  | Some args => run args
  end.

End Cli.

(* ===================================================================== *)
(** ** Vocabulary of the properties *)
(* ===================================================================== *)

Module Props.
Import Bot Cli.

(** An order as the dispatcher receives it, one constructor per method. *)
Inductive order_request : Type :=
  | Market (symbol side : string) (quantity : PyFloat.float)
  | Limit (symbol side : string) (quantity price : PyFloat.float)
      (time_in_force : option string)
  | StopLimit (symbol side : string) (quantity price stop_price : PyFloat.float)
      (time_in_force : option string).

(** The method of [BasicBot] that places the order. *)
Definition place (bot : BasicBot) (o : order_request) : M response :=
  match o with
  | Market symbol side quantity => place_market_order bot symbol side quantity
  | Limit symbol side quantity price tif =>
      place_limit_order bot symbol side quantity price tif
  | StopLimit symbol side quantity price stop_price tif =>
      place_stop_limit_order bot symbol side quantity price stop_price tif
  end.

(** The keyword dictionary the method builds. *)
Definition payload_of (o : order_request) : dict pyval :=
  match o with
  | Market symbol side quantity => market_params symbol side quantity
  | Limit symbol side quantity price tif =>
      limit_params symbol side quantity price (default_GTC tif)
  | StopLimit symbol side quantity price stop_price tif =>
      stop_limit_params symbol side quantity price stop_price (default_GTC tif)
  end.

(** The context the method gives to [_log_error]. *)
Definition context_of (o : order_request) : string :=
  match o with
  | Market symbol _ _ => "placing market order for " ++ symbol
  | Limit symbol _ _ _ _ => "placing limit order for " ++ symbol
  | StopLimit symbol _ _ _ _ _ => "placing stop-limit order for " ++ symbol
  end.

Definition needs_price (o : order_request) : bool :=
  match o with
  | Market _ _ _ => false
  | _ => true
  end.

Definition needs_stop_price (o : order_request) : bool :=
  match o with
  | StopLimit _ _ _ _ _ _ => true
  | _ => false
  end.

Definition has_param (d : dict pyval) (key : string) : bool :=
  match dict_get d key with
  | Some _ => true
  | None => false
  end.

(** The payloads of the [futures_create_order] calls in a trace. *)
Fixpoint order_payloads (cs : list api_call) : list (dict pyval) :=
  match cs with
  | [] => []
  | FuturesCreateOrder p :: r => p :: order_payloads r
  | _ :: r => order_payloads r
  end.

(** The texts logged at level ERROR. *)
Fixpoint errors_of (l : list (log_level * string)) : list string :=
  match l with
  | [] => []
  | (ERROR, t) :: r => t :: errors_of r
  | (INFO, _) :: r => errors_of r
  end.

(** All the spellings of a word in upper and lower case letters. *)
Definition both_cases (c : ascii) : list ascii :=
  if PyStr.is_lower c then [c; PyStr.upper_char c]
  else if PyStr.in_range 65 90 c then [c; PyFloat.lower_char c]
  else [c].

Fixpoint case_variants (s : string) : list string :=
  match s with
  | EmptyString => [EmptyString]
  | String c r =>
      flat_map (fun t => map (fun d => String d t) (both_cases c)) (case_variants r)
  end.

(** No character of the text is white space for [str.strip]. *)
Fixpoint clean (s : string) : bool :=
  match s with
  | EmptyString => true
  | String c r => negb (PyStr.is_space c) && clean r
  end.

(** *** Command lines and typed sessions *)

Definition set_testnet (given : bool) (av : argv) : argv :=
  mk_argv (opt_api_key av) (opt_api_secret av) given (opt_mainnet av)
    (opt_order_type av) (opt_symbol av) (opt_side av) (opt_quantity av) (opt_price av)
    (opt_stop_price av) (opt_balance av) (opt_order_status av) (opt_order_id av)
    (opt_cancel_order av) (opt_interactive av).





(** The first call of the connection test. *)
Definition liveness_call (testnet : bool) : api_call :=
  if testnet then FuturesAccount else GetAccount.

(** An order as the user writes it, on the command line or at the prompts. *)
Inductive order_text : Type :=
  | TMarket (symbol side quantity : string)
  | TLimit (symbol side quantity price : string)
  | TStopLimit (symbol side quantity price stop_price : string).

(** The command line that places the order. *)
Definition flags_of (key secret : string) (o : order_text) : argv :=
  match o with
  | TMarket symbol side quantity =>
      mk_argv (Some key) (Some secret) false false (Some "market")
        (Some symbol) (Some side) (Some quantity) None None false false None false false
  | TLimit symbol side quantity price =>
      mk_argv (Some key) (Some secret) false false (Some "limit")
        (Some symbol) (Some side) (Some quantity) (Some price) None
        false false None false false
  | TStopLimit symbol side quantity price stop_price =>
      mk_argv (Some key) (Some secret) false false (Some "stop-limit")
        (Some symbol) (Some side) (Some quantity) (Some price) (Some stop_price)
        false false None false false
  end.

(** The command line of the interactive mode. *)
Definition interactive_argv (key secret : string) : argv :=
  mk_argv (Some key) (Some secret) false false None None None None None None
    false false None false true.

(** The lines typed to place the order from the menu. *)
Definition prompts_of (o : order_text) : list input_event :=
  match o with
  | TMarket symbol side quantity =>
      [Line symbol; Line "1"; Line side; Line quantity]
  | TLimit symbol side quantity price =>
      [Line symbol; Line "2"; Line side; Line quantity; Line price]
  | TStopLimit symbol side quantity price stop_price =>
      [Line symbol; Line "3"; Line side; Line quantity; Line price; Line stop_price]
  end.

(** Menu entry 1, the order, then menu entry 5. *)
Definition session (o : order_text) : list input_event :=
  (Line "1" :: prompts_of o ++ [Line "5"])%list.

(** A symbol in upper case without white space around it, and a side
    written BUY or SELL. *)
Definition canonical (symbol side : string) : bool :=
  String.eqb (PyStr.upper (PyStr.strip symbol)) symbol
  && negb (String.eqb symbol "")
  && (String.eqb side "BUY" || String.eqb side "SELL").

(** The float of a text that [float] reads as a value above zero. *)
Definition positive_float (text : string) : option PyFloat.float :=
  match PyFloat.of_string text with
  | Some v => if PyFloat.lt PyFloat.zero v then Some v else None
  | None => None
  end.

(** The order a canonical text with positive numbers stands for. *)
Definition read_order (o : order_text) : option order_request :=
  match o with
  | TMarket symbol side quantity =>
      match canonical symbol side, positive_float quantity with
      | true, Some q => Some (Market symbol side q)
      | _, _ => None
      end
  | TLimit symbol side quantity price =>
      match canonical symbol side, positive_float quantity, positive_float price with
      | true, Some q, Some p => Some (Limit symbol side q p None)
      | _, _, _ => None
      end
  | TStopLimit symbol side quantity price stop_price =>
      match canonical symbol side, positive_float quantity, positive_float price,
            positive_float stop_price with
      | true, Some q, Some p, Some sp => Some (StopLimit symbol side q p sp None)
      | _, _, _, _ => None
      end
  end.

End Props.


(* ===================================================================== *)
(** ** Concrete worlds for the examples *)
(* ===================================================================== *)

Module Demo.
Import Bot Cli Props.

Definition empty_response : response := mk_response [] "{}".

(** An exchange that accepts every call. *)
Definition accepting_exchange : exchange_model :=
  fun _ _ => Returns empty_response.

(** An exchange that refuses every order with the error [e]. *)
Definition failing_exchange (e : exn) : exchange_model :=
  fun _ c =>
    match c with
    | FuturesCreateOrder _ => Raises e
    | _ => Returns empty_response
    end.

Definition insufficient_margin : exn :=
  mk_exn BinanceAPIException "APIError(code=-2019): Margin is insufficient.".

Definition start (keys : list input_event) (ex : exchange_model) : world :=
  mk_world keys [] [] [] ex false.

Definition demo_bot : BasicBot :=
  mk_BasicBot "key" "secret" true (mk_Client true (Some testnet_url) None).

(** The float [1.0]. *)
Definition one : PyFloat.float := S754_finite false 4503599627370496 (-52).

End Demo.

(* ===================================================================== *)
(** ** bot.py: the symbol lookup *)
(* ===================================================================== *)

Module Lookup.
Import Bot.

(** What [futures_exchange_info()] returns, as far as the program reads it:
    the entry ['symbols'], when the dictionary has one, lists a dictionary
    per trading pair. *)
Record exchange_info : Type := mk_exchange_info {
  symbols : option (list (dict pyval))
}.

(** [KeyError(key)], whose text is the [repr] of the key. *)
Definition key_error (key : string) : exn :=
  mk_exn (OtherException "KeyError") (PyStr.repr key).

(** [d[key]] *)
Definition subscript {V : Type} (d : dict V) (key : string) : M V :=
  match dict_get d key with
  | Some v => ret v
  | None => raise (key_error key)
  end.

(** [value == symbol] for a value of the exchange and a string. *)
Definition eq_str (value : pyval) (symbol : string) : bool :=
  match value with
  | VStr t => String.eqb t symbol
  | VFloat _ => false
  end.

(** The [for] loop over the trading pairs, and the [raise] after it. *)
Fixpoint find_symbol (l : list (dict pyval)) (symbol : string) : M (dict pyval) :=
  match l with
  | [] => raise (mk_exn ValueError ("Symbol " ++ symbol ++ " not found"))
  | s :: r =>
      name <- subscript s "symbol" ;;
      if eq_str name symbol then ret s else find_symbol r symbol
  end.

Section GetSymbolInfo.

(** The method [futures_exchange_info] of the client. *)
Variable futures_exchange_info : M exchange_info.

Definition get_symbol_info (self : BasicBot) (symbol : string) : M (dict pyval) :=
  try_except
    (exchange_info <- futures_exchange_info ;;
     l <- match symbols exchange_info with
          | Some l => ret l
          | None => raise (key_error "symbols")
          end ;;
     find_symbol l symbol)
    [(is_Exception,
      fun e => _log_error e ("getting symbol info for " ++ symbol) ;; raise e)].

End GetSymbolInfo.

(** The entry is the one of the trading pair [symbol]. *)
Definition names (symbol : string) (s : dict pyval) : bool :=
  match dict_get s "symbol" with
  | Some name => eq_str name symbol
  | None => false
  end.

Definition has_name (s : dict pyval) : bool :=
  match dict_get s "symbol" with
  | Some _ => true
  | None => false
  end.

End Lookup.

(* ===================================================================== *)
(** ** example.py *)
(* ===================================================================== *)

Module Example.
Import Bot.

Definition API_KEY : string := "your_api_key_here".
Definition API_SECRET : string := "your_api_secret_here".

Definition main : M unit :=
  print "Initializing bot..." ;;
  bot <- __init__ API_KEY API_SECRET true ;;
  print (nl ++ "Checking account balance...") ;;
  balance <- get_account_balance bot ;;
  available <- Lookup.subscript balance "available_balance" ;;
  print ("Available balance: " ++ available ++ " USDT") ;;
  print (nl ++ "Example completed!").

End Example.

(* ===================================================================== *)
(** ** Vocabulary of the properties of whole runs *)
(* ===================================================================== *)

Module Traces.
Import Bot Cli Props.

(** The process ends with one of the exit statuses [codes]: a normal return
    is status 0; an exception that escapes, or a menu loop that is cut by
    its bound, is not an exit status. *)
Definition status_in (codes : list Z) {A : Type} (o : outcome A) : bool :=
  match o with
  | Ret _ => existsb (Z.eqb 0) codes
  | Exit c => existsb (Z.eqb c) codes
  | Raise _ => false
  | OutOfFuel => false
  end.

(** The computation returns or raises: it does not end the process, and the
    bound of the menu loop is not used up. *)
Definition completes {A : Type} (o : outcome A) : bool :=
  match o with
  | Ret _ => true
  | Raise _ => true
  | Exit _ => false
  | OutOfFuel => false
  end.

(** A computation that always completes and only consumes standard input. *)
Definition steady {A : Type} (m : M A) : Prop :=
  forall w,
    completes (fst (m w)) = true /\
    (List.length (stdin (snd (m w))) <= List.length (stdin w))%nat.

(** A computation that completes whenever fewer than [n] events are pending
    on standard input. *)
Definition bounded (n : nat) {A : Type} (m : M A) : Prop :=
  forall w, (List.length (stdin w) < n)%nat -> completes (fst (m w)) = true.

(** The computation returns, raises, or ends the process with status 1. *)
Definition ends_well {A : Type} (o : outcome A) : bool :=
  match o with
  | Ret _ => true
  | Raise _ => true
  | Exit c => c =? 1
  | OutOfFuel => false
  end.

Definition tame {A : Type} (m : M A) : Prop :=
  forall w, ends_well (fst (m w)) = true.

(** The order that the options of the command line ask for, when all the
    options its type requires are given and truthy. *)
Definition order_of_flags (args : Namespace) (order_type : string) : option order_request :=
  match truthy_str (args_symbol args), truthy_str (args_side args),
        truthy_float (args_quantity args) with
  | Some symbol, Some side, Some quantity =>
      if String.eqb order_type "market" then Some (Market symbol side quantity)
      else if String.eqb order_type "limit" then
        match truthy_float (args_price args) with
        | Some price => Some (Limit symbol side quantity price None)
        | None => None
        end
      else if String.eqb order_type "stop-limit" then
        match truthy_float (args_price args), truthy_float (args_stop_price args) with
        | Some price, Some stop_price =>
            Some (StopLimit symbol side quantity price stop_price None)
        | _, _ => None
        end
      else None
  | _, _, _ => None
  end.

(** The order that the lines typed at the prompts stand for, when the
    prompts accept them: the symbol without the white space around it and
    in upper case, the side and the amounts as the validators return them
    for the lines without the white space around them. *)
Definition typed_order (o : order_text) : option order_request :=
  let common (symbol_line side_line quantity_line : string) :=
    let symbol := PyStr.upper (PyStr.strip symbol_line) in
    if String.eqb symbol "" then None
    else
      match validate_side (PyStr.strip side_line),
            validate_positive_float (PyStr.strip quantity_line) "Quantity" with
      | inr side, inr quantity => Some (symbol, side, quantity)
      | _, _ => None
      end in
  match o with
  | TMarket symbol_line side_line quantity_line =>
      match common symbol_line side_line quantity_line with
      | Some (symbol, side, quantity) => Some (Market symbol side quantity)
      | None => None
      end
  | TLimit symbol_line side_line quantity_line price_line =>
      match common symbol_line side_line quantity_line,
            validate_positive_float (PyStr.strip price_line) "Price" with
      | Some (symbol, side, quantity), inr price =>
          Some (Limit symbol side quantity price None)
      | _, _ => None
      end
  | TStopLimit symbol_line side_line quantity_line price_line stop_line =>
      match common symbol_line side_line quantity_line,
            validate_positive_float (PyStr.strip price_line) "Price",
            validate_positive_float (PyStr.strip stop_line) "Stop price" with
      | Some (symbol, side, quantity), inr price, inr stop_price =>
          Some (StopLimit symbol side quantity price stop_price None)
      | _, _, _ => None
      end
  end.

(** The value sent for an amount is a float that is not at most zero. *)
Definition above_zero (v : pyval) : bool :=
  match v with
  | VFloat x => negb (PyFloat.le x PyFloat.zero)
  | VStr _ => false
  end.

(** An order as the validators of the prompts leave it: the side is BUY or
    SELL, the symbol is not empty and in upper case, and no amount that is
    sent is at most zero. *)
Definition validated_order (p : dict pyval) : bool :=
  match dict_get p "side" with
  | Some (VStr s) => String.eqb s "BUY" || String.eqb s "SELL"
  | _ => false
  end
  && match dict_get p "symbol" with
     | Some (VStr s) => negb (String.eqb s "") && String.eqb (PyStr.upper s) s
     | _ => false
     end
  && match dict_get p "quantity" with
     | Some v => above_zero v
     | None => false
     end
  && match dict_get p "price" with
     | Some v => above_zero v
     | None => true
     end
  && match dict_get p "stopPrice" with
     | Some v => above_zero v
     | None => true
     end.

(** Every order sent so far is a validated one. *)
Definition orders_validated (w : world) : Prop :=
  forallb validated_order (order_payloads (calls w)) = true.

Definition keeps {A : Type} (m : M A) : Prop :=
  forall w, orders_validated w -> orders_validated (snd (m w)).

(** The call that constructs a client. *)
Definition constructs (c : api_call) : bool :=
  match c with
  | ClientNew _ _ _ => true
  | _ => false
  end.

(** The computation only adds calls to the trace, and constructs no
    client: the calls made before it are all still there, below the ones it
    made, and none of the ones it made is a constructor. *)
Definition extends {A : Type} (m : M A) : Prop :=
  forall w,
    exists later,
      calls (snd (m w)) = app later (calls w) /\ existsb constructs later = false.

End Traces.
(* ===================================================================== *)
(** ** Properties of the dispatcher *)
(* ===================================================================== *)

(** Evaluation of a run that keeps the texts folded. *)
Ltac run_step :=
  cbn -[String.append PyFloat.repr repr_params PyInt.str PyStr.upper PyStr.strip
        PyFloat.of_string PyInt.of_string nl rule60 PyStr.contains
        Cli.validate_side Cli.validate_positive_float Cli.print_order_details
        Bot.place_market_order Bot.place_limit_order Bot.place_stop_limit_order].

Module BotProps.
Import Bot Cli Props.

(** What an order method does to the world, by the answer of the exchange:
    two INFO entries and the call; then two more INFO entries and the
    response, or one ERROR entry and the exception of the exchange. *)
Lemma place_run (bot : BasicBot) (o : order_request) (w : world) :
  exists (before : list (log_level * string))
         (after : response -> list (log_level * string)),
    Forall (fun entry => fst entry = INFO) before /\
    (forall r, Forall (fun entry => fst entry = INFO) (after r)) /\
    place bot o w =
      let w1 := with_calls (FuturesCreateOrder (payload_of o) :: calls w)
                  (with_log (fun l => (before ++ l)%list) w) in
      match exchange w (calls w) (FuturesCreateOrder (payload_of o)) with
      | Returns r => (Ret r, with_log (fun l => (after r ++ l)%list) w1)
      | Raises e =>
          if is_Exception e then
            (Raise e,
             with_log (fun l =>
                 (ERROR, "Error " ++ context_of o ++ ": "
                           ++ class_name (exn_type e) ++ " - " ++ exn_str e) :: l) w1)
          else (Raise e, w1)
      end.
Proof.
  destruct o;
    (eexists [(INFO, _); (INFO, _)], (fun r => [(INFO, _); (INFO, _)]);
     split; [repeat constructor|]; split; [intro; repeat constructor|];
     unfold place, place_market_order, place_limit_order, place_stop_limit_order,
       try_except, bind, logger_info, _log_request, _log_response, call_client;
     run_step;
     destruct (exchange w (calls w) _) as [r|[[] msg]]; run_step; reflexivity).
Qed.

(** An order method makes exactly one call, with the payload of the order,
    and touches neither the input nor the output. *)
Lemma place_effects (bot : BasicBot) (o : order_request) (w : world) :
  calls (snd (place bot o w)) = FuturesCreateOrder (payload_of o) :: calls w /\
  stdin (snd (place bot o w)) = stdin w /\
  stdout (snd (place bot o w)) = stdout w /\
  exchange (snd (place bot o w)) = exchange w /\
  has_futures_base_url (snd (place bot o w)) = has_futures_base_url w.
Proof.
  destruct (place_run bot o w) as (before & after & _ & _ & ->).
  cbv zeta.
  destruct (exchange w (calls w) _) as [r|e]; [|destruct (is_Exception e)];
    repeat split.
Qed.

(** C5. When the exchange client raises an error [e] (an exception deriving
    from [Exception]) on the order call of [place_market_order],
    [place_limit_order] or [place_stop_limit_order], the method raises that
    same [e], the call was made exactly once, and the log gains exactly one
    ERROR entry, which carries the context of the call, next to INFO
    entries. *)
Theorem exchange_error_logged_once_and_reraised
    (bot : BasicBot) (o : order_request) (w : world) (e : exn) :
  exchange w (calls w) (FuturesCreateOrder (payload_of o)) = Raises e ->
  is_Exception e = true ->
  fst (place bot o w) = Raise e /\
  calls (snd (place bot o w)) = FuturesCreateOrder (payload_of o) :: calls w /\
  exists infos,
    Forall (fun entry => fst entry = INFO) infos /\
    log (snd (place bot o w)) =
      (ERROR, "Error " ++ context_of o ++ ": " ++ class_name (exn_type e)
                ++ " - " ++ exn_str e) :: (infos ++ log w)%list.
Proof.
  intros Hraise Hexn.
  destruct (place_run bot o w) as (before & after & Hbefore & _ & ->).
  cbv zeta. rewrite Hraise, Hexn.
  repeat split. exists before. split; [exact Hbefore|reflexivity].
Qed.

Lemma exchange_error_logged_once_and_reraised_witness :
  fst (place Demo.demo_bot (Market "BTCUSDT" "buy" Demo.one)
         (Demo.start [] (Demo.failing_exchange Demo.insufficient_margin)))
  = Raise Demo.insufficient_margin.
Proof.
  apply (exchange_error_logged_once_and_reraised Demo.demo_bot
           (Market "BTCUSDT" "buy" Demo.one)
           (Demo.start [] (Demo.failing_exchange Demo.insufficient_margin))
           Demo.insufficient_margin);
    reflexivity.
Defined.

(** C6. The payload an order method passes to [futures_create_order] has a
    [price] exactly when the order is a limit or stop-limit order and a
    [stopPrice] exactly when it is a stop-limit order: the market payload is
    symbol, side, type MARKET and quantity; the limit payload adds price and
    timeInForce; the stop-limit payload has type STOP with price, stopPrice
    and timeInForce; timeInForce is GTC when the caller passes none. *)
Theorem payload_fields_by_order_type (bot : BasicBot) (o : order_request) (w : world) :
  calls (snd (place bot o w)) = FuturesCreateOrder (payload_of o) :: calls w /\
  has_param (payload_of o) "price" = needs_price o /\
  has_param (payload_of o) "stopPrice" = needs_stop_price o /\
  match o with
  | Market symbol side quantity =>
      payload_of o =
        [("symbol", VStr symbol); ("side", VStr (PyStr.upper side));
         ("type", VStr "MARKET"); ("quantity", VFloat quantity)]
  | Limit symbol side quantity price tif =>
      payload_of o =
        [("symbol", VStr symbol); ("side", VStr (PyStr.upper side));
         ("type", VStr "LIMIT"); ("quantity", VFloat quantity);
         ("price", VFloat price);
         ("timeInForce", VStr match tif with Some t => t | None => "GTC" end)]
  | StopLimit symbol side quantity price stop_price tif =>
      payload_of o =
        [("symbol", VStr symbol); ("side", VStr (PyStr.upper side));
         ("type", VStr "STOP"); ("quantity", VFloat quantity);
         ("price", VFloat price); ("stopPrice", VFloat stop_price);
         ("timeInForce", VStr match tif with Some t => t | None => "GTC" end)]
  end.
Proof.
  split; [apply place_effects|].
  destruct o; repeat split.
Qed.

End BotProps.

(* ===================================================================== *)
(** ** Properties of the validators *)
(* ===================================================================== *)

Module ValidatorProps.
Import Bot Cli Props.

Lemma starts_with_app (p r : string) : PyStr.starts_with p (p ++ r) = true.
Proof.
  induction p as [|c p IH]; simpl; [reflexivity|].
  now rewrite Ascii.eqb_refl.
Qed.

(** A text contains each of its prefixes. *)
Lemma contains_prefix (p r : string) : PyStr.contains p (p ++ r) = true.
Proof.
  destruct p as [|c p]; simpl; [destruct r; reflexivity|].
  now rewrite Ascii.eqb_refl, starts_with_app.
Qed.

Lemma both_cases_upper (c : ascii) : In c (both_cases (PyStr.upper_char c)).
Proof.
  destruct c as [[] [] [] [] [] [] [] []]; vm_compute; tauto.
Qed.

Lemma upper_both_cases (c d : ascii) :
  In c (both_cases d) -> PyStr.upper_char c = PyStr.upper_char d.
Proof.
  intros H.
  destruct d as [[] [] [] [] [] [] [] []]; vm_compute in H;
    repeat (destruct H as [<-|H]; [vm_compute; reflexivity|]); destruct H.
Qed.

(** The spellings of [t] in either case are the texts with the upper case
    form of [t]. *)
Lemma case_variants_complete (s : string) : In s (case_variants (PyStr.upper s)).
Proof.
  induction s as [|c s IH]; [now left|].
  cbn [PyStr.upper case_variants].
  apply in_flat_map. exists s. split; [exact IH|].
  apply in_map_iff. exists c. split; [reflexivity|apply both_cases_upper].
Qed.

Lemma case_variants_sound (t s : string) :
  In s (case_variants t) -> PyStr.upper s = PyStr.upper t.
Proof.
  revert s. induction t as [|d t IH]; intros s H.
  - destruct H as [<-|[]]. reflexivity.
  - cbn [case_variants] in H. apply in_flat_map in H.
    destruct H as (r & Hr & H). apply in_map_iff in H.
    destruct H as (c & <- & Hc).
    cbn [PyStr.upper]. now rewrite (IH _ Hr), (upper_both_cases _ _ Hc).
Qed.

Lemma validate_side_cases (side : string) :
  ((PyStr.upper side = "BUY" \/ PyStr.upper side = "SELL") /\
   validate_side side = inr (PyStr.upper side)) \/
  (PyStr.upper side <> "BUY" /\ PyStr.upper side <> "SELL" /\
   validate_side side =
     value_error ("Side must be 'BUY' or 'SELL', got '" ++ side ++ "'")).
Proof.
  unfold validate_side. cbn [existsb].
  destruct (String.eqb_spec (PyStr.upper side) "BUY") as [E|Hb];
    [left; split; [now left|reflexivity]|].
  destruct (String.eqb_spec (PyStr.upper side) "SELL") as [E|Hs];
    [left; split; [now right|reflexivity]|].
  right. repeat split; assumption.
Qed.

(** C8. [validate_side] fails on every text whose upper case form is
    neither BUY nor SELL; on every spelling of BUY or SELL in upper and
    lower case letters it returns BUY, respectively SELL; whatever it
    returns is the upper case form of its input, and validating that again
    returns it unchanged. *)
Theorem validate_side_spec (side : string) :
  (PyStr.upper side <> "BUY" -> PyStr.upper side <> "SELL" ->
   validate_side side =
     value_error ("Side must be 'BUY' or 'SELL', got '" ++ side ++ "'")) /\
  (In side (case_variants "BUY") -> validate_side side = inr "BUY") /\
  (In side (case_variants "SELL") -> validate_side side = inr "SELL") /\
  (forall v, validate_side side = inr v ->
     v = PyStr.upper side /\ In side (case_variants v) /\
     (v = "BUY" \/ v = "SELL") /\ validate_side v = inr v).
Proof.
  destruct (validate_side_cases side) as [(Hv & E)|(Hb & Hs & E)]; rewrite E.
  - split; [intros Hb Hs; destruct Hv; contradiction|].
    split; [intros H; apply case_variants_sound in H; now rewrite H|].
    split; [intros H; apply case_variants_sound in H; now rewrite H|].
    intros v [= <-]. split; [reflexivity|]. split; [apply case_variants_complete|].
    split; [exact Hv|]. destruct Hv as [-> | ->]; reflexivity.
  - split; [reflexivity|].
    split; [intros H; apply case_variants_sound in H; contradiction|].
    split; [intros H; apply case_variants_sound in H; contradiction|].
    intros v H. discriminate H.
Qed.

Lemma validate_side_spec_witness :
  validate_side "limit" = value_error "Side must be 'BUY' or 'SELL', got 'limit'" /\
  validate_side "sElL" = inr "SELL" /\
  validate_side "buy" = inr "BUY" /\
  validate_side "SELL" = inr "SELL".
Proof.
  split; [|split; [|split]].
  - apply (proj1 (validate_side_spec "limit")); discriminate.
  - apply (proj1 (proj2 (proj2 (validate_side_spec "sElL")))).
    vm_compute. tauto.
  - apply (proj1 (proj2 (validate_side_spec "buy"))).
    vm_compute. tauto.
  - apply (proj2 (proj2 (proj2 (validate_side_spec "sell"))) "SELL").
    reflexivity.
Defined.

Lemma lt_zero_not_le (v : PyFloat.float) :
  PyFloat.lt PyFloat.zero v = true -> PyFloat.le v PyFloat.zero = false.
Proof.
  destruct v as [s|s| |s m e]; try destruct s; cbn; congruence.
Qed.

Lemma lt_zero_truthy (v : PyFloat.float) :
  PyFloat.lt PyFloat.zero v = true -> PyFloat.truthy v = true.
Proof.
  destruct v as [s|s| |s m e]; try destruct s; cbn; congruence.
Qed.

(** What [validate_positive_float] returns, by what [float] makes of the
    text. *)
Lemma validate_positive_float_unparsed (value name : string) :
  PyFloat.of_string value = None ->
  validate_positive_float value name =
    value_error (name ++ " must be a valid number, got '" ++ value ++ "'").
Proof.
  intros H. unfold validate_positive_float, float_call. rewrite H.
  cbn [value_error is_ValueError exn_type exn_str].
  now rewrite (contains_prefix "could not convert" (" string to float: " ++ PyStr.repr value)
               : PyStr.contains "could not convert"
                   ("could not convert string to float: " ++ PyStr.repr value) = true).
Qed.

Lemma validate_positive_float_positive (value name : string) (v : PyFloat.float) :
  PyFloat.of_string value = Some v ->
  PyFloat.lt PyFloat.zero v = true ->
  validate_positive_float value name = inr v.
Proof.
  intros H Hv. unfold validate_positive_float, float_call.
  now rewrite H, (lt_zero_not_le v Hv).
Qed.

(** C1, as the code has it.  A text that [float] cannot read, or reads as a
    value at most zero, is refused with a [ValueError] whose text begins
    with the field name; a text that [float] reads as a value above zero is
    returned as that float, and this includes the infinite value that
    [float] gives for [inf] or for a number too large for a float. *)
Theorem validate_positive_float_spec (value name : string) :
  (PyFloat.of_string value = None ->
   validate_positive_float value name =
     value_error (name ++ " must be a valid number, got '" ++ value ++ "'")) /\
  (forall v, PyFloat.of_string value = Some v -> PyFloat.le v PyFloat.zero = true ->
     exists rest, validate_positive_float value name = value_error (name ++ rest)) /\
  (forall v, PyFloat.of_string value = Some v -> PyFloat.lt PyFloat.zero v = true ->
     validate_positive_float value name = inr v) /\
  validate_positive_float "inf" name = inr PyFloat.inf /\
  validate_positive_float "1e400" name = inr PyFloat.inf.
Proof.
  split; [apply validate_positive_float_unparsed|].
  split.
  - intros v H Hv. unfold validate_positive_float, float_call.
    rewrite H, Hv. cbn [value_error is_ValueError exn_type exn_str].
    destruct (PyStr.contains _ _); eexists; reflexivity.
  - split; [intros v; apply validate_positive_float_positive|].
    split; apply validate_positive_float_positive; vm_compute; reflexivity.
Qed.

Lemma validate_positive_float_spec_witness :
  validate_positive_float "abc" "Quantity" =
    value_error "Quantity must be a valid number, got 'abc'" /\
  (exists rest, validate_positive_float "-1" "Price" = value_error ("Price" ++ rest)) /\
  validate_positive_float "0.5" "Stop price" = inr (S754_finite false 4503599627370496 (-53)).
Proof.
  split; [|split].
  - apply (proj1 (validate_positive_float_spec "abc" "Quantity")).
    vm_compute. reflexivity.
  - apply (proj1 (proj2 (validate_positive_float_spec "-1" "Price"))
             (S754_finite true 4503599627370496 (-52))).
    + vm_compute. reflexivity.
    + vm_compute. reflexivity.
  - apply (proj1 (proj2 (proj2 (validate_positive_float_spec "0.5" "Stop price")))).
    + vm_compute. reflexivity.
    + vm_compute. reflexivity.
Defined.

(** The claim of C1 fails as stated: [inf] is not a finite number, and
    [validate_positive_float] accepts it. *)
Lemma nonfinite_text_is_accepted :
  ~ (forall value name,
       (forall v, PyFloat.of_string value = Some v ->
                  PyFloat.is_finite v && PyFloat.lt PyFloat.zero v = false) ->
       exists e, validate_positive_float value name = inl e).
Proof.
  intros claim.
  destruct (claim "inf" "Quantity") as [e He].
  - intros v Hv. vm_compute in Hv. injection Hv as <-. reflexivity.
  - vm_compute in He. discriminate.
Qed.

End ValidatorProps.

(* ===================================================================== *)
(** ** [float] does not see the white space that [strip] removes *)
(* ===================================================================== *)

Module FloatProps.
Import PyStr PyFloat Props.

Lemma c_space_is_space (c : ascii) : is_c_space c = true -> is_space c = true.
Proof.
  destruct c as [[] [] [] [] [] [] [] []]; vm_compute; congruence.
Qed.

Lemma not_space_not_c_space (c : ascii) : is_space c = false -> is_c_space c = false.
Proof.
  intros H. destruct (is_c_space c) eqn:E; [|reflexivity].
  apply c_space_is_space in E. congruence.
Qed.

Lemma clean_cons (c : ascii) (r : string) :
  clean (String c r) = true <-> is_space c = false /\ clean r = true.
Proof.
  cbn [clean]. rewrite andb_true_iff, negb_true_iff. tauto.
Qed.

Lemma clean_app (a b : string) :
  clean (a ++ b) = true <-> clean a = true /\ clean b = true.
Proof.
  induction a as [|c a IH]; cbn [append].
  - cbn. tauto.
  - rewrite !clean_cons, IH. tauto.
Qed.

(** Stripping a text whose ends are not white space changes nothing. *)
Lemma rstrip_clean (sp : ascii -> bool) (u : string) :
  (forall c, is_space c = false -> sp c = false) ->
  clean u = true -> rstrip_with sp u = u.
Proof.
  intros Hsp. induction u as [|c u IH]; [reflexivity|].
  intros H. apply clean_cons in H as [Hc Hu].
  cbn [rstrip_with]. rewrite (IH Hu), (Hsp c Hc). now destruct u.
Qed.

Lemma lstrip_clean (sp : ascii -> bool) (u : string) :
  (forall c, is_space c = false -> sp c = false) ->
  clean u = true -> lstrip_with sp u = u.
Proof.
  intros Hsp. destruct u as [|c u]; [reflexivity|].
  intros H. apply clean_cons in H as [Hc Hu].
  cbn [lstrip_with]. now rewrite (Hsp c Hc).
Qed.

(** The narrow strip of [float] and the wide strip of [str.strip] agree
    when the narrow one leaves a text free of white space. *)
Lemma rstrip_all_space (s : string) :
  rstrip_with is_c_space s = "" -> rstrip_with is_space s = "".
Proof.
  induction s as [|c s IH]; [reflexivity|].
  cbn [rstrip_with]. destruct (rstrip_with is_c_space s) eqn:E; [|discriminate].
  rewrite (IH eq_refl). destruct (is_c_space c) eqn:Ec; [|discriminate].
  now rewrite (c_space_is_space c Ec).
Qed.

Lemma rstrip_agree (s u : string) :
  rstrip_with is_c_space s = u -> clean u = true ->
  rstrip_with is_space s = u.
Proof.
  revert u. induction s as [|c s IH]; intros u Hu Hclean; [exact Hu|].
  cbn [rstrip_with] in *.
  destruct (rstrip_with is_c_space s) as [|d r] eqn:E.
  - rewrite (rstrip_all_space s E).
    destruct (is_c_space c) eqn:Ec; subst u.
    + now rewrite (c_space_is_space c Ec).
    + apply clean_cons in Hclean as [Hc _]. now rewrite Hc.
  - subst u. apply clean_cons in Hclean as [_ Hr].
    now rewrite (IH (String d r) eq_refl Hr).
Qed.

Lemma lstrip_agree (s : string) (c : ascii) (r : string) :
  lstrip_with is_c_space s = String c r -> is_space c = false ->
  lstrip_with is_space s = String c r.
Proof.
  induction s as [|d s IH]; [discriminate|].
  cbn [lstrip_with]. destruct (is_c_space d) eqn:Ed.
  - rewrite (c_space_is_space d Ed). exact IH.
  - intros [= -> ->] Hc. now rewrite Hc.
Qed.

Lemma rstrip_head (sp : ascii -> bool) (c : ascii) (s : string) (d : ascii) (u : string) :
  rstrip_with sp (String c s) = String d u -> d = c.
Proof.
  cbn [rstrip_with]. destruct (rstrip_with sp s); [destruct (sp c)|]; congruence.
Qed.

Lemma strip_agree (s u : string) :
  rstrip_with is_c_space (lstrip_with is_c_space s) = u ->
  clean u = true -> u <> "" ->
  strip s = u.
Proof.
  intros Hu Hclean Hne. unfold strip.
  destruct (lstrip_with is_c_space s) as [|c r] eqn:E.
  - cbn in Hu. congruence.
  - destruct u as [|d u]; [congruence|].
    pose proof (rstrip_head _ _ _ _ _ Hu) as ->.
    pose proof (proj1 (clean_cons c u) Hclean) as [Hc _].
    rewrite (lstrip_agree s c r E Hc).
    now apply rstrip_agree.
Qed.

(** *** Underscores and white space *)

Lemma space_facts (c : ascii) :
  is_c_space c = true -> is_digit c = false /\ Ascii.eqb c "_" = false.
Proof.
  destruct c as [[] [] [] [] [] [] [] []]; vm_compute; intuition congruence.
Qed.

Lemma underscore_not_space : is_space "_" = false.
Proof. reflexivity. Qed.

(** Only whether the character before is a digit or an underscore matters. *)
Lemma remove_underscores_prev (a b : ascii) (s : string) :
  is_digit a = is_digit b -> Ascii.eqb a "_" = Ascii.eqb b "_" ->
  remove_underscores_from a s = remove_underscores_from b s.
Proof.
  intros Hd Hu. destruct s as [|c s]; cbn [remove_underscores_from];
    rewrite ?Hd, ?Hu; reflexivity.
Qed.

Lemma remove_underscores_empty (prev : ascii) (s : string) :
  remove_underscores_from prev s = Some "" -> s = "".
Proof.
  revert prev. induction s as [|c s IH]; intros prev; [reflexivity|].
  cbn [remove_underscores_from].
  destruct (Ascii.eqb c "_") eqn:Ec.
  - destruct (is_digit prev); [|discriminate].
    intros H. pose proof (IH c H) as ->.
    cbn in H. rewrite Ec in H. discriminate.
  - destruct (Ascii.eqb prev "_" && negb (is_digit c)); [discriminate|].
    destruct (remove_underscores_from c s); discriminate.
Qed.

Lemma remove_underscores_clean (prev : ascii) (s u : string) :
  remove_underscores_from prev s = Some u -> clean u = true -> clean s = true.
Proof.
  revert prev u. induction s as [|c s IH]; intros prev u; [reflexivity|].
  cbn [remove_underscores_from].
  destruct (Ascii.eqb_spec c "_") as [->|Hc].
  - destruct (is_digit prev); [|discriminate].
    intros H Hu. apply clean_cons. split; [reflexivity|]. exact (IH _ _ H Hu).
  - destruct (Ascii.eqb prev "_" && negb (is_digit c)); [discriminate|].
    destruct (remove_underscores_from c s) as [t|] eqn:E; [|discriminate].
    intros [= <-] Hu. apply clean_cons in Hu as [H1 H2].
    apply clean_cons. split; [exact H1|]. exact (IH _ _ E H2).
Qed.

Lemma remove_underscores_lstrip (prev : ascii) (s t : string) :
  is_digit prev = false -> Ascii.eqb prev "_" = false ->
  remove_underscores_from prev s = Some t ->
  remove_underscores_from prev (lstrip_with is_c_space s)
    = Some (lstrip_with is_c_space t).
Proof.
  revert prev t. induction s as [|c s IH]; intros prev t Hd Hu.
  - cbn. rewrite Hu. now intros [= <-].
  - intros H. cbn [lstrip_with]. destruct (is_c_space c) eqn:Ec.
    + destruct (space_facts c Ec) as [Hcd Hcu].
      cbn [remove_underscores_from] in H. rewrite Hcu, Hu in H. cbn [andb] in H.
      destruct (remove_underscores_from c s) as [t1|] eqn:E; [|discriminate].
      injection H as <-. cbn [lstrip_with]. rewrite Ec.
      rewrite (remove_underscores_prev prev c) by congruence.
      now apply IH.
    + rewrite H. f_equal.
      cbn [remove_underscores_from] in H.
      destruct (Ascii.eqb c "_"); [rewrite Hd in H; discriminate|].
      rewrite Hu in H. cbn [andb] in H.
      destruct (remove_underscores_from c s); [|discriminate].
      injection H as <-. cbn [lstrip_with]. now rewrite Ec.
Qed.

Lemma remove_underscores_rstrip (prev : ascii) (s t : string) :
  remove_underscores_from prev s = Some t ->
  remove_underscores_from prev (rstrip_with is_c_space s)
    = Some (rstrip_with is_c_space t).
Proof.
  revert prev t. induction s as [|c s IH]; intros prev t.
  - cbn. destruct (Ascii.eqb prev "_"); [discriminate|]. now intros [= <-].
  - cbn [remove_underscores_from].
    destruct (Ascii.eqb_spec c "_") as [->|Hc].
    + destruct (is_digit prev) eqn:Hd; [|discriminate].
      intros H. pose proof (IH _ _ H) as IH'.
      cbn [rstrip_with].
      destruct (rstrip_with is_c_space s) as [|d r] eqn:E.
      * cbn in IH'. discriminate.
      * remember (String d r) as x. cbn [remove_underscores_from].
        rewrite Hd. exact IH'.
    + destruct (Ascii.eqb prev "_" && negb (is_digit c)) eqn:Hp; [discriminate|].
      destruct (remove_underscores_from c s) as [t1|] eqn:E; [|discriminate].
      intros [= <-]. pose proof (IH _ _ E) as IH'.
      cbn [rstrip_with].
      destruct (rstrip_with is_c_space s) as [|d r] eqn:Es.
      * cbn in IH'. destruct (Ascii.eqb c "_"); [discriminate|].
        injection IH' as <-.
        destruct (is_c_space c) eqn:Ec.
        -- destruct (space_facts c Ec) as [Hcd _]. rewrite Hcd in Hp.
           cbn in Hp. rewrite andb_true_r in Hp. cbn. now rewrite Hp.
        -- cbn [remove_underscores_from]. apply Ascii.eqb_neq in Hc.
           now rewrite Hc, Hp.
      * destruct (rstrip_with is_c_space t1) as [|d1 r1] eqn:Et.
        -- apply remove_underscores_empty in IH'. discriminate.
        -- remember (String d r) as x. cbn [remove_underscores_from].
           apply Ascii.eqb_neq in Hc. now rewrite Hc, Hp, IH'.
Qed.

(** *** The scanner reads no white space *)

Lemma digit_not_space (c : ascii) : is_digit c = true -> is_space c = false.
Proof.
  destruct c as [[] [] [] [] [] [] [] []]; vm_compute; congruence.
Qed.

Lemma lower_not_space (c : ascii) : is_space (lower_char c) = false -> is_space c = false.
Proof.
  destruct c as [[] [] [] [] [] [] [] []]; vm_compute; congruence.
Qed.

Lemma span_digits_split (s d r : string) :
  span_digits s = (d, r) -> s = d ++ r /\ clean d = true.
Proof.
  revert d r. induction s as [|c s IH]; intros d r.
  - intros [= <- <-]. now split.
  - cbn [span_digits]. destruct (is_digit c) eqn:Ec.
    + destruct (span_digits s) as [d1 r1]. intros [= <- <-].
      destruct (IH d1 r1 eq_refl) as [-> Hd]. split; [reflexivity|].
      apply clean_cons. split; [now apply digit_not_space|exact Hd].
    + intros [= <- <-]. now split.
Qed.

(** [consumed s r]: [s] is a text free of white space followed by [r]. *)
Lemma consumed_refl (s : string) : exists x, s = x ++ s /\ clean x = true.
Proof. now exists "". Qed.

Lemma consumed_char (c : ascii) (r : string) :
  is_space c = false -> exists x, String c r = x ++ r /\ clean x = true.
Proof.
  intros H. exists (String c ""). split; [reflexivity|].
  apply clean_cons. now split.
Qed.

Lemma consumed_trans (s r t : string) :
  (exists x, s = x ++ r /\ clean x = true) ->
  (exists y, r = y ++ t /\ clean y = true) ->
  exists z, s = z ++ t /\ clean z = true.
Proof.
  intros (x & -> & Hx) (y & -> & Hy). exists (x ++ y). split.
  - clear. induction x as [|c x IH]; [reflexivity|]. cbn. now rewrite IH.
  - apply clean_app. now split.
Qed.

Lemma parse_sign_consumed (s r : string) (neg : bool) :
  parse_sign s = (neg, r) -> exists x, s = x ++ r /\ clean x = true.
Proof.
  unfold parse_sign.
  destruct s as [|c s]; [intros [= <- <-]; apply consumed_refl|].
  destruct (Ascii.eqb_spec c "-") as [->|H1];
    [intros [= <- <-]; now apply consumed_char|].
  destruct (Ascii.eqb_spec c "+") as [->|H2];
    [intros [= <- <-]; now apply consumed_char|].
  intros H. assert (E : String c s = r).
  { destruct c as [[] [] [] [] [] [] [] []]; cbn in H; congruence. }
  subst r. apply consumed_refl.
Qed.

Lemma match_nocase_consumed (p s r : string) :
  clean p = true -> match_nocase p s = Some r ->
  exists x, s = x ++ r /\ clean x = true.
Proof.
  revert s. induction p as [|a p IH]; intros s Hp.
  - intros [= <-]. apply consumed_refl.
  - apply clean_cons in Hp as [Ha Hp].
    destruct s as [|b s]; [discriminate|]. cbn [match_nocase].
    destruct (Ascii.eqb_spec a (lower_char b)) as [E|_]; [|discriminate].
    intros H. apply (consumed_trans _ s).
    + apply consumed_char. apply lower_not_space. now rewrite <- E.
    + now apply IH.
Qed.

Lemma span_digits_consumed (s d r : string) :
  span_digits s = (d, r) -> exists x, s = x ++ r /\ clean x = true.
Proof.
  intros H. exists d. now apply span_digits_split.
Qed.

Lemma parse_fraction_consumed (s d r : string) :
  parse_fraction s = (d, r) -> exists x, s = x ++ r /\ clean x = true.
Proof.
  unfold parse_fraction.
  destruct s as [|c s]; [intros [= <- <-]; apply consumed_refl|].
  destruct (Ascii.eqb_spec c ".") as [->|H1].
  - intros H. apply (consumed_trans _ s); [now apply consumed_char|].
    now apply (span_digits_consumed s d r).
  - intros H. assert (E : String c s = r).
    { destruct c as [[] [] [] [] [] [] [] []]; cbn in H; congruence. }
    subst r. apply consumed_refl.
Qed.

Lemma parse_exponent_consumed (s r : string) (e : Z) :
  parse_exponent s = (e, r) -> exists x, s = x ++ r /\ clean x = true.
Proof.
  unfold parse_exponent.
  destruct s as [|c s]; [intros [= <- <-]; apply consumed_refl|].
  destruct (Ascii.eqb c "e" || Ascii.eqb c "E") eqn:Ec;
    [|intros [= <- <-]; apply consumed_refl].
  destruct (parse_sign s) as [esign r1] eqn:Hsign.
  destruct (span_digits r1) as [ds r2] eqn:Hds.
  destruct ds as [|d ds]; [intros [= <- <-]; apply consumed_refl|].
  intros [= <- <-].
  apply (consumed_trans _ s).
  - apply consumed_char.
    apply orb_prop in Ec as [E|E]; apply Ascii.eqb_eq in E; subst c; reflexivity.
  - apply (consumed_trans _ r1); [now apply (parse_sign_consumed s r1 esign)|].
    now apply (span_digits_consumed r1 (String d ds) r2).
Qed.

Lemma strtod_consumed (s r : string) (v : float) :
  strtod s = Some (v, r) -> exists x, s = x ++ r /\ clean x = true.
Proof.
  unfold strtod.
  destruct (parse_sign s) as [neg s1] eqn:H1.
  destruct (span_digits s1) as [ip s2] eqn:H2.
  destruct (parse_fraction s2) as [fp s3] eqn:H3.
  destruct (ip ++ fp) as [|c all]; [discriminate|].
  destruct (_ || _); [discriminate|].
  destruct (parse_exponent s3) as [e s4] eqn:H4.
  intros [= _ <-].
  apply (consumed_trans _ s1); [now apply (parse_sign_consumed s s1 neg)|].
  apply (consumed_trans _ s2); [now apply (span_digits_consumed s1 ip s2)|].
  apply (consumed_trans _ s3); [now apply (parse_fraction_consumed s2 fp s3)|].
  now apply (parse_exponent_consumed s3 s4 e).
Qed.

Lemma parse_inf_or_nan_consumed (s r : string) (v : float) :
  parse_inf_or_nan s = Some (v, r) -> exists x, s = x ++ r /\ clean x = true.
Proof.
  unfold parse_inf_or_nan.
  destruct (parse_sign s) as [neg s1] eqn:H1.
  pose proof (parse_sign_consumed s s1 neg H1) as Hs.
  destruct (match_nocase "inf" s1) as [r1|] eqn:Hinf.
  - pose proof (match_nocase_consumed "inf" s1 r1 eq_refl Hinf) as Hr1.
    destruct (match_nocase "inity" r1) as [r2|] eqn:Hinity.
    + intros [= _ <-].
      pose proof (match_nocase_consumed "inity" r1 r2 eq_refl Hinity) as Hr2.
      eauto using consumed_trans.
    + intros [= _ <-]. eauto using consumed_trans.
  - destruct (match_nocase "nan" s1) as [r1|] eqn:Hnan; [|discriminate].
    intros [= _ <-].
    pose proof (match_nocase_consumed "nan" s1 r1 eq_refl Hnan) as Hr1.
    eauto using consumed_trans.
Qed.

Lemma app_empty_r (x : string) : x ++ "" = x.
Proof.
  induction x as [|c x IH]; [reflexivity|]. cbn. now rewrite IH.
Qed.

(** A text that spells a number holds no white space and is not empty. *)
Lemma scan_clean (u : string) (v : float) :
  scan u = Some v -> clean u = true /\ u <> "".
Proof.
  intros H. split.
  - unfold scan in H.
    destruct (parse_inf_or_nan u) as [[x [|c r]]|] eqn:E1; try discriminate.
    + destruct (parse_inf_or_nan_consumed u "" x E1) as (y & -> & Hy).
      now rewrite app_empty_r.
    + destruct (strtod u) as [[x [|c r]]|] eqn:E2; try discriminate.
      destruct (strtod_consumed u "" x E2) as (y & -> & Hy).
      now rewrite app_empty_r.
  - intros ->. vm_compute in H. discriminate.
Qed.

(** [float] reads the stripped text as it reads the text. *)
Lemma of_string_strip (s : string) (v : float) :
  of_string s = Some v -> of_string (strip s) = Some v.
Proof.
  unfold of_string, remove_underscores.
  destruct (remove_underscores_from Ascii.zero s) as [t|] eqn:Ht; [|discriminate].
  intros Hscan.
  destruct (scan_clean _ v Hscan) as [Hclean Hne].
  set (u := rstrip_with is_c_space (lstrip_with is_c_space t)) in *.
  assert (Hu : remove_underscores_from Ascii.zero
                 (rstrip_with is_c_space (lstrip_with is_c_space s)) = Some u).
  { apply remove_underscores_rstrip.
    now apply remove_underscores_lstrip. }
  assert (Hs : rstrip_with is_c_space (lstrip_with is_c_space s) <> "").
  { intros E. rewrite E in Hu. cbn in Hu. congruence. }
  rewrite (strip_agree s _ eq_refl (remove_underscores_clean _ _ _ Hu Hclean) Hs).
  rewrite Hu.
  rewrite (lstrip_clean is_c_space u not_space_not_c_space Hclean).
  rewrite (rstrip_clean is_c_space u not_space_not_c_space Hclean).
  exact Hscan.
Qed.

End FloatProps.

(* ===================================================================== *)
(** ** The trace of calls only grows, and one client is constructed *)
(* ===================================================================== *)

Module TraceProps.
Import Bot Cli Props Traces.

(** A computation that makes no call extends the trace by nothing. *)
Lemma extends_quiet {A : Type} (m : M A) :
  (forall w, calls (snd (m w)) = calls w) -> extends m.
Proof. intros H w. exists []. split; [apply H|reflexivity]. Qed.

Lemma extends_ret {A : Type} (a : A) : extends (ret a).
Proof. now apply extends_quiet. Qed.

Lemma extends_raise {A : Type} (e : exn) : extends (@raise A e).
Proof. now apply extends_quiet. Qed.

Lemma extends_exit {A : Type} (c : Z) : extends (@sys_exit A c).
Proof. now apply extends_quiet. Qed.

Lemma extends_out_of_fuel {A : Type} : extends (@out_of_fuel A).
Proof. now apply extends_quiet. Qed.

Lemma extends_print (text : string) : extends (print text).
Proof. now apply extends_quiet. Qed.

Lemma extends_logger_info (text : string) : extends (logger_info text).
Proof. now apply extends_quiet. Qed.

Lemma extends_logger_error (text : string) : extends (logger_error text).
Proof. now apply extends_quiet. Qed.

Lemma extends_input (prompt : string) : extends (input prompt).
Proof.
  apply extends_quiet. intros w. unfold input. cbn.
  destruct (stdin w) as [|[s|] r]; reflexivity.
Qed.

Lemma extends_lift {A : Type} (r : exn + A) : extends (lift r).
Proof. destruct r; [apply extends_raise|apply extends_ret]. Qed.

(** A call through the client adds itself. *)
Lemma extends_call_client (c : api_call) :
  constructs c = false -> extends (call_client c).
Proof.
  intros Hc w. exists [c]. unfold call_client. cbn [existsb]. rewrite Hc.
  destruct (exchange w (calls w) c); split; reflexivity.
Qed.

Lemma extends_bind {A B : Type} (m : M A) (k : A -> M B) :
  extends m -> (forall a, extends (k a)) -> extends (bind m k).
Proof.
  intros Hm Hk w. unfold bind. destruct (Hm w) as (l1 & H1 & N1).
  destruct (m w) as [[a|e|c|] w1]; cbn [snd] in *; try (now exists l1).
  destruct (Hk a w1) as (l2 & H2 & N2). exists (app l2 l1).
  now rewrite H2, H1, app_assoc, existsb_app, N1, N2.
Qed.

Lemma extends_try {A : Type} (m : M A) (hs : list ((exn -> bool) * (exn -> M A))) :
  extends m -> Forall (fun ah => forall e, extends (snd ah e)) hs ->
  extends (try_except m hs).
Proof.
  intros Hm Hhs w. unfold try_except. destruct (Hm w) as (l1 & H1 & N1).
  destruct (m w) as [[a|e|c|] w1]; cbn [snd] in *; try (now exists l1).
  assert (Hf : forall h, find_handler hs e = Some h -> extends (h e)).
  { clear - Hhs. induction Hhs as [|[acc h'] r Hh _ IH]; cbn; [discriminate|].
    destruct (acc e); [|exact IH]. intros h [= <-]. apply Hh. }
  destruct (find_handler hs e) as [h|]; [|now exists l1].
  destruct (Hf h eq_refl w1) as (l2 & H2 & N2). exists (app l2 l1).
  now rewrite H2, H1, app_assoc, existsb_app, N1, N2.
Qed.

(** One goal for each [except] clause. *)
Ltac each_clause :=
  first [ apply Forall_nil | apply Forall_cons; [intro; cbn [snd]|each_clause] ].

Ltac extends_step :=
  lazymatch goal with
  | |- extends (bind _ _) => apply extends_bind; [|intro]
  | |- extends (try_except _ _) => apply extends_try; [|each_clause]
  | |- extends (print _) => apply extends_print
  | |- extends (input _) => apply extends_input
  | |- extends (logger_info _) => apply extends_logger_info
  | |- extends (logger_error _) => apply extends_logger_error
  | |- extends (lift _) => apply extends_lift
  | |- extends (raise _) => apply extends_raise
  | |- extends (sys_exit _) => apply extends_exit
  | |- extends out_of_fuel => apply extends_out_of_fuel
  | |- extends (ret _) => apply extends_ret
  | |- extends (call_client _) => apply extends_call_client; reflexivity
  | |- extends (if ?b then _ else _) => destruct b
  | |- extends (match ?x with _ => _ end) => destruct x
  | |- extends (let _ := _ in _) => cbv zeta
  end.

Lemma extends_place_market_order (bot : BasicBot) (symbol side : string)
    (quantity : PyFloat.float) :
  extends (place_market_order bot symbol side quantity).
Proof.
  unfold place_market_order, order_handlers, _log_request, _log_response, _log_error.
  repeat extends_step.
Qed.

Lemma extends_place_limit_order (bot : BasicBot) (symbol side : string)
    (quantity price : PyFloat.float) (time_in_force : option string) :
  extends (place_limit_order bot symbol side quantity price time_in_force).
Proof.
  unfold place_limit_order, order_handlers, _log_request, _log_response, _log_error.
  repeat extends_step.
Qed.

Lemma extends_place_stop_limit_order (bot : BasicBot) (symbol side : string)
    (quantity price stop_price : PyFloat.float) (time_in_force : option string) :
  extends (place_stop_limit_order bot symbol side quantity price stop_price time_in_force).
Proof.
  unfold place_stop_limit_order, order_handlers, _log_request, _log_response, _log_error.
  repeat extends_step.
Qed.

Lemma extends_print_order_details (r : response) : extends (print_order_details r).
Proof. unfold print_order_details. repeat extends_step. Qed.

Lemma extends_get_order_status (bot : BasicBot) (symbol : string) (order_id : Z) :
  extends (get_order_status bot symbol order_id).
Proof. unfold get_order_status, _log_error. repeat extends_step. Qed.

Lemma extends_cancel_order (bot : BasicBot) (symbol : string) (order_id : Z) :
  extends (cancel_order bot symbol order_id).
Proof. unfold cancel_order, _log_error, _log_response. repeat extends_step. Qed.

Lemma extends_print_account_info (bot : BasicBot) : extends (print_account_info bot).
Proof.
  unfold print_account_info, get_account_balance, _log_error. repeat extends_step.
Qed.

Lemma extends_int_call (text : string) : extends (int_call text).
Proof. unfold int_call. repeat extends_step. Qed.

Lemma extends_validated {A : Type} (r : exn + A) : extends (validated r).
Proof. unfold validated. repeat extends_step. Qed.

(** The steps of the operations, on top of the steps of the runtime. *)
Ltac operation_step :=
  lazymatch goal with
  | |- extends (validated _) => apply extends_validated
  | |- extends (place_market_order _ _ _ _) => apply extends_place_market_order
  | |- extends (place_limit_order _ _ _ _ _ _) => apply extends_place_limit_order
  | |- extends (place_stop_limit_order _ _ _ _ _ _ _) =>
      apply extends_place_stop_limit_order
  | |- extends (print_order_details _) => apply extends_print_order_details
  | |- extends (get_order_status _ _ _) => apply extends_get_order_status
  | |- extends (cancel_order _ _ _) => apply extends_cancel_order
  | |- extends (print_account_info _) => apply extends_print_account_info
  | |- extends (int_call _) => apply extends_int_call
  | |- extends (let (_, _) := ?x in _) => destruct x
  | |- _ => extends_step
  end.

Lemma extends_place_order_interactive (bot : BasicBot) :
  extends (place_order_interactive bot).
Proof. unfold place_order_interactive. repeat operation_step. Qed.

Lemma extends_menu_loop (bot : BasicBot) (fuel : nat) : extends (menu_loop fuel bot).
Proof.
  induction fuel as [|fuel IH]; [apply extends_out_of_fuel|].
  cbn [menu_loop]. unfold menu_banner.
  repeat lazymatch goal with
    | |- extends (menu_loop _ _) => exact IH
    | |- extends (place_order_interactive _) => apply extends_place_order_interactive
    | |- _ => operation_step
    end.
Qed.

(** Every operation of the command line, with the handlers of [main] around
    it, only adds calls to the trace and constructs no client. *)
Lemma extends_dispatch (bot : BasicBot) (args : Namespace) :
  extends (try_except (dispatch bot args) main_handlers).
Proof.
  unfold main_handlers. apply extends_try; [|each_clause; repeat extends_step].
  unfold dispatch, order_status_mode, cancel_order_mode, place_order_mode, no_operation.
  repeat lazymatch goal with
    | |- extends (interactive_mode _) => intros w; apply extends_menu_loop
    | |- _ => operation_step
    end.
Qed.

End TraceProps.

(* ===================================================================== *)
(** ** Properties of the command line *)
(* ===================================================================== *)

Module CliProps.
Import Bot Cli Props.

(** Printing changes the output only. *)
Lemma print_run (text : string) (w : world) :
  print text w = (Ret tt, with_stdout (cons text) w).
Proof. reflexivity. Qed.

(** The construction of the bot: on success two calls were made, the
    constructor of the client and the connection test, and the bot carries
    the environment it was asked for; on failure an exception is raised.
    Input and output are untouched and no order is placed. *)
Lemma init_cases (key secret : string) (t : bool) (w : world) :
  (exists bot w1,
     __init__ key secret t w = (Ret bot, w1) /\
     testnet bot = t /\ client_testnet (client bot) = t /\
     calls w1 = liveness_call t :: ClientNew key secret t :: calls w /\
     stdin w1 = stdin w /\ stdout w1 = stdout w /\ exchange w1 = exchange w) \/
  (exists e w1,
     __init__ key secret t w = (Raise e, w1) /\
     order_payloads (calls w1) = order_payloads (calls w) /\
     stdin w1 = stdin w /\ stdout w1 = stdout w /\ exchange w1 = exchange w).
Proof.
  unfold __init__, _test_connection, try_except, bind, call_client, logger_info,
    logger_error, raise, ret.
  destruct t; run_step.
  - destruct (exchange w (calls w) (ClientNew key secret true)) as [r|[[] msg]]; run_step;
      try (right; do 2 eexists; repeat split; reflexivity).
    destruct (exchange w _ FuturesAccount) as [r'|[[] msg]]; run_step;
      try (right; do 2 eexists; repeat split; reflexivity).
    left; do 2 eexists; repeat split; reflexivity.
  - destruct (exchange w (calls w) (ClientNew key secret false)) as [r|[[] msg]]; run_step;
      try (right; do 2 eexists; repeat split; reflexivity).
    destruct (exchange w _ GetAccount) as [r'|[[] msg]]; run_step;
      try (right; do 2 eexists; repeat split; reflexivity).
    left; do 2 eexists; repeat split; reflexivity.
Qed.

Lemma run_init_ok (args : Namespace) (w w1 : world) (bot : BasicBot) :
  __init__ (args_api_key args) (args_api_secret args) (use_testnet args) w = (Ret bot, w1) ->
  run args w = try_except (dispatch bot args) main_handlers w1.
Proof.
  intros H. unfold run, try_except, bind. now rewrite H.
Qed.

Lemma run_init_failed (args : Namespace) (w w1 : world) (e : exn) :
  __init__ (args_api_key args) (args_api_secret args) (use_testnet args) w = (Raise e, w1) ->
  exists code text,
    run args w = (Exit code, with_stdout (cons text) w1).
Proof.
  intros H. unfold run, try_except, bind. rewrite H.
  destruct e as [[] msg]; run_step; do 2 eexists; reflexivity.
Qed.


Lemma try_except_exit {A : Type} (m : M A) (hs : list ((exn -> bool) * (exn -> M A)))
    (w w' : world) (code : Z) :
  m w = (Exit code, w') -> try_except m hs w = (Exit code, w').
Proof.
  intros H. unfold try_except. now rewrite H.
Qed.

(** The fields of the namespace, from the command line. *)
Lemma parse_args_fields (av : argv) (args : Namespace) :
  parse_args av = Some args ->
  opt_api_key av = Some (args_api_key args) /\
  opt_api_secret av = Some (args_api_secret args) /\
  args_testnet args = true /\
  args_mainnet args = opt_mainnet av /\
  typed (among ["market"; "limit"; "stop-limit"]) (opt_order_type av)
    = Some (args_order_type args) /\
  args_symbol args = opt_symbol av /\
  typed (among ["BUY"; "SELL"]) (opt_side av) = Some (args_side args) /\
  typed PyFloat.of_string (opt_quantity av) = Some (args_quantity args) /\
  typed PyFloat.of_string (opt_price av) = Some (args_price args) /\
  typed PyFloat.of_string (opt_stop_price av) = Some (args_stop_price args) /\
  args_balance args = opt_balance av /\
  args_order_status args = opt_order_status av /\
  typed int_conv (opt_order_id av) = Some (args_order_id args) /\
  args_cancel_order args = opt_cancel_order av /\
  args_interactive args = opt_interactive av.
Proof.
  unfold parse_args, store_true. intros H.
  destruct (opt_api_key av), (opt_api_secret av),
    (typed (among _) (opt_order_type av)), (typed (among _) (opt_side av)),
    (typed PyFloat.of_string (opt_quantity av)), (typed PyFloat.of_string (opt_price av)),
    (typed PyFloat.of_string (opt_stop_price av)), (typed int_conv (opt_order_id av));
    try discriminate.
  injection H as <-. cbn.
  destruct (opt_testnet av), (opt_mainnet av), (opt_balance av), (opt_order_status av),
    (opt_cancel_order av), (opt_interactive av); repeat split.
Qed.

(** The calls of the construction: the constructor of the client comes
    first and, when it returned, the connection test follows.  Nothing else
    is called, whether the construction succeeds or raises. *)
Lemma init_calls (key secret : string) (t : bool) (w : world) :
  calls (snd (__init__ key secret t w)) = ClientNew key secret t :: calls w \/
  calls (snd (__init__ key secret t w))
    = liveness_call t :: ClientNew key secret t :: calls w.
Proof.
  unfold __init__, _test_connection, try_except, bind, call_client, logger_info,
    logger_error, raise, ret.
  destruct t; run_step.
  - destruct (exchange w (calls w) (ClientNew key secret true)) as [r|[[] msg]]; run_step;
      try (left; reflexivity).
    destruct (exchange w _ FuturesAccount) as [r'|[[] msg]]; run_step;
      right; reflexivity.
  - destruct (exchange w (calls w) (ClientNew key secret false)) as [r|[[] msg]]; run_step;
      try (left; reflexivity).
    destruct (exchange w _ GetAccount) as [r'|[[] msg]]; run_step;
      right; reflexivity.
Qed.

(** The calls of a run: those of the construction of the bot, then those of
    the operation, none of which constructs a client. *)
Lemma run_calls (args : Namespace) (w : world) :
  exists later,
    calls (snd (run args w))
      = app later
          (calls (snd (__init__ (args_api_key args) (args_api_secret args)
                         (use_testnet args) w))) /\
    existsb Traces.constructs later = false.
Proof.
  destruct (init_cases (args_api_key args) (args_api_secret args) (use_testnet args) w)
    as [(bot & w1 & E & _)|(e & w1 & E & _)].
  - rewrite (run_init_ok args w w1 bot E), E.
    exact (TraceProps.extends_dispatch bot args w1).
  - destruct (run_init_failed args w w1 e E) as (code & text & ->). rewrite E.
    now exists [].
Qed.

(** C10. The environment depends on [--mainnet] alone.  Giving or omitting
    [--testnet] does not change the run of [main].  The flag [main] passes to
    [BasicBot] is the negation of [--mainnet], and the run shows it: the
    first call [main] makes constructs the client with this flag, and no
    later call of the run constructs another client.  When the
    construction with this flag returns a bot, the bot has the flag, its
    connection test used the futures test network exactly when [--mainnet]
    was not given, and [main] goes on with this very bot, from the world the
    construction left.  When the construction with this flag raises, [main]
    ends there with a message. *)
Theorem environment_follows_mainnet_flag (av : argv) (w : world) (given : bool) :
  main (set_testnet given av) w = main av w /\
  forall args, parse_args av = Some args ->
    use_testnet args = negb (opt_mainnet av) /\
    (exists later,
       calls (snd (main av w))
         = app later
             (ClientNew (args_api_key args) (args_api_secret args) (negb (opt_mainnet av))
                :: calls w) /\
       existsb Traces.constructs later = false) /\
    (forall bot w1,
      __init__ (args_api_key args) (args_api_secret args) (use_testnet args) w
        = (Ret bot, w1) ->
      testnet bot = negb (opt_mainnet av) /\
      client_testnet (client bot) = negb (opt_mainnet av) /\
      calls w1 =
        liveness_call (negb (opt_mainnet av))
          :: ClientNew (args_api_key args) (args_api_secret args) (negb (opt_mainnet av))
          :: calls w /\
      main av w = try_except (dispatch bot args) main_handlers w1 /\
      exists later,
        calls (snd (main av w)) = app later (calls w1) /\
        existsb Traces.constructs later = false) /\
    (forall e w1,
      __init__ (args_api_key args) (args_api_secret args) (negb (opt_mainnet av)) w
        = (Raise e, w1) ->
      exists code text, main av w = (Exit code, with_stdout (cons text) w1)).
Proof.
  split.
  - destruct av as [k s t m ot sy sd q p sp b os oi c i].
    unfold main, parse_args, set_testnet. cbn.
    destruct given, t; reflexivity.
  - intros args Hargs.
    destruct (parse_args_fields av args Hargs)
      as (_ & _ & Ht & Hm & _).
    assert (Hu : use_testnet args = negb (opt_mainnet av))
      by (unfold use_testnet; now rewrite Ht, Hm).
    unfold main. rewrite Hargs.
    split; [exact Hu|]. split; [|split].
    + destruct (run_calls args w) as (later & H & N). rewrite Hu in H.
      destruct (init_calls (args_api_key args) (args_api_secret args)
                  (negb (opt_mainnet av)) w) as [E|E]; rewrite E in H.
      * now exists later.
      * exists (app later [liveness_call (negb (opt_mainnet av))]).
        rewrite <- app_assoc, existsb_app, N. split; [exact H|].
        destruct (opt_mainnet av); reflexivity.
    + intros bot w1 Hinit.
      assert (Hrun := run_init_ok args w w1 bot Hinit).
      rewrite Hu in Hinit.
      destruct (init_cases (args_api_key args) (args_api_secret args)
                  (negb (opt_mainnet av)) w)
        as [(bot' & w1' & E & H1 & H2 & H3 & _)|(e & w1' & E & _)];
        rewrite E in Hinit; [|discriminate].
      injection Hinit as <- <-. repeat (split; [assumption|]).
      rewrite Hrun. exact (TraceProps.extends_dispatch bot' args w1').
    + intros e w1 Hinit. rewrite <- Hu in Hinit.
      exact (run_init_failed args w w1 e Hinit).
Qed.

Lemma environment_follows_mainnet_flag_witness :
  calls (snd (main (mk_argv (Some "key") (Some "secret") true true None None None None None
                      None true false None false false)
                (Demo.start [] Demo.accepting_exchange)))
  = [FuturesAccount; GetAccount; ClientNew "key" "secret" false].
Proof.
  rewrite (proj1 (proj2 (proj2 (proj2
             (proj1 (proj2 (proj2
                (proj2 (environment_follows_mainnet_flag
                          (mk_argv (Some "key") (Some "secret") true true None None None
                             None None None true false None false false)
                          (Demo.start [] Demo.accepting_exchange) true)
                   (mk_Namespace "key" "secret" true true None None None None None None
                      true false None false false)
                   eq_refl)))
                (mk_BasicBot "key" "secret" false (mk_Client false None None))
                (snd (__init__ "key" "secret" false (Demo.start [] Demo.accepting_exchange)))
                eq_refl))))).
  reflexivity.
Defined.


(** *** Orders from the command line *)

(** [--order-type] without a truthy symbol, side or quantity. *)
Lemma place_order_mode_incomplete (bot : BasicBot) (args : Namespace) (ot : string)
    (w : world) :
  truthy_str (args_symbol args) = None \/ truthy_str (args_side args) = None
    \/ truthy_float (args_quantity args) = None ->
  place_order_mode bot args ot w =
    (Exit 1,
     with_stdout
       (cons "Error: --symbol, --side, and --quantity are required for placing orders") w).
Proof.
  unfold place_order_mode.
  intros [H|[H|H]]; rewrite H;
    destruct (truthy_str (args_symbol args)); try destruct (truthy_str (args_side args));
    reflexivity.
Qed.

(** [--order-type limit] without a truthy price. *)
Lemma place_order_mode_limit_unpriced (bot : BasicBot) (args : Namespace) (w : world)
    (symbol side : string) (quantity : PyFloat.float) :
  truthy_str (args_symbol args) = Some symbol ->
  truthy_str (args_side args) = Some side ->
  truthy_float (args_quantity args) = Some quantity ->
  truthy_float (args_price args) = None ->
  place_order_mode bot args "limit" w =
    (Exit 1, with_stdout (cons "Error: --price is required for limit orders") w).
Proof.
  intros Hs Hd Hq Hp. unfold place_order_mode. rewrite Hs, Hd, Hq, Hp. reflexivity.
Qed.

(** [--order-type stop-limit] without a truthy price or stop price. *)
Lemma place_order_mode_stop_unpriced (bot : BasicBot) (args : Namespace) (w : world)
    (symbol side : string) (quantity : PyFloat.float) :
  truthy_str (args_symbol args) = Some symbol ->
  truthy_str (args_side args) = Some side ->
  truthy_float (args_quantity args) = Some quantity ->
  truthy_float (args_price args) = None \/ truthy_float (args_stop_price args) = None ->
  place_order_mode bot args "stop-limit" w =
    (Exit 1,
     with_stdout
       (cons "Error: --price and --stop-price are required for stop-limit orders") w).
Proof.
  intros Hs Hd Hq Hp. unfold place_order_mode. rewrite Hs, Hd, Hq.
  destruct Hp as [Hp|Hp]; rewrite Hp; [|destruct (truthy_float (args_price args))];
    reflexivity.
Qed.

(** The order branch of [main] is reached when no other operation is asked
    for. *)
Lemma dispatch_order (bot : BasicBot) (args : Namespace) (ot : string) :
  args_interactive args = false -> args_balance args = false ->
  args_order_status args = false -> args_cancel_order args = false ->
  truthy_str (args_order_type args) = Some ot ->
  dispatch bot args = place_order_mode bot args ot.
Proof.
  intros Hi Hb Hs Hc Ho. unfold dispatch. now rewrite Hi, Hb, Hs, Hc, Ho.
Qed.

(** A run whose operation ends the process ends with the same status. *)
Lemma run_exits (args : Namespace) (w w1 w2 : world) (bot : BasicBot) (code : Z) :
  __init__ (args_api_key args) (args_api_secret args) (use_testnet args) w = (Ret bot, w1) ->
  dispatch bot args w1 = (Exit code, w2) ->
  run args w = (Exit code, w2).
Proof.
  intros Hinit Hd. rewrite (run_init_ok args w w1 bot Hinit).
  now apply try_except_exit.
Qed.

Lemma truthy_float_zero (x : option PyFloat.float) (z : PyFloat.float) :
  x = Some z -> PyFloat.truthy z = false -> truthy_float x = None.
Proof.
  intros -> H. unfold truthy_float. now rewrite H.
Qed.



End CliProps.

(* ===================================================================== *)
(** ** Properties of the interactive mode *)
(* ===================================================================== *)

Module InteractiveProps.
Import Bot Cli Props.

(** The validators raise [ValueError] only. *)
Lemma validate_side_raises (side : string) (e : exn) :
  validate_side side = inl e -> is_ValueError e = true.
Proof.
  unfold validate_side. destruct (negb _); [|discriminate].
  now intros [= <-].
Qed.

Lemma validate_positive_float_raises (value name : string) (e : exn) :
  validate_positive_float value name = inl e -> is_ValueError e = true.
Proof.
  unfold validate_positive_float, float_call.
  destruct (PyFloat.of_string value) as [v|].
  - destruct (PyFloat.le v PyFloat.zero); [|discriminate].
    cbn [value_error is_ValueError exn_type exn_str].
    destruct (PyStr.contains _ _); now intros [= <-].
  - cbn [value_error is_ValueError exn_type exn_str].
    destruct (PyStr.contains _ _); now intros [= <-].
Qed.

Lemma validated_ok {A : Type} (a : A) (w : world) :
  validated (inr a) w = (Ret (Some a), w).
Proof. reflexivity. Qed.

Lemma validated_error {A : Type} (e : exn) (w : world) :
  is_ValueError e = true ->
  validated (@inl exn A e) w = (Ret None, with_stdout (cons ("Error: " ++ exn_str e)) w).
Proof.
  intros H. unfold validated, try_except, bind, lift, raise. cbn [find_handler].
  now rewrite H.
Qed.

Lemma empty_price_refused (name : string) :
  validate_positive_float "" name =
    value_error (name ++ " must be a valid number, got ''").
Proof.
  apply ValidatorProps.validate_positive_float_unparsed. reflexivity.
Qed.

(** A limit order typed with an empty price: a message is printed, the
    function returns, and no call reaches the exchange. *)
Lemma interactive_limit_unpriced (bot : BasicBot) (w : world)
    (symbol side quantity price : string) (rest : list input_event) :
  stdin w = Line symbol :: Line "2" :: Line side :: Line quantity :: Line price :: rest ->
  PyStr.strip price = "" ->
  exists text w',
    place_order_interactive bot w = (Ret tt, with_stdout (cons ("Error: " ++ text)) w') /\
    calls w' = calls w /\ exchange w' = exchange w /\
    forall sd q,
      PyStr.upper (PyStr.strip symbol) <> "" ->
      validate_side (PyStr.strip side) = inr sd ->
      validate_positive_float (PyStr.strip quantity) "Quantity" = inr q ->
      text = "Price must be a valid number, got ''" /\ stdin w' = rest.
Proof.
  destruct w as [i o l c ex h]. cbn [stdin]. intros -> Hp.
  unfold place_order_interactive, try_except, bind, print, input.
  run_step.
  destruct (String.eqb_spec (PyStr.upper (PyStr.strip symbol)) "") as [Hs|Hs]; run_step.
  { do 2 eexists. split; [reflexivity|]. split; [reflexivity|]. split; [reflexivity|].
    intros; contradiction. }
  change (PyStr.strip "2") with "2". run_step.
  destruct (validate_side (PyStr.strip side)) as [e|sd] eqn:Hside.
  { rewrite (validated_error _ _ (validate_side_raises _ _ Hside)). run_step.
    do 2 eexists. split; [reflexivity|]. split; [reflexivity|]. split; [reflexivity|].
    intros; discriminate. }
  rewrite validated_ok. run_step.
  destruct (validate_positive_float (PyStr.strip quantity) "Quantity") as [e|q] eqn:Hq.
  { rewrite (validated_error _ _ (validate_positive_float_raises _ _ _ Hq)). run_step.
    do 2 eexists. split; [reflexivity|]. split; [reflexivity|]. split; [reflexivity|].
    intros; discriminate. }
  rewrite validated_ok. run_step.
  rewrite Hp, empty_price_refused. unfold value_error.
  rewrite validated_error by reflexivity. run_step.
  do 2 eexists. split; [reflexivity|]. split; [reflexivity|]. split; [reflexivity|].
  intros. split; reflexivity.
Qed.


(** The text of the error of [validate_positive_float] begins with the
    field name. *)
Lemma validate_positive_float_error_text (value name : string) (e : exn) :
  validate_positive_float value name = inl e -> exists t, exn_str e = name ++ t.
Proof.
  destruct (PyFloat.of_string value) as [v|] eqn:E.
  - unfold validate_positive_float, float_call. rewrite E.
    destruct (PyFloat.le v PyFloat.zero); [|discriminate].
    cbn [value_error is_ValueError exn_type exn_str].
    destruct (PyStr.contains _ _); intros [= <-]; eexists; reflexivity.
  - rewrite (ValidatorProps.validate_positive_float_unparsed value name E).
    intros [= <-]. eexists. reflexivity.
Qed.

(** A stop-limit order typed with an empty price or an empty stop price. *)
Lemma interactive_stop_unpriced (bot : BasicBot) (w : world)
    (symbol side quantity price stop : string) (rest : list input_event) :
  stdin w = Line symbol :: Line "3" :: Line side :: Line quantity :: Line price
              :: Line stop :: rest ->
  PyStr.strip price = "" \/ PyStr.strip stop = "" ->
  exists text w',
    place_order_interactive bot w = (Ret tt, with_stdout (cons ("Error: " ++ text)) w') /\
    calls w' = calls w /\ exchange w' = exchange w /\
    forall sd q,
      PyStr.upper (PyStr.strip symbol) <> "" ->
      validate_side (PyStr.strip side) = inr sd ->
      validate_positive_float (PyStr.strip quantity) "Quantity" = inr q ->
      ((exists t, text = "Price" ++ t) \/
       text = "Stop price must be a valid number, got ''") /\
      stdin w' = rest.
Proof.
  destruct w as [i o l c ex h]. cbn [stdin]. intros -> Hp.
  unfold place_order_interactive, try_except, bind, print, input.
  run_step.
  destruct (String.eqb_spec (PyStr.upper (PyStr.strip symbol)) "") as [Hs|Hs]; run_step.
  { do 2 eexists. split; [reflexivity|]. split; [reflexivity|]. split; [reflexivity|].
    intros; contradiction. }
  change (PyStr.strip "3") with "3". run_step.
  destruct (validate_side (PyStr.strip side)) as [e|sd] eqn:Hside.
  { rewrite (validated_error _ _ (validate_side_raises _ _ Hside)). run_step.
    do 2 eexists. split; [reflexivity|]. split; [reflexivity|]. split; [reflexivity|].
    intros; discriminate. }
  rewrite validated_ok. run_step.
  destruct (validate_positive_float (PyStr.strip quantity) "Quantity") as [e|q] eqn:Hq.
  { rewrite (validated_error _ _ (validate_positive_float_raises _ _ _ Hq)). run_step.
    do 2 eexists. split; [reflexivity|]. split; [reflexivity|]. split; [reflexivity|].
    intros; discriminate. }
  rewrite validated_ok. run_step.
  destruct (validate_positive_float (PyStr.strip price) "Price") as [e|p] eqn:Hprice.
  { rewrite (validated_error _ _ (validate_positive_float_raises _ _ _ Hprice)). run_step.
    destruct (validate_positive_float_error_text _ _ _ Hprice) as [t Ht].
    do 2 eexists. split; [reflexivity|]. split; [reflexivity|]. split; [reflexivity|].
    intros. split; [|reflexivity]. left. exists t. exact Ht. }
  destruct Hp as [Hp|Hp];
    [rewrite Hp, empty_price_refused in Hprice; discriminate|].
  rewrite Hp, empty_price_refused. unfold value_error.
  rewrite validated_error by reflexivity. run_step.
  do 2 eexists. split; [reflexivity|]. split; [reflexivity|]. split; [reflexivity|].
  intros. split; [right|]; reflexivity.
Qed.

(** Menu entry 1 runs [place_order_interactive] and then the next turn. *)
Lemma menu_turn_place_order (fuel : nat) (bot : BasicBot) (w : world)
    (rest : list input_event) :
  stdin w = Line "1" :: rest ->
  exists w1,
    stdin w1 = rest /\ calls w1 = calls w /\ exchange w1 = exchange w /\
    menu_loop (S fuel) bot w
      = bind (place_order_interactive bot) (fun _ => menu_loop fuel bot) w1.
Proof.
  destruct w as [i o l c ex h]. cbn [stdin]. intros ->.
  eexists. split; [|split; [|split]]; cycle 3.
  - cbn [menu_loop]. unfold menu_banner, bind at 1 2 3 4 5 6 7 8 9, print, input.
    run_step. change (PyStr.strip "1") with "1". run_step. reflexivity.
  - reflexivity.
  - reflexivity.
  - reflexivity.
Qed.

End InteractiveProps.

(* ===================================================================== *)
(** ** Orders that lack a price *)
(* ===================================================================== *)

Module UnpricedProps.
Import Bot Cli Props CliProps InteractiveProps.

(** When the order branch refuses the order, the run ends with a status,
    places no order, and, once the bot is built, ends with status 1 after
    the message. *)
Lemma run_rejects (args : Namespace) (w : world) (ot text : string) :
  args_interactive args = false -> args_balance args = false ->
  args_order_status args = false -> args_cancel_order args = false ->
  truthy_str (args_order_type args) = Some ot ->
  (forall bot w1,
     place_order_mode bot args ot w1 = (Exit 1, with_stdout (cons text) w1)) ->
  (exists code, fst (run args w) = Exit code) /\
  order_payloads (calls (snd (run args w))) = order_payloads (calls w) /\
  forall bot w1,
    __init__ (args_api_key args) (args_api_secret args) (use_testnet args) w
      = (Ret bot, w1) ->
    run args w = (Exit 1, with_stdout (cons text) w1).
Proof.
  intros Hi Hb Hs Hc Hot Hmode.
  assert (Hok : forall bot w1,
    __init__ (args_api_key args) (args_api_secret args) (use_testnet args) w
      = (Ret bot, w1) ->
    run args w = (Exit 1, with_stdout (cons text) w1)).
  { intros bot w1 Hinit. apply (run_exits args w w1 _ bot 1 Hinit).
    rewrite (dispatch_order bot args ot Hi Hb Hs Hc Hot). apply Hmode. }
  destruct (init_cases (args_api_key args) (args_api_secret args) (use_testnet args) w)
    as [(bot & w1 & E & _ & _ & Hcalls & _)|(e & w1 & E & Hcalls & _)].
  - split; [|split; [|exact Hok]]; rewrite (Hok bot w1 E); [now exists 1|].
    cbn [snd]. change (calls (with_stdout (cons text) w1)) with (calls w1).
    rewrite Hcalls. destruct (use_testnet args); reflexivity.
  - destruct (run_init_failed args w w1 e E) as (code & t & Hrun).
    split; [|split; [|exact Hok]]; rewrite Hrun; [now exists code|exact Hcalls].
Qed.


(** The order type of the namespace, from the command line. *)
Lemma parsed_order_type (av : argv) (args : Namespace) (ot : string) :
  parse_args av = Some args ->
  opt_order_type av = Some ot ->
  In ot ["market"; "limit"; "stop-limit"] ->
  truthy_str (args_order_type args) = Some ot.
Proof.
  intros Hargs Hot Hin.
  destruct (parse_args_fields av args Hargs) as (_ & _ & _ & _ & H & _).
  rewrite Hot in H.
  destruct Hin as [<-|[<-|[<-|[]]]]; cbn in H; injection H as <-; reflexivity.
Qed.

Lemma parsed_absent_float (raw : option string) (x : option PyFloat.float) :
  typed PyFloat.of_string raw = Some x -> raw = None -> truthy_float x = None.
Proof.
  intros H ->. cbn in H. now injection H as <-.
Qed.

(** An order from the command line without the price its type needs. *)
Lemma flags_unpriced_rejected (av : argv) (w : world) :
  opt_interactive av = false -> opt_balance av = false ->
  opt_order_status av = false -> opt_cancel_order av = false ->
  (opt_order_type av = Some "limit" /\ opt_price av = None) \/
  (opt_order_type av = Some "stop-limit" /\
   (opt_price av = None \/ opt_stop_price av = None)) ->
  (exists code, fst (main av w) = Exit code) /\
  order_payloads (calls (snd (main av w))) = order_payloads (calls w) /\
  forall args bot w1,
    parse_args av = Some args ->
    __init__ (args_api_key args) (args_api_secret args) (use_testnet args) w
      = (Ret bot, w1) ->
    exists text,
      main av w = (Exit 1, with_stdout (cons text) w1) /\
      (text = "Error: --symbol, --side, and --quantity are required for placing orders"
       \/ text = "Error: --price is required for limit orders"
       \/ text = "Error: --price and --stop-price are required for stop-limit orders").
Proof.
  intros Hi Hb Hs Hc Hkind. unfold main.
  destruct (parse_args av) as [args|] eqn:Hargs;
    [|split; [now exists 2|]; split; [reflexivity|]; intros; discriminate].
  destruct (parse_args_fields av args Hargs)
    as (_ & _ & _ & _ & _ & _ & _ & _ & Hp & Hsp & Hb' & Hs' & _ & Hc' & Hi').
  rewrite Hi in Hi'. rewrite Hb in Hb'. rewrite Hs in Hs'. rewrite Hc in Hc'.
  assert (Hgoal : forall ot text,
    truthy_str (args_order_type args) = Some ot ->
    (forall bot w1,
       place_order_mode bot args ot w1 = (Exit 1, with_stdout (cons text) w1)) ->
    (text = "Error: --symbol, --side, and --quantity are required for placing orders"
     \/ text = "Error: --price is required for limit orders"
     \/ text = "Error: --price and --stop-price are required for stop-limit orders") ->
    (exists code, fst (run args w) = Exit code) /\
    order_payloads (calls (snd (run args w))) = order_payloads (calls w) /\
    forall args0 bot w1,
      Some args = Some args0 ->
      __init__ (args_api_key args0) (args_api_secret args0) (use_testnet args0) w
        = (Ret bot, w1) ->
      exists text0,
        run args w = (Exit 1, with_stdout (cons text0) w1) /\
        (text0 = "Error: --symbol, --side, and --quantity are required for placing orders"
         \/ text0 = "Error: --price is required for limit orders"
         \/ text0 = "Error: --price and --stop-price are required for stop-limit orders")).
  { intros ot text Hot Hmode Htext.
    destruct (run_rejects args w ot text Hi' Hb' Hs' Hc' Hot Hmode) as (H1 & H2 & H3).
    split; [exact H1|]. split; [exact H2|].
    intros args0 bot w1 [= <-] Hinit. exists text. split; [now apply (H3 bot)|exact Htext]. }
  destruct (truthy_str (args_symbol args)) as [symbol|] eqn:Hsym;
    [destruct (truthy_str (args_side args)) as [side|] eqn:Hside;
     [destruct (truthy_float (args_quantity args)) as [quantity|] eqn:Hq|]|].
  2-4: destruct Hkind as [[Hot _]|[Hot _]];
    (eapply Hgoal;
     [eapply parsed_order_type; [exact Hargs|exact Hot|cbn; tauto]
     |intros; apply place_order_mode_incomplete; tauto
     |tauto]).
  destruct Hkind as [[Hot Hnone]|[Hot Hnone]].
  - eapply Hgoal;
      [eapply parsed_order_type; [exact Hargs|exact Hot|cbn; tauto]
      |intros; eapply place_order_mode_limit_unpriced; eauto using parsed_absent_float
      |tauto].
  - eapply Hgoal;
      [eapply parsed_order_type; [exact Hargs|exact Hot|cbn; tauto]
      |intros; eapply place_order_mode_stop_unpriced; eauto;
       destruct Hnone; eauto using parsed_absent_float
      |tauto].
Qed.


(** The calls of such a run are the calls of the construction of the bot. *)
Lemma flags_unpriced_calls (av : argv) (w : world) (args : Namespace) :
  opt_interactive av = false -> opt_balance av = false ->
  opt_order_status av = false -> opt_cancel_order av = false ->
  (opt_order_type av = Some "limit" /\ opt_price av = None) \/
  (opt_order_type av = Some "stop-limit" /\
   (opt_price av = None \/ opt_stop_price av = None)) ->
  parse_args av = Some args ->
  calls (snd (main av w))
    = calls (snd (__init__ (args_api_key args) (args_api_secret args)
                    (use_testnet args) w)).
Proof.
  intros Hi Hb Hs Hc Hkind Hargs.
  destruct (flags_unpriced_rejected av w Hi Hb Hs Hc Hkind) as (_ & _ & Hok).
  destruct (init_cases (args_api_key args) (args_api_secret args) (use_testnet args) w)
    as [(bot & w1 & E & _)|(e & w1 & E & _)]; rewrite E.
  - destruct (Hok args bot w1 Hargs E) as (text & -> & _). reflexivity.
  - unfold main. rewrite Hargs.
    destruct (run_init_failed args w w1 e E) as (code & text & ->). reflexivity.
Qed.

(** C7. A LIMIT order without a price, or a STOP_LIMIT order without a price
    or without a stop price, is refused and never sent: no
    [futures_create_order] is called.  The exchange client is called all
    the same when the order comes from the command line, because [main]
    builds the bot before it looks at the order: the calls of the run are
    the calls of the construction, that is the constructor of the client
    and, when it returned, the connection test, and nothing else.  The
    process ends with a status, which is 1 after one of the three messages
    once the bot is built; the final world is the one the construction
    left, plus the message.  A command line that [argparse] refuses ends
    the process with status 2 before anything is called.  At the prompts,
    where a missing price is an empty line, a message starting with
    [Error: ] is printed, the trace of calls is unchanged, and the menu goes
    on to its next turn. *)
Theorem unpriced_order_is_never_sent :
  (forall (av : argv) (w : world),
     opt_interactive av = false -> opt_balance av = false ->
     opt_order_status av = false -> opt_cancel_order av = false ->
     (opt_order_type av = Some "limit" /\ opt_price av = None) \/
     (opt_order_type av = Some "stop-limit" /\
      (opt_price av = None \/ opt_stop_price av = None)) ->
     (exists code, fst (main av w) = Exit code) /\
     order_payloads (calls (snd (main av w))) = order_payloads (calls w) /\
     (forall args bot w1,
        parse_args av = Some args ->
        __init__ (args_api_key args) (args_api_secret args) (use_testnet args) w
          = (Ret bot, w1) ->
        exists text,
          main av w = (Exit 1, with_stdout (cons text) w1) /\
          (text = "Error: --symbol, --side, and --quantity are required for placing orders"
           \/ text = "Error: --price is required for limit orders"
           \/ text = "Error: --price and --stop-price are required for stop-limit orders"))
     /\
     (forall args,
        parse_args av = Some args ->
        calls (snd (main av w))
          = calls (snd (__init__ (args_api_key args) (args_api_secret args)
                          (use_testnet args) w)) /\
        (calls (snd (main av w))
           = ClientNew (args_api_key args) (args_api_secret args) (use_testnet args)
               :: calls w \/
         calls (snd (main av w))
           = liveness_call (use_testnet args)
               :: ClientNew (args_api_key args) (args_api_secret args) (use_testnet args)
               :: calls w))
     /\
     (parse_args av = None -> main av w = (Exit 2, w)))
  /\
  (forall (fuel : nat) (bot : BasicBot) (w : world)
          (symbol side quantity price : string) (rest : list input_event),
     stdin w = Line "1" :: Line symbol :: Line "2" :: Line side :: Line quantity
                 :: Line price :: rest ->
     PyStr.strip price = "" ->
     exists text w',
       menu_loop (S fuel) bot w
         = menu_loop fuel bot (with_stdout (cons ("Error: " ++ text)) w') /\
       calls w' = calls w /\
       forall sd q,
         PyStr.upper (PyStr.strip symbol) <> "" ->
         validate_side (PyStr.strip side) = inr sd ->
         validate_positive_float (PyStr.strip quantity) "Quantity" = inr q ->
         text = "Price must be a valid number, got ''" /\ stdin w' = rest)
  /\
  (forall (fuel : nat) (bot : BasicBot) (w : world)
          (symbol side quantity price stop : string) (rest : list input_event),
     stdin w = Line "1" :: Line symbol :: Line "3" :: Line side :: Line quantity
                 :: Line price :: Line stop :: rest ->
     PyStr.strip price = "" \/ PyStr.strip stop = "" ->
     exists text w',
       menu_loop (S fuel) bot w
         = menu_loop fuel bot (with_stdout (cons ("Error: " ++ text)) w') /\
       calls w' = calls w /\
       forall sd q,
         PyStr.upper (PyStr.strip symbol) <> "" ->
         validate_side (PyStr.strip side) = inr sd ->
         validate_positive_float (PyStr.strip quantity) "Quantity" = inr q ->
         ((exists t, text = "Price" ++ t) \/
          text = "Stop price must be a valid number, got ''") /\
         stdin w' = rest).
Proof.
  split; [|split].
  - intros av w Hi Hb Hs Hc Hkind.
    destruct (flags_unpriced_rejected av w Hi Hb Hs Hc Hkind) as (H1 & H2 & H3).
    split; [exact H1|]. split; [exact H2|]. split; [exact H3|]. split.
    + intros args Hargs.
      rewrite (flags_unpriced_calls av w args Hi Hb Hs Hc Hkind Hargs).
      split; [reflexivity|]. apply init_calls.
    + intros Hnone. unfold main. now rewrite Hnone.
  - intros fuel bot w symbol side quantity price rest Hin Hp.
    destruct (menu_turn_place_order fuel bot w _ Hin) as (w1 & Hin1 & Hc1 & _ & ->).
    destruct (interactive_limit_unpriced bot w1 symbol side quantity price rest Hin1 Hp)
      as (text & w' & Hrun & Hc & _ & Hok).
    exists text, w'. unfold bind. rewrite Hrun.
    split; [reflexivity|]. split; [congruence|exact Hok].
  - intros fuel bot w symbol side quantity price stop rest Hin Hp.
    destruct (menu_turn_place_order fuel bot w _ Hin) as (w1 & Hin1 & Hc1 & _ & ->).
    destruct (interactive_stop_unpriced bot w1 symbol side quantity price stop rest Hin1 Hp)
      as (text & w' & Hrun & Hc & _ & Hok).
    exists text, w'. unfold bind. rewrite Hrun.
    split; [reflexivity|]. split; [congruence|exact Hok].
Qed.

Lemma unpriced_order_is_never_sent_witness :
  order_payloads
    (calls (snd (main (mk_argv (Some "key") (Some "secret") false false (Some "limit")
                         (Some "BTCUSDT") (Some "BUY") (Some "0.001") None None
                         false false None false false)
                   (Demo.start [] Demo.accepting_exchange))))
  = order_payloads (calls (Demo.start [] Demo.accepting_exchange)) /\
  calls (snd (main (mk_argv (Some "key") (Some "secret") false false (Some "limit")
                      (Some "BTCUSDT") (Some "BUY") (Some "0.001") None None
                      false false None false false)
                (Demo.start [] Demo.accepting_exchange)))
  = calls (snd (__init__ "key" "secret" true (Demo.start [] Demo.accepting_exchange))).
Proof.
  destruct (proj1 unpriced_order_is_never_sent
              (mk_argv (Some "key") (Some "secret") false false (Some "limit")
                 (Some "BTCUSDT") (Some "BUY") (Some "0.001") None None
                 false false None false false)
              (Demo.start [] Demo.accepting_exchange)
              eq_refl eq_refl eq_refl eq_refl (or_introl (conj eq_refl eq_refl)))
    as (_ & H2 & _ & H4 & _).
  split; [exact H2|].
  exact (proj1 (H4 _ eq_refl)).
Defined.

(** The claim of C7 fails as stated for the command line.  [main] builds
    the bot before it looks at the options of the order, so when the limit
    order without a price is refused with status 1, the constructor of the
    client and [futures_account] have already been called. *)
Lemma unpriced_flag_order_follows_client_calls :
  fst (main (mk_argv (Some "key") (Some "secret") false false (Some "limit")
               (Some "BTCUSDT") (Some "BUY") (Some "0.001") None None
               false false None false false)
         (Demo.start [] Demo.accepting_exchange)) = Exit 1 /\
  stdout (snd (main (mk_argv (Some "key") (Some "secret") false false (Some "limit")
                       (Some "BTCUSDT") (Some "BUY") (Some "0.001") None None
                       false false None false false)
                 (Demo.start [] Demo.accepting_exchange)))
    = ["Error: --price is required for limit orders"] /\
  calls (snd (main (mk_argv (Some "key") (Some "secret") false false (Some "limit")
                      (Some "BTCUSDT") (Some "BUY") (Some "0.001") None None
                      false false None false false)
                (Demo.start [] Demo.accepting_exchange)))
    = [FuturesAccount; ClientNew "key" "secret" true] /\
  ~ (forall (av : argv) (w : world),
       opt_interactive av = false -> opt_balance av = false ->
       opt_order_status av = false -> opt_cancel_order av = false ->
       (opt_order_type av = Some "limit" /\ opt_price av = None) \/
       (opt_order_type av = Some "stop-limit" /\
        (opt_price av = None \/ opt_stop_price av = None)) ->
       calls (snd (main av w)) = calls w).
Proof.
  split; [vm_compute; reflexivity|].
  split; [vm_compute; reflexivity|].
  split; [vm_compute; reflexivity|].
  intros claim.
  specialize (claim (mk_argv (Some "key") (Some "secret") false false (Some "limit")
                       (Some "BTCUSDT") (Some "BUY") (Some "0.001") None None
                       false false None false false)
                (Demo.start [] Demo.accepting_exchange)
                eq_refl eq_refl eq_refl eq_refl (or_introl (conj eq_refl eq_refl))).
  vm_compute in claim. discriminate claim.
Qed.

End UnpricedProps.

(* ===================================================================== *)
(** ** The same order from the command line and from the prompts *)
(* ===================================================================== *)

Module RoundTripProps.
Import Bot Cli Props CliProps InteractiveProps.

(** Printing the details of a response only writes lines. *)
Lemma print_order_details_effects (r : response) (w : world) :
  fst (print_order_details r w) = Ret tt /\
  calls (snd (print_order_details r w)) = calls w /\
  stdin (snd (print_order_details r w)) = stdin w /\
  exchange (snd (print_order_details r w)) = exchange w.
Proof.
  unfold print_order_details, bind, print, ret.
  destruct (has_key r "stopPrice"); repeat split.
Qed.

(** The end of an interactive order: whatever the exchange answers, the
    function returns, having made the one call. *)
Lemma placed_then_printed (bot : BasicBot) (r : order_request) (w : world) :
  exists w2,
    try_except
      (bind (place bot r) print_order_details)
      [(is_KeyboardInterrupt, fun _ => print (nl ++ nl ++ "Operation cancelled by user"));
       (is_Exception, fun e => print (nl ++ "Error placing order: " ++ exn_str e))] w
      = (Ret tt, w2) /\
    calls w2 = FuturesCreateOrder (payload_of r) :: calls w /\
    stdin w2 = stdin w /\ exchange w2 = exchange w.
Proof.
  destruct (BotProps.place_run bot r w) as (before & after & _ & _ & E).
  unfold try_except, bind. rewrite E. cbv zeta.
  destruct (exchange w (calls w) _) as [resp|[[] msg]].
  2-7: eexists; split; [reflexivity|repeat split].
  destruct (print_order_details_effects resp
              (with_log (fun l => (after resp ++ l)%list)
                 (with_calls (FuturesCreateOrder (payload_of r) :: calls w)
                    (with_log (fun l => (before ++ l)%list) w))))
    as (H1 & H2 & H3 & H4).
  destruct (print_order_details resp _) as [res w3]. cbn [fst snd] in *. subst res.
  exists w3. split; [reflexivity|]. repeat split; assumption.
Qed.

(** A step that returns lets the protected block go on. *)
Lemma try_except_bind_ret {A B : Type} (m : M A) (k : A -> M B)
    (hs : list ((exn -> bool) * (exn -> M B))) (w w' : world) (a : A) :
  m w = (Ret a, w') -> try_except (bind m k) hs w = try_except (k a) hs w'.
Proof.
  intros H. unfold try_except, bind. now rewrite H.
Qed.

Lemma canonical_parts (symbol side : string) :
  canonical symbol side = true ->
  PyStr.upper (PyStr.strip symbol) = symbol /\
  String.eqb symbol "" = false /\
  (side = "BUY" \/ side = "SELL").
Proof.
  unfold canonical. intros H.
  apply andb_prop in H as [H Hside]. apply andb_prop in H as [Hup Hne].
  apply String.eqb_eq in Hup. apply negb_true_iff in Hne.
  apply orb_prop in Hside.
  repeat split; [exact Hup|exact Hne|].
  destruct Hside as [H|H]; apply String.eqb_eq in H; tauto.
Qed.

Lemma canonical_side (side : string) :
  side = "BUY" \/ side = "SELL" -> validate_side (PyStr.strip side) = inr side.
Proof.
  intros [-> | ->]; reflexivity.
Qed.

Lemma interactive_market (bot : BasicBot) (w : world)
    (symbol side quantity : string) (q : PyFloat.float) (rest : list input_event) :
  stdin w = Line symbol :: Line "1" :: Line side :: Line quantity :: rest ->
  canonical symbol side = true ->
  validate_positive_float (PyStr.strip quantity) "Quantity" = inr q ->
  exists w2,
    place_order_interactive bot w = (Ret tt, w2) /\
    calls w2 = FuturesCreateOrder (payload_of (Market symbol side q)) :: calls w /\
    stdin w2 = rest /\ exchange w2 = exchange w.
Proof.
  destruct w as [i o l c ex h]. cbn [stdin]. intros -> Hcan Hq.
  destruct (canonical_parts symbol side Hcan) as (Hup & Hne & Hside).
  unfold place_order_interactive, bind at 1 2 3, print.
  erewrite try_except_bind_ret by reflexivity. cbv beta zeta.
  rewrite Hup, Hne.
  do 5 (erewrite try_except_bind_ret by reflexivity; cbv beta zeta).
  change (dict_get order_type_map (PyStr.strip "1")) with (Some "MARKET"). cbv iota.
  erewrite try_except_bind_ret by reflexivity. cbv beta zeta.
  rewrite (canonical_side side Hside).
  erewrite try_except_bind_ret by reflexivity. cbv beta zeta iota.
  erewrite try_except_bind_ret by reflexivity. cbv beta zeta.
  rewrite Hq.
  erewrite try_except_bind_ret by reflexivity. cbv beta zeta iota.
  change (String.eqb "MARKET" "MARKET") with true. cbv iota.
  match goal with
  | |- context [try_except _ _ ?W] =>
      destruct (placed_then_printed bot (Market symbol side q) W) as (w2 & E & Hc & Hi & Hx)
  end.
  exists w2. split; [exact E|]. repeat split; assumption.
Qed.

Lemma interactive_limit (bot : BasicBot) (w : world)
    (symbol side quantity price : string) (q p : PyFloat.float)
    (rest : list input_event) :
  stdin w = Line symbol :: Line "2" :: Line side :: Line quantity :: Line price :: rest ->
  canonical symbol side = true ->
  validate_positive_float (PyStr.strip quantity) "Quantity" = inr q ->
  validate_positive_float (PyStr.strip price) "Price" = inr p ->
  exists w2,
    place_order_interactive bot w = (Ret tt, w2) /\
    calls w2 = FuturesCreateOrder (payload_of (Limit symbol side q p None)) :: calls w /\
    stdin w2 = rest /\ exchange w2 = exchange w.
Proof.
  destruct w as [i o l c ex h]. cbn [stdin]. intros -> Hcan Hq Hp.
  destruct (canonical_parts symbol side Hcan) as (Hup & Hne & Hside).
  unfold place_order_interactive, bind at 1 2 3, print.
  erewrite try_except_bind_ret by reflexivity. cbv beta zeta.
  rewrite Hup, Hne.
  do 5 (erewrite try_except_bind_ret by reflexivity; cbv beta zeta).
  change (dict_get order_type_map (PyStr.strip "2")) with (Some "LIMIT"). cbv iota.
  erewrite try_except_bind_ret by reflexivity. cbv beta zeta.
  rewrite (canonical_side side Hside).
  erewrite try_except_bind_ret by reflexivity. cbv beta zeta iota.
  erewrite try_except_bind_ret by reflexivity. cbv beta zeta.
  rewrite Hq.
  erewrite try_except_bind_ret by reflexivity. cbv beta zeta iota.
  change (String.eqb "LIMIT" "MARKET") with false.
  change (String.eqb "LIMIT" "LIMIT") with true. cbv iota.
  erewrite try_except_bind_ret by reflexivity. cbv beta zeta.
  rewrite Hp.
  erewrite try_except_bind_ret by reflexivity. cbv beta zeta iota.
  match goal with
  | |- context [try_except _ _ ?W] =>
      destruct (placed_then_printed bot (Limit symbol side q p None) W)
        as (w2 & E & Hc & Hi & Hx)
  end.
  exists w2. split; [exact E|]. repeat split; assumption.
Qed.

Lemma interactive_stop_limit (bot : BasicBot) (w : world)
    (symbol side quantity price stop : string) (q p sp : PyFloat.float)
    (rest : list input_event) :
  stdin w = Line symbol :: Line "3" :: Line side :: Line quantity :: Line price
              :: Line stop :: rest ->
  canonical symbol side = true ->
  validate_positive_float (PyStr.strip quantity) "Quantity" = inr q ->
  validate_positive_float (PyStr.strip price) "Price" = inr p ->
  validate_positive_float (PyStr.strip stop) "Stop price" = inr sp ->
  exists w2,
    place_order_interactive bot w = (Ret tt, w2) /\
    calls w2 =
      FuturesCreateOrder (payload_of (StopLimit symbol side q p sp None)) :: calls w /\
    stdin w2 = rest /\ exchange w2 = exchange w.
Proof.
  destruct w as [i o l c ex h]. cbn [stdin]. intros -> Hcan Hq Hp Hsp.
  destruct (canonical_parts symbol side Hcan) as (Hup & Hne & Hside).
  unfold place_order_interactive, bind at 1 2 3, print.
  erewrite try_except_bind_ret by reflexivity. cbv beta zeta.
  rewrite Hup, Hne.
  do 5 (erewrite try_except_bind_ret by reflexivity; cbv beta zeta).
  change (dict_get order_type_map (PyStr.strip "3")) with (Some "STOP-LIMIT"). cbv iota.
  erewrite try_except_bind_ret by reflexivity. cbv beta zeta.
  rewrite (canonical_side side Hside).
  erewrite try_except_bind_ret by reflexivity. cbv beta zeta iota.
  erewrite try_except_bind_ret by reflexivity. cbv beta zeta.
  rewrite Hq.
  erewrite try_except_bind_ret by reflexivity. cbv beta zeta iota.
  change (String.eqb "STOP-LIMIT" "MARKET") with false.
  change (String.eqb "STOP-LIMIT" "LIMIT") with false.
  change (String.eqb "STOP-LIMIT" "STOP-LIMIT") with true. cbv iota.
  do 2 (erewrite try_except_bind_ret by reflexivity; cbv beta zeta).
  rewrite Hp, Hsp.
  erewrite try_except_bind_ret by reflexivity. cbv beta zeta iota.
  match goal with
  | |- context [try_except _ _ ?W] =>
      destruct (placed_then_printed bot (StopLimit symbol side q p sp None) W)
        as (w2 & E & Hc & Hi & Hx)
  end.
  exists w2. split; [exact E|]. repeat split; assumption.
Qed.

(** What a text read as a positive float gives to both paths. *)
Lemma positive_float_parts (text name : string) (v : PyFloat.float) :
  positive_float text = Some v ->
  PyFloat.of_string text = Some v /\
  PyFloat.truthy v = true /\
  validate_positive_float (PyStr.strip text) name = inr v.
Proof.
  unfold positive_float.
  destruct (PyFloat.of_string text) as [x|] eqn:E; [|discriminate].
  destruct (PyFloat.lt PyFloat.zero x) eqn:Hx; [|discriminate].
  intros [= <-]. split; [reflexivity|].
  split; [now apply ValidatorProps.lt_zero_truthy|].
  apply ValidatorProps.validate_positive_float_positive; [|exact Hx].
  now apply FloatProps.of_string_strip.
Qed.

(** Menu entry 5 ends the menu. *)
Lemma menu_turn_exit (fuel : nat) (bot : BasicBot) (w : world)
    (rest : list input_event) :
  stdin w = Line "5" :: rest ->
  exists w',
    menu_loop (S fuel) bot w = (Ret tt, w') /\ calls w' = calls w.
Proof.
  destruct w as [i o l c ex h]. cbn [stdin]. intros ->.
  eexists. split.
  - cbn [menu_loop]. unfold menu_banner, bind, print, input.
    run_step. change (PyStr.strip "5") with "5". run_step. reflexivity.
  - reflexivity.
Qed.

(** The end of an order from the command line: the one call was made,
    whatever the exchange answers. *)
Lemma flags_placed (bot : BasicBot) (r : order_request) (w : world) :
  calls
    (snd (try_except
            (try_except
               (bind (place bot r) print_order_details)
               [(is_Exception,
                 fun e => bind (print ("Error placing order: " ++ exn_str e))
                            (fun _ => sys_exit 1))])
            main_handlers w))
  = FuturesCreateOrder (payload_of r) :: calls w.
Proof.
  destruct (BotProps.place_run bot r w) as (before & after & _ & _ & E).
  unfold try_except at 1 2, bind at 1. rewrite E. cbv zeta.
  destruct (exchange w (calls w) _) as [resp|[[] msg]].
  2-7: reflexivity.
  destruct (print_order_details_effects resp
              (with_log (fun l => (after resp ++ l)%list)
                 (with_calls (FuturesCreateOrder (payload_of r) :: calls w)
                    (with_log (fun l => (before ++ l)%list) w))))
    as (H1 & H2 & _).
  destruct (print_order_details resp _) as [res w3]. cbn [fst snd] in *. subst res.
  exact H2.
Qed.

(** The order text read by the command line: the namespace it parses to. *)
Lemma flags_run_calls (key secret : string) (o : order_text) (r : order_request)
    (w w1 : world) (bot : BasicBot) :
  read_order o = Some r ->
  __init__ key secret true w = (Ret bot, w1) ->
  calls (snd (main (flags_of key secret o) w))
    = FuturesCreateOrder (payload_of r) :: calls w1.
Proof.
  intros Hread Hinit.
  destruct o as [symbol side quantity|symbol side quantity price
                |symbol side quantity price stop];
    cbn [read_order] in Hread;
    destruct (canonical symbol side) eqn:Hcan; try discriminate;
    destruct (canonical_parts symbol side Hcan) as (_ & Hne & Hside);
    destruct (positive_float quantity) as [q|] eqn:Hq; try discriminate;
    destruct (positive_float_parts quantity "Quantity" q Hq) as (Hq1 & Hq2 & _).
  - injection Hread as <-.
    unfold main, parse_args. cbn [flags_of opt_api_key opt_api_secret opt_testnet
      opt_mainnet opt_order_type opt_symbol opt_side opt_quantity opt_price
      opt_stop_price opt_balance opt_order_status opt_order_id opt_cancel_order
      opt_interactive typed].
    rewrite Hq1.
    destruct Hside as [-> | ->];
      (change (among ["market"; "limit"; "stop-limit"] "market") with (Some "market");
       try change (among ["BUY"; "SELL"] "BUY") with (Some "BUY");
       try change (among ["BUY"; "SELL"] "SELL") with (Some "SELL");
       cbv iota beta;
       match goal with
       | |- context [run ?a w] => rewrite (run_init_ok a w w1 bot Hinit)
       end;
       unfold dispatch, place_order_mode;
       cbn [args_interactive args_balance args_order_status args_cancel_order
            args_order_type args_symbol args_side args_quantity args_price
            args_stop_price store_true truthy_str truthy_float];
       rewrite Hne, Hq2;
       apply (flags_placed bot (Market symbol _ q) w1)).
  - destruct (positive_float price) as [p|] eqn:Hp; try discriminate.
    destruct (positive_float_parts price "Price" p Hp) as (Hp1 & Hp2 & _).
    injection Hread as <-.
    unfold main, parse_args. cbn [flags_of opt_api_key opt_api_secret opt_testnet
      opt_mainnet opt_order_type opt_symbol opt_side opt_quantity opt_price
      opt_stop_price opt_balance opt_order_status opt_order_id opt_cancel_order
      opt_interactive typed].
    rewrite Hq1, Hp1.
    destruct Hside as [-> | ->];
      (change (among ["market"; "limit"; "stop-limit"] "limit") with (Some "limit");
       try change (among ["BUY"; "SELL"] "BUY") with (Some "BUY");
       try change (among ["BUY"; "SELL"] "SELL") with (Some "SELL");
       cbv iota beta;
       match goal with
       | |- context [run ?a w] => rewrite (run_init_ok a w w1 bot Hinit)
       end;
       unfold dispatch, place_order_mode;
       cbn [args_interactive args_balance args_order_status args_cancel_order
            args_order_type args_symbol args_side args_quantity args_price
            args_stop_price store_true truthy_str truthy_float];
       rewrite Hne, Hq2, Hp2;
       apply (flags_placed bot (Limit symbol _ q p None) w1)).
  - destruct (positive_float price) as [p|] eqn:Hp; try discriminate.
    destruct (positive_float_parts price "Price" p Hp) as (Hp1 & Hp2 & _).
    destruct (positive_float stop) as [sp|] eqn:Hsp; try discriminate.
    destruct (positive_float_parts stop "Stop price" sp Hsp) as (Hsp1 & Hsp2 & _).
    injection Hread as <-.
    unfold main, parse_args. cbn [flags_of opt_api_key opt_api_secret opt_testnet
      opt_mainnet opt_order_type opt_symbol opt_side opt_quantity opt_price
      opt_stop_price opt_balance opt_order_status opt_order_id opt_cancel_order
      opt_interactive typed].
    rewrite Hq1, Hp1, Hsp1.
    destruct Hside as [-> | ->];
      (change (among ["market"; "limit"; "stop-limit"] "stop-limit")
         with (Some "stop-limit");
       try change (among ["BUY"; "SELL"] "BUY") with (Some "BUY");
       try change (among ["BUY"; "SELL"] "SELL") with (Some "SELL");
       cbv iota beta;
       match goal with
       | |- context [run ?a w] => rewrite (run_init_ok a w w1 bot Hinit)
       end;
       unfold dispatch, place_order_mode;
       cbn [args_interactive args_balance args_order_status args_cancel_order
            args_order_type args_symbol args_side args_quantity args_price
            args_stop_price store_true truthy_str truthy_float];
       rewrite Hne, Hq2, Hp2, Hsp2;
       apply (flags_placed bot (StopLimit symbol _ q p sp None) w1)).
Qed.

(** The order text typed at the prompts. *)
Lemma interactive_order (bot : BasicBot) (w : world) (o : order_text)
    (r : order_request) (rest : list input_event) :
  read_order o = Some r ->
  stdin w = (prompts_of o ++ rest)%list ->
  exists w2,
    place_order_interactive bot w = (Ret tt, w2) /\
    calls w2 = FuturesCreateOrder (payload_of r) :: calls w /\
    stdin w2 = rest /\ exchange w2 = exchange w.
Proof.
  intros Hread Hin.
  destruct o as [symbol side quantity|symbol side quantity price
                |symbol side quantity price stop];
    cbn [read_order] in Hread; cbn [prompts_of app] in Hin;
    destruct (canonical symbol side) eqn:Hcan; try discriminate;
    destruct (positive_float quantity) as [q|] eqn:Hq; try discriminate;
    destruct (positive_float_parts quantity "Quantity" q Hq) as (_ & _ & Hq3).
  - injection Hread as <-. now apply (interactive_market bot w symbol side quantity).
  - destruct (positive_float price) as [p|] eqn:Hp; try discriminate.
    destruct (positive_float_parts price "Price" p Hp) as (_ & _ & Hp3).
    injection Hread as <-.
    now apply (interactive_limit bot w symbol side quantity price).
  - destruct (positive_float price) as [p|] eqn:Hp; try discriminate.
    destruct (positive_float_parts price "Price" p Hp) as (_ & _ & Hp3).
    destruct (positive_float stop) as [sp|] eqn:Hsp; try discriminate.
    destruct (positive_float_parts stop "Stop price" sp Hsp) as (_ & _ & Hsp3).
    injection Hread as <-.
    now apply (interactive_stop_limit bot w symbol side quantity price stop).
Qed.

Lemma interactive_run_calls (key secret : string) (o : order_text) (r : order_request)
    (w w1 : world) (bot : BasicBot) :
  read_order o = Some r ->
  stdin w = session o ->
  __init__ key secret true w = (Ret bot, w1) ->
  calls (snd (main (interactive_argv key secret) w))
    = FuturesCreateOrder (payload_of r) :: calls w1.
Proof.
  intros Hread Hin Hinit.
  change (main (interactive_argv key secret) w)
    with (run (mk_Namespace key secret true false None None None None None None
                 false false None false true) w).
  match goal with
  | |- context [run ?a w] => rewrite (run_init_ok a w w1 bot Hinit)
  end.
  destruct (init_cases key secret true w)
    as [(bot' & w1' & E & _ & _ & _ & Hin1 & _)|(e & w1' & E & _)];
    rewrite E in Hinit; [|discriminate].
  injection Hinit as -> ->.
  rewrite Hin in Hin1. unfold session in Hin1.
  unfold dispatch. cbn [args_interactive]. unfold interactive_mode.
  unfold try_except at 1.
  destruct (menu_turn_place_order (List.length (stdin w1)) bot w1 _ Hin1)
    as (wa & Hina & Hca & _ & ->).
  destruct (interactive_order bot wa o r [Line "5"] Hread Hina)
    as (wb & Hrun & Hcb & Hinb & _).
  unfold bind. rewrite Hrun.
  rewrite Hin1. cbn [List.length].
  destruct (menu_turn_exit (List.length (prompts_of o ++ [Line "5"])%list) bot wb []
              Hinb) as (wc & -> & Hcc).
  cbn [snd]. congruence.
Qed.

(** When the bot cannot be built, the run makes no further call. *)
Lemma failed_init_calls (args : Namespace) (w w1 : world) (e : exn) :
  __init__ (args_api_key args) (args_api_secret args) (use_testnet args) w = (Raise e, w1) ->
  calls (snd (run args w)) = calls w1.
Proof.
  intros H. destruct (run_init_failed args w w1 e H) as (code & text & ->). reflexivity.
Qed.

(** The command line of a readable order parses, for the test network. *)
Lemma flags_parse (key secret : string) (o : order_text) (r : order_request) :
  read_order o = Some r ->
  exists args,
    parse_args (flags_of key secret o) = Some args /\
    args_api_key args = key /\ args_api_secret args = secret /\
    use_testnet args = true.
Proof.
  intros Hread.
  destruct o as [symbol side quantity|symbol side quantity price
                |symbol side quantity price stop];
    cbn [read_order] in Hread;
    destruct (canonical symbol side) eqn:Hcan; try discriminate;
    destruct (canonical_parts symbol side Hcan) as (_ & _ & Hside);
    destruct (positive_float quantity) as [q|] eqn:Hq; try discriminate;
    destruct (positive_float_parts quantity "Quantity" q Hq) as (Hq1 & _);
    [|destruct (positive_float price) as [p|] eqn:Hp; try discriminate;
      destruct (positive_float_parts price "Price" p Hp) as (Hp1 & _)
     |destruct (positive_float price) as [p|] eqn:Hp; try discriminate;
      destruct (positive_float_parts price "Price" p Hp) as (Hp1 & _);
      destruct (positive_float stop) as [sp|] eqn:Hsp; try discriminate;
      destruct (positive_float_parts stop "Stop price" sp Hsp) as (Hsp1 & _)];
    unfold parse_args;
    cbn [flags_of opt_api_key opt_api_secret opt_testnet
      opt_mainnet opt_order_type opt_symbol opt_side opt_quantity opt_price
      opt_stop_price opt_balance opt_order_status opt_order_id opt_cancel_order
      opt_interactive typed];
    rewrite ?Hq1, ?Hp1, ?Hsp1;
    destruct Hside as [-> | ->]; eexists; (split; [reflexivity|]); repeat split.
Qed.

(** C3, as the code has it.  For an order whose symbol is written in upper
    case without white space around it, whose side is written BUY or SELL
    and whose numbers [float] reads as values above zero, the command line
    and the prompts of the interactive mode make the same calls to the
    exchange; once the bot is built, that is the one [futures_create_order]
    call with the payload of the order. *)
Theorem same_payload_from_flags_and_prompts
    (key secret : string) (o : order_text) (r : order_request) (w : world) :
  read_order o = Some r ->
  stdin w = session o ->
  calls (snd (main (flags_of key secret o) w))
    = calls (snd (main (interactive_argv key secret) w)) /\
  forall bot w1,
    __init__ key secret true w = (Ret bot, w1) ->
    calls (snd (main (flags_of key secret o) w))
      = FuturesCreateOrder (payload_of r) :: calls w1 /\
    order_payloads (calls (snd (main (flags_of key secret o) w)))
      = payload_of r :: order_payloads (calls w).
Proof.
  intros Hread Hin.
  destruct (init_cases key secret true w)
    as [(bot & w1 & E & _ & _ & Hcalls & _)|(e & w1 & E & _)].
  - pose proof (flags_run_calls key secret o r w w1 bot Hread E) as HF.
    pose proof (interactive_run_calls key secret o r w w1 bot Hread Hin E) as HI.
    split; [congruence|].
    intros bot' w1' E'. rewrite E in E'. injection E' as <- <-.
    split; [exact HF|]. rewrite HF. cbn [order_payloads]. now rewrite Hcalls.
  - split; [|intros bot w1' E'; rewrite E in E'; discriminate].
    destruct (flags_parse key secret o r Hread) as (args & Hargs & Hk & Hs & Ht).
    unfold main at 1. rewrite Hargs.
    rewrite (failed_init_calls args w w1 e) by (now rewrite Hk, Hs, Ht).
    symmetry.
    exact (failed_init_calls
             (mk_Namespace key secret true false None None None None None None
                false false None false true) w w1 e E).
Qed.

Lemma same_payload_from_flags_and_prompts_witness :
  calls (snd (main (flags_of "key" "secret" (TLimit "BTCUSDT" "SELL" "0.5" " 50000 "))
                (Demo.start (session (TLimit "BTCUSDT" "SELL" "0.5" " 50000 "))
                   Demo.accepting_exchange)))
  = calls (snd (main (interactive_argv "key" "secret")
                  (Demo.start (session (TLimit "BTCUSDT" "SELL" "0.5" " 50000 "))
                     Demo.accepting_exchange))).
Proof.
  apply (same_payload_from_flags_and_prompts "key" "secret"
           (TLimit "BTCUSDT" "SELL" "0.5" " 50000 ")
           (Limit "BTCUSDT" "SELL" (S754_finite false 4503599627370496 (-53))
              (S754_finite false 6871947673600000 (-37)) None)).
  - vm_compute. reflexivity.
  - reflexivity.
Defined.

(** The claim of C3 fails as stated: the command line passes the symbol on
    as it is written, the prompts put it in upper case. *)
Lemma lower_case_symbol_payloads_differ :
  ~ (forall (key secret : string) (o : order_text) (w : world),
       stdin w = session o ->
       order_payloads (calls (snd (main (flags_of key secret o) w)))
         = order_payloads (calls (snd (main (interactive_argv key secret) w)))).
Proof.
  intros claim.
  specialize (claim "key" "secret" (TMarket "btcusdt" "BUY" "1")
                (Demo.start (session (TMarket "btcusdt" "BUY" "1"))
                   Demo.accepting_exchange) eq_refl).
  vm_compute in claim. discriminate claim.
Qed.

End RoundTripProps.

(* ===================================================================== *)
(** ** Runs on concrete inputs *)
(* ===================================================================== *)

Module Runs.
Import Bot Cli Props.

(** C2 at the failing input: [--order-type market --symbol BTCUSDT --side BUY
    --quantity -1] passes the parser and the presence checks, and the
    exchange receives an order of quantity [-1.0]. *)
Theorem negative_quantity_flag_reaches_exchange :
  order_payloads
    (calls (snd (main (flags_of "key" "secret" (TMarket "BTCUSDT" "BUY" "-1"))
                   (Demo.start [] Demo.accepting_exchange))))
  = [ [("symbol", VStr "BTCUSDT"); ("side", VStr "BUY"); ("type", VStr "MARKET");
       ("quantity", VFloat (S754_finite true 4503599627370496 (-52)))] ].
Proof. vm_compute. reflexivity. Qed.

(** C4 at the failing input: menu entry 3 with an order id that is not a
    number ends the process with status 1. *)
Theorem bad_order_id_ends_interactive_mode :
  let w := snd (main (interactive_argv "key" "secret")
                  (Demo.start [Line "3"; Line "BTCUSDT"; Line "abc"; Line "5"]
                     Demo.accepting_exchange)) in
  fst (main (interactive_argv "key" "secret")
         (Demo.start [Line "3"; Line "BTCUSDT"; Line "abc"; Line "5"]
            Demo.accepting_exchange)) = Exit 1 /\
  hd_error (stdout w) = Some "Error: invalid literal for int() with base 10: 'abc'" /\
  stdin w = [Line "5"].
Proof. vm_compute. repeat split. Qed.

End Runs.

(* ===================================================================== *)
(** ** Properties of the bot's construction and of its queries *)
(* ===================================================================== *)

Module ConstructionProps.
Import Bot Cli Props.

(** The construction of the bot, by the answers of the exchange.  The
    client constructor is called first and the connection test second, and
    only if the constructor returned.  A failure of either call is raised
    again by [__init__] unchanged; a failure of the constructor is logged
    once, a failure of the connection test twice (by [_test_connection] and
    by [__init__]).  When both calls return, the bot carries the key, the
    secret and the environment, the futures URL is overridden on the test
    network only, and no error is logged. *)
Theorem construction_by_exchange_answers (key secret : string) (t : bool) (w : world) :
  let new := ClientNew key secret t in
  let r := __init__ key secret t w in
  match exchange w (calls w) new with
  | Raises e =>
      fst r = Raise e /\ calls (snd r) = new :: calls w /\
      errors_of (log (snd r)) =
        app (if is_Exception e then ["Failed to initialize client: " ++ exn_str e] else [])
          (errors_of (log w))
  | Returns _ =>
      match exchange w (new :: calls w) (liveness_call t) with
      | Raises e =>
          fst r = Raise e /\ calls (snd r) = liveness_call t :: new :: calls w /\
          errors_of (log (snd r)) =
            app (if is_Exception e
                 then ["Failed to initialize client: " ++ exn_str e;
                       "Connection test failed: " ++ exn_str e]
                 else [])
              (errors_of (log w))
      | Returns account =>
          fst r = Ret (mk_BasicBot key secret t
                         (mk_Client t
                            (if t then Some testnet_url else None)
                            (if t && has_futures_base_url w then Some testnet_url
                             else None))) /\
          calls (snd r) = liveness_call t :: new :: calls w /\
          errors_of (log (snd r)) = errors_of (log w)
      end
  end.
Proof.
  unfold __init__, _test_connection, try_except, bind, call_client, logger_info,
    logger_error, raise, ret.
  destruct t; run_step.
  - destruct (exchange w (calls w) (ClientNew key secret true)) as [r|[[] msg]]; run_step;
      try (repeat split; reflexivity).
    destruct (exchange w _ FuturesAccount) as [r'|[[] msg]]; run_step;
      repeat split; reflexivity.
  - destruct (exchange w (calls w) (ClientNew key secret false)) as [r|[[] msg]]; run_step;
      try (repeat split; reflexivity).
    destruct (exchange w _ GetAccount) as [r'|[[] msg]]; run_step;
      repeat split; reflexivity.
Qed.

End ConstructionProps.

Module QueryProps.
Import Bot Cli Props.

(** [get_order_status] and [cancel_order] make one call to the client, with
    the symbol and the order id they were given.  They return the response
    of the exchange as it is and log no error; when the exchange raises,
    they log one error that names the order id and raise the same
    exception again. *)
Theorem query_and_cancel_call_once (bot : BasicBot) (symbol : string) (order_id : Z)
    (w : world) :
  (let c := FuturesGetOrder symbol order_id in
   let r := get_order_status bot symbol order_id w in
   calls (snd r) = c :: calls w /\
   match exchange w (calls w) c with
   | Returns response =>
       fst r = Ret response /\ errors_of (log (snd r)) = errors_of (log w)
   | Raises e =>
       fst r = Raise e /\
       errors_of (log (snd r)) =
         app (if is_Exception e
              then ["Error getting order status for " ++ PyInt.str order_id ++ ": "
                      ++ class_name (exn_type e) ++ " - " ++ exn_str e]
              else [])
           (errors_of (log w))
   end) /\
  (let c := FuturesCancelOrder symbol order_id in
   let r := cancel_order bot symbol order_id w in
   calls (snd r) = c :: calls w /\
   match exchange w (calls w) c with
   | Returns response =>
       fst r = Ret response /\ errors_of (log (snd r)) = errors_of (log w)
   | Raises e =>
       fst r = Raise e /\
       errors_of (log (snd r)) =
         app (if is_Exception e
              then ["Error cancelling order " ++ PyInt.str order_id ++ ": "
                      ++ class_name (exn_type e) ++ " - " ++ exn_str e]
              else [])
           (errors_of (log w))
   end).
Proof.
  unfold get_order_status, cancel_order, try_except, bind, call_client, logger_info,
    _log_response, _log_error, logger_error, raise, ret.
  split; run_step.
  - destruct (exchange w (calls w) (FuturesGetOrder symbol order_id)) as [r|[[] msg]];
      run_step; repeat split; reflexivity.
  - destruct (exchange w (calls w) (FuturesCancelOrder symbol order_id)) as [r|[[] msg]];
      run_step; repeat split; reflexivity.
Qed.

(** The balance report.  [print_account_info] makes one call,
    [futures_account].  When the exchange answers, three amounts are
    printed between two rules; an amount the answer lacks is printed as
    [None], never as the [N/A] given as default, because
    [get_account_balance] always fills the three keys.  When the exchange
    raises an [Exception], the error is logged once, its text is printed and
    the function returns normally. *)
Theorem balance_report (bot : BasicBot) (w : world) :
  let r := print_account_info bot w in
  calls (snd r) = FuturesAccount :: calls w /\
  match exchange w (calls w) FuturesAccount with
  | Returns account =>
      fst r = Ret tt /\
      stdout (snd r) =
        app [rule60 ++ nl;
             "Unrealized PnL:        " ++ get_or_None account "totalUnrealizedProfit"
               ++ " USDT";
             "Available Balance:    " ++ get_or_None account "availableBalance" ++ " USDT";
             "Total Wallet Balance:  " ++ get_or_None account "totalWalletBalance"
               ++ " USDT";
             rule60;
             "ACCOUNT BALANCE";
             nl ++ rule60]
          (stdout w) /\
      log (snd r) = log w
  | Raises e =>
      if is_Exception e then
        fst r = Ret tt /\
        stdout (snd r) = ("Error getting account balance: " ++ exn_str e) :: stdout w /\
        log (snd r) =
          (ERROR, "Error getting account balance: " ++ class_name (exn_type e) ++ " - "
                    ++ exn_str e) :: log w
      else
        fst r = Raise e /\ stdout (snd r) = stdout w /\ log (snd r) = log w
  end.
Proof.
  unfold print_account_info, get_account_balance, try_except, bind, call_client,
    _log_error, logger_error, print, raise, ret.
  run_step.
  destruct (exchange w (calls w) FuturesAccount) as [r|[[] msg]];
    run_step; repeat split; reflexivity.
Qed.

End QueryProps.

Module OrderTypeProps.
Import Bot Cli Props.

(** [validate_order_type] accepts the texts whose upper case is MARKET,
    LIMIT, STOP-LIMIT or STOP_LIMIT, and no other.  It returns MARKET, LIMIT
    or STOP_LIMIT: both spellings of the stop-limit type give the one with
    the underscore, and a returned name is accepted again and returned
    unchanged.  A refused text raises a [ValueError] that lists the four
    valid names and quotes the text. *)
Theorem validate_order_type_spec (order_type : string) :
  let valid := ["MARKET"; "LIMIT"; "STOP-LIMIT"; "STOP_LIMIT"] in
  match validate_order_type order_type with
  | inr t =>
      In (PyStr.upper order_type) valid /\
      In t ["MARKET"; "LIMIT"; "STOP_LIMIT"] /\
      t = replace_hyphen (PyStr.upper order_type) /\
      validate_order_type t = inr t
  | inl e =>
      ~ In (PyStr.upper order_type) valid /\
      e = mk_exn ValueError
            ("Order type must be one of ['MARKET', 'LIMIT', 'STOP-LIMIT', 'STOP_LIMIT'], got '"
               ++ order_type ++ "'")
  end.
Proof.
  unfold validate_order_type. cbn [existsb].
  destruct (String.eqb_spec (PyStr.upper order_type) "MARKET") as [E|N1].
  { rewrite E. cbn. repeat split; auto. }
  destruct (String.eqb_spec (PyStr.upper order_type) "LIMIT") as [E|N2].
  { rewrite E. cbn. repeat split; auto. }
  destruct (String.eqb_spec (PyStr.upper order_type) "STOP-LIMIT") as [E|N3].
  { rewrite E. cbn. repeat split; auto 6. }
  destruct (String.eqb_spec (PyStr.upper order_type) "STOP_LIMIT") as [E|N4].
  { rewrite E. cbn. repeat split; auto 6. }
  cbn. split.
  - intros [H|[H|[H|[H|[]]]]]; congruence.
  - reflexivity.
Qed.

End OrderTypeProps.

(* ===================================================================== *)
(** ** Properties of the command line: usage errors and precedence *)
(* ===================================================================== *)

Module UsageProps.
Import Bot Cli Props.

Lemma typed_refused {A : Type} (conv : string -> option A) (raw : option string) :
  typed conv raw = None <-> exists t, raw = Some t /\ conv t = None.
Proof.
  unfold typed. destruct raw as [t|].
  - destruct (conv t) eqn:E; split.
    + discriminate.
    + intros (t' & [= <-] & H). congruence.
    + intros _. now exists t.
    + reflexivity.
  - split; [discriminate|]. now intros (t & H & _).
Qed.

Lemma among_refused (l : list string) (t : string) :
  among l t = None <-> ~ In t l.
Proof.
  unfold among. destruct (existsb (String.eqb t) l) eqn:E.
  - split; [discriminate|]. intros H. exfalso. apply H.
    apply existsb_exists in E as (x & Hx & Hq).
    apply String.eqb_eq in Hq. now subst.
  - split; [|reflexivity]. intros _ H.
    assert (existsb (String.eqb t) l = true); [|congruence].
    apply existsb_exists. exists t. split; [assumption|apply String.eqb_refl].
Qed.

(** The usage errors.  The command line is refused exactly when
    [--api-key] or [--api-secret] is missing, when [--order-type] or
    [--side] is not one of the choices as written (in lower case for the
    type, in upper case for the side), when [--quantity], [--price] or
    [--stop-price] is not a text [float] reads, or when [--order-id] is not
    a text [int] reads.  A refused command line ends the process with
    status 2: nothing is printed by the program and the exchange is not
    contacted. *)
Theorem usage_errors (av : argv) (w : world) :
  (parse_args av = None <->
     opt_api_key av = None \/
     opt_api_secret av = None \/
     (exists t, opt_order_type av = Some t /\ ~ In t ["market"; "limit"; "stop-limit"]) \/
     (exists t, opt_side av = Some t /\ ~ In t ["BUY"; "SELL"]) \/
     (exists t, opt_quantity av = Some t /\ PyFloat.of_string t = None) \/
     (exists t, opt_price av = Some t /\ PyFloat.of_string t = None) \/
     (exists t, opt_stop_price av = Some t /\ PyFloat.of_string t = None) \/
     (exists t, opt_order_id av = Some t /\ exists text, PyInt.of_string t = inl text)) /\
  (parse_args av = None -> main av w = (Exit 2, w)).
Proof.
  assert (Hint : forall t, int_conv t = None <-> exists text, PyInt.of_string t = inl text).
  { intros t. unfold int_conv. destruct (PyInt.of_string t) as [text|n]; split;
      try discriminate; eauto. intros (text & H). discriminate. }
  assert (Hty : forall l raw,
             typed (among l) raw = None <-> exists t, raw = Some t /\ ~ In t l).
  { intros l raw. rewrite typed_refused. split; intros (t & H1 & H2); exists t;
      (split; [exact H1|now apply among_refused]). }
  assert (Hid : typed int_conv (opt_order_id av) = None <->
                exists t, opt_order_id av = Some t /\ exists text, PyInt.of_string t = inl text).
  { rewrite typed_refused. split; intros (t & H1 & H2); exists t;
      (split; [exact H1|now apply Hint]). }
  split.
  - rewrite <- !Hty, <- Hid, <- !typed_refused.
    unfold parse_args.
    destruct (opt_api_key av); [|tauto].
    destruct (opt_api_secret av); [|tauto].
    destruct (typed (among _) (opt_order_type av)); [|tauto].
    destruct (typed (among _) (opt_side av)); [|tauto].
    destruct (typed PyFloat.of_string (opt_quantity av)); [|tauto].
    destruct (typed PyFloat.of_string (opt_price av)); [|tauto].
    destruct (typed PyFloat.of_string (opt_stop_price av)); [|tauto].
    destruct (typed int_conv (opt_order_id av)); [|tauto].
    split; [discriminate|].
    intros [H|[H|[H|[H|[H|[H|[H|H]]]]]]]; discriminate.
  - intros H. unfold main. now rewrite H.
Qed.

Lemma usage_errors_witness :
  main (mk_argv None (Some "secret") false false None None None None None None
          false false None false true)
    (Demo.start [] Demo.accepting_exchange)
  = (Exit 2, Demo.start [] Demo.accepting_exchange).
Proof.
  apply (proj2 (usage_errors _ _)). reflexivity.
Defined.

End UsageProps.

Module DispatchProps.
Import Bot Cli Props Traces.

(** [--order-status] and [--cancel-order] need a symbol and an order id,
    and both are tested for truth: an empty symbol and the order id 0 count
    as missing.  The check comes after the bot is built; the program then
    prints the error and ends with status 1 without asking the exchange
    about the order. *)
Theorem id_operations_need_symbol_and_id (args : Namespace) (w w1 : world) (bot : BasicBot) :
  __init__ (args_api_key args) (args_api_secret args) (use_testnet args) w = (Ret bot, w1) ->
  args_interactive args = false -> args_balance args = false ->
  args_order_status args = true \/ args_cancel_order args = true ->
  args_symbol args = None \/ args_symbol args = Some "" \/
    args_order_id args = None \/ args_order_id args = Some 0 ->
  run args w =
    (Exit 1,
     with_stdout
       (cons ("Error: --symbol and --order-id are required for "
                ++ (if args_order_status args then "--order-status" else "--cancel-order")))
       w1).
Proof.
  intros Hinit Hi Hb Hop Hmiss.
  rewrite (CliProps.run_init_ok _ _ _ _ Hinit).
  unfold dispatch. rewrite Hi, Hb.
  assert (Ht : truthy_str (args_symbol args) = None \/ truthy_int (args_order_id args) = None).
  { destruct Hmiss as [H|[H|[H|H]]]; rewrite H; auto. }
  destruct (args_order_status args).
  - apply CliProps.try_except_exit. unfold order_status_mode.
    destruct Ht as [H|H]; rewrite H; [|destruct (truthy_str _)]; reflexivity.
  - destruct Hop as [Hop|Hop]; [discriminate|]. rewrite Hop.
    apply CliProps.try_except_exit. unfold cancel_order_mode.
    destruct Ht as [H|H]; rewrite H; [|destruct (truthy_str _)]; reflexivity.
Qed.

Lemma id_operations_need_symbol_and_id_witness :
  fst (run (mk_Namespace "key" "secret" true false None (Some "BTCUSDT") None None None None
              false true (Some 0) false false)
         (Demo.start [] Demo.accepting_exchange)) = Exit 1.
Proof.
  erewrite (id_operations_need_symbol_and_id _ (Demo.start [] Demo.accepting_exchange));
    [reflexivity|vm_compute; reflexivity|reflexivity|reflexivity|left; reflexivity|
     right; right; right; reflexivity].
Defined.

(** [--balance] without [--interactive] decides the operation whatever the
    other options are: the order, status and cancel options are ignored.
    Once the bot is built the only call made is [futures_account], and the
    process ends with status 0 even when that call fails, because
    [print_account_info] reports the failure and returns. *)
Theorem balance_takes_precedence (args : Namespace) (w w1 : world) (bot : BasicBot) :
  __init__ (args_api_key args) (args_api_secret args) (use_testnet args) w = (Ret bot, w1) ->
  args_interactive args = false -> args_balance args = true ->
  calls (snd (run args w)) = FuturesAccount :: calls w1 /\
  status_in [0] (fst (run args w)) = true.
Proof.
  intros Hinit Hi Hb.
  rewrite (CliProps.run_init_ok _ _ _ _ Hinit).
  unfold dispatch. rewrite Hi, Hb.
  unfold print_account_info, get_account_balance, try_except, bind, call_client,
    _log_error, logger_error, print, raise, ret.
  run_step.
  destruct (exchange w1 (calls w1) FuturesAccount) as [r|[[] msg]];
    run_step; split; reflexivity.
Qed.

Lemma balance_takes_precedence_witness :
  calls (snd (run (mk_Namespace "key" "secret" true false (Some "market") (Some "BTCUSDT")
                     (Some "BUY") (Some Demo.one) None None true false None false false)
                (Demo.start [] Demo.accepting_exchange)))
  = [FuturesAccount; FuturesAccount; ClientNew "key" "secret" true].
Proof.
  refine (eq_trans (proj1 (balance_takes_precedence _ _
                             (snd (__init__ "key" "secret" true
                                     (Demo.start [] Demo.accepting_exchange)))
                             Demo.demo_bot _ _ _)) _);
    vm_compute; reflexivity.
Defined.

(** Without any operation the program still builds the bot, which calls the
    client constructor and the connection test, and only then prints that
    no operation was specified and ends with status 1. *)
Theorem no_operation_after_connecting (args : Namespace) (w w1 : world) (bot : BasicBot) :
  __init__ (args_api_key args) (args_api_secret args) (use_testnet args) w = (Ret bot, w1) ->
  args_interactive args = false -> args_balance args = false ->
  args_order_status args = false -> args_cancel_order args = false ->
  truthy_str (args_order_type args) = None ->
  run args w =
    (Exit 1,
     with_stdout
       (cons "No operation specified. Use --interactive, --balance, --order-status, or --order-type")
       w1) /\
  calls w1 =
    liveness_call (use_testnet args)
      :: ClientNew (args_api_key args) (args_api_secret args) (use_testnet args) :: calls w.
Proof.
  intros Hinit Hi Hb Hs Hc Ht. split.
  - rewrite (CliProps.run_init_ok _ _ _ _ Hinit).
    unfold dispatch. rewrite Hi, Hb, Hs, Hc, Ht.
    apply CliProps.try_except_exit. reflexivity.
  - destruct (CliProps.init_cases (args_api_key args) (args_api_secret args) (use_testnet args) w)
      as [(bot' & w1' & E & _ & _ & H & _)|(e & w1' & E & _)];
      rewrite E in Hinit; [|discriminate].
    now injection Hinit as <- <-.
Qed.

Lemma no_operation_after_connecting_witness :
  fst (run (mk_Namespace "key" "secret" true false None None None None None None
              false false None false false)
         (Demo.start [] Demo.accepting_exchange)) = Exit 1.
Proof.
  exact (f_equal fst
           (proj1 (no_operation_after_connecting
                     (mk_Namespace "key" "secret" true false None None None None None None
                        false false None false false)
                     (Demo.start [] Demo.accepting_exchange)
                     (snd (__init__ "key" "secret" true
                             (Demo.start [] Demo.accepting_exchange)))
                     Demo.demo_bot eq_refl eq_refl eq_refl eq_refl eq_refl eq_refl))).
Defined.

End DispatchProps.

(* ===================================================================== *)
(** ** How runs end *)
(* ===================================================================== *)

Module EndingProps.
Import Bot Cli Props Traces.

Lemma steady_ret {A : Type} (a : A) : steady (ret a).
Proof. intros w. split; [reflexivity|apply le_n]. Qed.

Lemma steady_raise {A : Type} (e : exn) : steady (@raise A e).
Proof. intros w. split; [reflexivity|apply le_n]. Qed.

Lemma steady_print (text : string) : steady (print text).
Proof. intros w. split; [reflexivity|apply le_n]. Qed.

Lemma steady_logger_info (text : string) : steady (logger_info text).
Proof. intros w. split; [reflexivity|apply le_n]. Qed.

Lemma steady_logger_error (text : string) : steady (logger_error text).
Proof. intros w. split; [reflexivity|apply le_n]. Qed.

Lemma steady_input (prompt : string) : steady (input prompt).
Proof.
  intros w. unfold input. cbn.
  destruct (stdin w) as [|[s|] r] eqn:E; cbn; rewrite ?E; split; try reflexivity;
    cbn; lia.
Qed.

Lemma steady_call_client (c : api_call) : steady (call_client c).
Proof.
  intros w. unfold call_client.
  destruct (exchange w (calls w) c); cbn; split; try reflexivity; lia.
Qed.

Lemma steady_lift {A : Type} (r : exn + A) : steady (lift r).
Proof. destruct r; [apply steady_raise|apply steady_ret]. Qed.

Lemma steady_bind {A B : Type} (m : M A) (k : A -> M B) :
  steady m -> (forall a, steady (k a)) -> steady (bind m k).
Proof.
  intros Hm Hk w. unfold bind. destruct (Hm w) as [Hc Hl].
  destruct (m w) as [[a|e|c|] w1]; cbn in *; try discriminate.
  - destruct (Hk a w1) as [Hc' Hl']. split; [assumption|].
    eapply Nat.le_trans; eassumption.
  - split; [reflexivity|assumption].
Qed.

Lemma steady_try {A : Type} (m : M A) (hs : list ((exn -> bool) * (exn -> M A))) :
  steady m -> Forall (fun ah => forall e, steady (snd ah e)) hs -> steady (try_except m hs).
Proof.
  intros Hm Hhs w. unfold try_except. destruct (Hm w) as [Hc Hl].
  destruct (m w) as [[a|e|c|] w1]; cbn in *; try discriminate.
  - split; [reflexivity|assumption].
  - assert (Hf : forall h, find_handler hs e = Some h -> steady (h e)).
    { clear - Hhs. induction Hhs as [|[acc h'] r Hh _ IH]; cbn; [discriminate|].
      destruct (acc e); [|exact IH]. intros h [= <-]. apply Hh. }
    destruct (find_handler hs e) as [h|].
    + destruct (Hf h eq_refl w1) as [Hc' Hl']. split; [assumption|].
      eapply Nat.le_trans; eassumption.
    + split; [reflexivity|assumption].
Qed.

(** One step of the proof that a computation is steady, by its syntax. *)
Ltac steady_step :=
  lazymatch goal with
  | |- steady (bind _ _) => apply steady_bind; [|intro]
  | |- steady (try_except _ _) => apply steady_try; [|repeat constructor; intro]
  | |- steady (print _) => apply steady_print
  | |- steady (input _) => apply steady_input
  | |- steady (logger_info _) => apply steady_logger_info
  | |- steady (logger_error _) => apply steady_logger_error
  | |- steady (call_client _) => apply steady_call_client
  | |- steady (lift _) => apply steady_lift
  | |- steady (raise _) => apply steady_raise
  | |- steady (ret _) => apply steady_ret
  | |- steady (if ?b then _ else _) => destruct b
  | |- steady (match ?x with _ => _ end) => destruct x
  end.

Lemma steady_place (bot : BasicBot) (o : order_request) : steady (place bot o).
Proof.
  destruct o; unfold place, place_market_order, place_limit_order, place_stop_limit_order,
    order_handlers, _log_request, _log_response, _log_error; repeat steady_step.
Qed.

Lemma steady_print_order_details (r : response) : steady (print_order_details r).
Proof. unfold print_order_details. repeat steady_step. Qed.

Lemma steady_validated {A : Type} (r : exn + A) : steady (validated r).
Proof. unfold validated. repeat steady_step. Qed.

Lemma steady_get_order_status (bot : BasicBot) (symbol : string) (order_id : Z) :
  steady (get_order_status bot symbol order_id).
Proof. unfold get_order_status, _log_error. repeat steady_step. Qed.

Lemma steady_cancel_order (bot : BasicBot) (symbol : string) (order_id : Z) :
  steady (cancel_order bot symbol order_id).
Proof. unfold cancel_order, _log_error, _log_response. repeat steady_step. Qed.

Lemma steady_print_account_info (bot : BasicBot) : steady (print_account_info bot).
Proof.
  unfold print_account_info, get_account_balance, _log_error. repeat steady_step.
Qed.

Lemma steady_int_call (text : string) : steady (int_call text).
Proof. unfold int_call. repeat steady_step. Qed.

Ltac prompt_step :=
  lazymatch goal with
  | |- steady (place_market_order ?b _ _ _) => apply (steady_place b (Market _ _ _))
  | |- steady (place_limit_order ?b _ _ _ _ _) => apply (steady_place b (Limit _ _ _ _ _))
  | |- steady (place_stop_limit_order ?b _ _ _ _ _ _) =>
      apply (steady_place b (StopLimit _ _ _ _ _ _))
  | |- steady (print_order_details _) => apply steady_print_order_details
  | |- steady (validated _) => apply steady_validated
  | |- steady (get_order_status _ _ _) => apply steady_get_order_status
  | |- steady (cancel_order _ _ _) => apply steady_cancel_order
  | |- steady (int_call _) => apply steady_int_call
  | |- steady (let (_, _) := ?x in _) => destruct x
  | |- _ => steady_step
  end.

Lemma steady_place_order_interactive (bot : BasicBot) : steady (place_order_interactive bot).
Proof.
  unfold place_order_interactive.
  repeat prompt_step.
Qed.

(** A steady computation whose exceptions are all caught by handlers that
    return does return. *)
Lemma caught_returns {A : Type} (m : M A) (hs : list ((exn -> bool) * (exn -> M A)))
    (w : world) :
  steady m ->
  (forall e w', exists h a, find_handler hs e = Some h /\ fst (h e w') = Ret a) ->
  exists a, fst (try_except m hs w) = Ret a.
Proof.
  intros Hm Hh. unfold try_except. destruct (Hm w) as [Hc _].
  destruct (m w) as [[a|e|c|] w1]; cbn in Hc; try discriminate.
  - now exists a.
  - destruct (Hh e w1) as (h & a & -> & Ha). now exists a.
Qed.

(** Whatever is typed, end of input and Ctrl-C included, and whatever the
    exchange answers, [place_order_interactive] returns to its caller: no
    exception escapes it and it does not end the process.  It reads
    standard input forwards only. *)
Theorem place_order_interactive_returns (bot : BasicBot) (w : world) :
  fst (place_order_interactive bot w) = Ret tt /\
  (List.length (stdin (snd (place_order_interactive bot w))) <= List.length (stdin w))%nat.
Proof.
  split; [|apply steady_place_order_interactive].
  unfold place_order_interactive.
  change (fst ((fun w0 => ?k w0) w)) with (fst (k w)).
  match goal with
  | |- fst (bind (print ?a) (fun _ => bind (print ?b) (fun _ => bind (print ?c)
              (fun _ => try_except ?body ?hs))) w) = _ =>
      change (fst (try_except body hs
                     (with_stdout (cons c) (with_stdout (cons b) (with_stdout (cons a) w))))
              = Ret tt);
      destruct (caught_returns body hs
                  (with_stdout (cons c) (with_stdout (cons b) (with_stdout (cons a) w))))
        as ([] & H); [| |exact H]
  end.
  - repeat prompt_step.
  - intros [[] msg] w'; cbn; do 2 eexists; split; reflexivity.
Qed.

Lemma steady_bounded {A : Type} (n : nat) (m : M A) : steady m -> bounded n m.
Proof. intros H w _. apply H. Qed.

Lemma bounded_bind {A B : Type} (n : nat) (m : M A) (k : A -> M B) :
  steady m -> (forall a, bounded n (k a)) -> bounded n (bind m k).
Proof.
  intros Hm Hk w Hn. unfold bind. destruct (Hm w) as [Hc Hl].
  destruct (m w) as [[a|e|c|] w1]; cbn in *; try discriminate; [|reflexivity].
  apply Hk. lia.
Qed.

(** Reading the choice at the menu takes one event: what follows has one
    event less to read. *)
Lemma bounded_input (n : nat) {B : Type} (prompt : string) (k : string -> M B) :
  (forall a, bounded n (k a)) -> bounded (S n) (bind (input prompt) k).
Proof.
  intros Hk w Hn. unfold bind, input. cbn.
  destruct (stdin w) as [|[s|] r] eqn:E; cbn; try reflexivity.
  apply Hk. cbn. cbn in Hn. lia.
Qed.

Lemma bounded_menu_banner (n : nat) {B : Type} (k : unit -> M B) :
  bounded n (k tt) -> bounded n (bind menu_banner k).
Proof.
  intros H w Hn. unfold menu_banner, bind, print. cbn. apply H. exact Hn.
Qed.

(** The menu loop does not use up its bound, and it has no way to end the
    process: it returns or raises. *)
Lemma menu_loop_bounded (bot : BasicBot) (fuel : nat) : bounded fuel (menu_loop fuel bot).
Proof.
  induction fuel as [|fuel IH]; [intros w H; cbn in H; lia|].
  cbn [menu_loop]. apply bounded_menu_banner, bounded_input.
  intros choice_line. cbv zeta.
  repeat lazymatch goal with
    | |- bounded _ (if ?b then _ else _) => destruct b
    | |- bounded _ (menu_loop _ _) => exact IH
    | |- bounded _ (bind (place_order_interactive _) _) =>
        apply bounded_bind; [apply steady_place_order_interactive|intro]
    | |- bounded _ (bind (print_account_info _) _) =>
        apply bounded_bind; [apply steady_print_account_info|intro]
    | |- bounded _ (bind _ _) => apply bounded_bind; [repeat prompt_step|intro]
    | |- bounded _ (print _) => apply steady_bounded, steady_print
    end.
Qed.

Lemma steady_tame {A : Type} (m : M A) : steady m -> tame m.
Proof.
  intros H w. destruct (H w) as [Hc _].
  destruct (fst (m w)); cbn in *; congruence.
Qed.

Lemma tame_bind {A B : Type} (m : M A) (k : A -> M B) :
  tame m -> (forall a, tame (k a)) -> tame (bind m k).
Proof.
  intros Hm Hk w. unfold bind. specialize (Hm w).
  destruct (m w) as [[a|e|c|] w1]; cbn in *; try assumption. apply Hk.
Qed.

Lemma tame_try {A : Type} (m : M A) (hs : list ((exn -> bool) * (exn -> M A))) :
  tame m -> Forall (fun ah => forall e, tame (snd ah e)) hs -> tame (try_except m hs).
Proof.
  intros Hm Hhs w. unfold try_except. specialize (Hm w).
  destruct (m w) as [[a|e|c|] w1]; cbn in *; try assumption.
  assert (Hf : forall h, find_handler hs e = Some h -> tame (h e)).
  { clear - Hhs. induction Hhs as [|[acc h'] r Hh _ IH]; cbn; [discriminate|].
    destruct (acc e); [|exact IH]. intros h [= <-]. apply Hh. }
  destruct (find_handler hs e) as [h|]; [apply (Hf h eq_refl)|reflexivity].
Qed.

Lemma tame_exit_1 {A : Type} : tame (@sys_exit A 1).
Proof. intros w. reflexivity. Qed.

Lemma tame_interactive_mode (bot : BasicBot) : tame (interactive_mode bot).
Proof.
  intros w. unfold interactive_mode.
  pose proof (menu_loop_bounded bot (S (List.length (stdin w))) w (Nat.lt_succ_diag_r _)) as H.
  destruct (fst (menu_loop _ bot w)); cbn in *; congruence.
Qed.

Ltac tame_step :=
  lazymatch goal with
  | |- tame (bind _ _) => apply tame_bind; [|intro]
  | |- tame (try_except _ _) => apply tame_try; [|repeat constructor; intro]
  | |- tame (sys_exit 1) => apply tame_exit_1
  | |- tame (interactive_mode _) => apply tame_interactive_mode
  | |- tame (print_account_info _) => apply steady_tame, steady_print_account_info
  | |- tame (if ?b then _ else _) => destruct b
  | |- tame (match ?x with _ => _ end) => destruct x
  | |- tame _ => apply steady_tame; repeat prompt_step
  end.

Lemma tame_dispatch (bot : BasicBot) (args : Namespace) : tame (dispatch bot args).
Proof.
  unfold dispatch, order_status_mode, cancel_order_mode, place_order_mode, no_operation.
  repeat tame_step.
Qed.

(** How the process ends.  A command line the parser refuses ends it with
    status 2.  Otherwise, whatever is typed and whatever the exchange
    answers, the program returns normally or ends with status 0 or 1: no
    exception escapes [main], and the interactive menu always comes to an
    end on a finite input. *)
Theorem main_exit_status (av : argv) (w : world) :
  match parse_args av with
  | None => fst (main av w) = Exit 2
  | Some _ => status_in [0; 1] (fst (main av w)) = true
  end.
Proof.
  unfold main. destruct (parse_args av) as [args|]; [|reflexivity].
  destruct (CliProps.init_cases (args_api_key args) (args_api_secret args)
              (use_testnet args) w)
    as [(bot & w1 & E & _)|(e & w1 & E & _)].
  - rewrite (CliProps.run_init_ok _ _ _ _ E).
    unfold try_except. pose proof (tame_dispatch bot args w1) as H.
    destruct (dispatch bot args w1) as [[[]|[[] msg]|c|] w2]; cbn in *;
      try reflexivity; try discriminate.
    apply Z.eqb_eq in H. now subst.
  - unfold run, try_except, bind. rewrite E.
    destruct e as [[] msg]; reflexivity.
Qed.

End EndingProps.

(* ===================================================================== *)
(** ** Properties of the interactive mode *)
(* ===================================================================== *)

Module MenuProps.
Import Bot Cli Props Traces.

(** The prompts that end early.  A symbol line that is empty or blank is
    refused with a message after that one line is read; a selection other
    than 1, 2 or 3 is refused after the second line.  In both cases
    [place_order_interactive] returns, the lines that follow stay unread
    and no call is made to the exchange. *)
Theorem prompt_refuses_blank_symbol_and_unknown_type (bot : BasicBot) (w : world)
    (symbol : string) (rest : list input_event) :
  stdin w = Line symbol :: rest ->
  let r := place_order_interactive bot w in
  (PyStr.strip symbol = "" ->
   fst r = Ret tt /\ stdin (snd r) = rest /\ calls (snd r) = calls w /\
   hd_error (stdout (snd r)) = Some "Error: Symbol cannot be empty") /\
  (forall choice rest',
     rest = Line choice :: rest' ->
     PyStr.upper (PyStr.strip symbol) <> "" ->
     ~ In (PyStr.strip choice) ["1"; "2"; "3"] ->
     fst r = Ret tt /\ stdin (snd r) = rest' /\ calls (snd r) = calls w /\
     hd_error (stdout (snd r)) = Some "Error: Invalid order type selection").
Proof.
  destruct w as [i o l c ex h]. cbn [stdin]. intros ->. cbv zeta. split.
  - intros Hs.
    unfold place_order_interactive, try_except, bind, print, input.
    run_step. rewrite Hs. change (PyStr.upper "") with "". run_step.
    repeat split; reflexivity.
  - intros choice rest' -> Hs Hc.
    unfold place_order_interactive, try_except, bind, print, input.
    run_step.
    destruct (String.eqb_spec (PyStr.upper (PyStr.strip symbol)) "") as [E|_];
      [contradiction|].
    run_step.
    destruct (String.eqb_spec (PyStr.strip choice) "1") as [E|_];
      [exfalso; apply Hc; rewrite E; cbn; tauto|].
    destruct (String.eqb_spec (PyStr.strip choice) "2") as [E|_];
      [exfalso; apply Hc; rewrite E; cbn; tauto|].
    destruct (String.eqb_spec (PyStr.strip choice) "3") as [E|_];
      [exfalso; apply Hc; rewrite E; cbn; tauto|].
    run_step. repeat split; reflexivity.
Qed.

Lemma prompt_refuses_blank_symbol_and_unknown_type_witness :
  fst (place_order_interactive Demo.demo_bot
         (Demo.start [Line "  "; Line "1"] Demo.accepting_exchange)) = Ret tt.
Proof.
  exact (proj1 (proj1 (prompt_refuses_blank_symbol_and_unknown_type Demo.demo_bot
                         (Demo.start [Line "  "; Line "1"] Demo.accepting_exchange)
                         "  " [Line "1"] eq_refl) eq_refl)).
Defined.

Lemma bind_ret_inv {A B : Type} (m : M A) (k : A -> M B) (w w' : world) (b : B) :
  bind m k w = (Ret b, w') -> exists a w1, m w = (Ret a, w1) /\ k a w1 = (Ret b, w').
Proof.
  unfold bind. destruct (m w) as [[a|e|c|] w1]; try discriminate.
  intros H. now exists a, w1.
Qed.

Lemma menu_loop_returns_after_exit (bot : BasicBot) (fuel : nat) (w w' : world) :
  menu_loop fuel bot w = (Ret tt, w') -> hd_error (stdout w') = Some "Exiting...".
Proof.
  revert w w'. induction fuel as [|fuel IH]; intros w w' H; [discriminate|].
  cbn [menu_loop] in H.
  apply bind_ret_inv in H as (? & w1 & _ & H).
  apply bind_ret_inv in H as (line & w2 & _ & H).
  cbv zeta in H.
  repeat lazymatch type of H with
    | menu_loop _ _ _ = _ => apply IH in H
    | bind _ _ _ = _ =>
        let w3 := fresh "w" in
        apply bind_ret_inv in H as (? & w3 & _ & H); cbv zeta in H
    | (if ?b then _ else _) _ = _ => destruct b
    end;
    try assumption.
  injection H as <-. reflexivity.
Qed.

(** The interactive mode returns normally only through entry 5 of the
    menu: when a run in interactive mode returns, the last line it printed
    is [Exiting...]. *)
Theorem interactive_mode_returns_after_exit (args : Namespace) (w : world) :
  args_interactive args = true ->
  fst (run args w) = Ret tt ->
  hd_error (stdout (snd (run args w))) = Some "Exiting...".
Proof.
  intros Hi.
  destruct (CliProps.init_cases (args_api_key args) (args_api_secret args)
              (use_testnet args) w)
    as [(bot & w1 & E & _)|(e & w1 & E & _)].
  - rewrite (CliProps.run_init_ok _ _ _ _ E).
    unfold dispatch. rewrite Hi. unfold try_except, interactive_mode.
    destruct (menu_loop _ bot w1) as [[[]|[[] msg]|c|] w2] eqn:Hm; cbn; try discriminate.
    intros _. exact (menu_loop_returns_after_exit _ _ _ _ Hm).
  - destruct (CliProps.run_init_failed _ _ _ _ E) as (code & text & ->). discriminate.
Qed.

Lemma interactive_mode_returns_after_exit_witness :
  hd_error
    (stdout (snd (run (mk_Namespace "key" "secret" true false None None None None None None
                         false false None false true)
                    (Demo.start [Line "9"; Line "5"] Demo.accepting_exchange))))
  = Some "Exiting...".
Proof.
  apply interactive_mode_returns_after_exit; vm_compute; reflexivity.
Defined.

(** The first event at the menu.  When standard input is at its end, the
    [EOFError] of [input] reaches the handler of [main]: the program prints
    the error and ends with status 1.  When the first event is Ctrl-C, it
    prints that the operation was cancelled and ends with status 0.  In
    both cases nothing was asked of the exchange after the connection
    test. *)
Theorem menu_at_end_of_input_or_interrupt (args : Namespace) (w w1 : world)
    (bot : BasicBot) :
  __init__ (args_api_key args) (args_api_secret args) (use_testnet args) w = (Ret bot, w1) ->
  args_interactive args = true ->
  let r := run args w in
  (stdin w = [] ->
   fst r = Exit 1 /\ calls (snd r) = calls w1 /\
   hd_error (stdout (snd r)) = Some "Error: EOF when reading a line") /\
  (forall rest,
     stdin w = Interrupt :: rest ->
     fst r = Exit 0 /\ calls (snd r) = calls w1 /\ stdin (snd r) = rest /\
     hd_error (stdout (snd r)) = Some (nl ++ nl ++ "Operation cancelled by user")).
Proof.
  intros Hinit Hi. cbv zeta.
  rewrite (CliProps.run_init_ok _ _ _ _ Hinit).
  assert (Hin : stdin w1 = stdin w).
  { destruct (CliProps.init_cases (args_api_key args) (args_api_secret args)
                (use_testnet args) w)
      as [(bot' & w1' & E & _ & _ & _ & H & _)|(e & w1' & E & _)];
      rewrite E in Hinit; [|discriminate].
    now injection Hinit as <- <-. }
  unfold dispatch. rewrite Hi. unfold interactive_mode.
  destruct w1 as [i o l c ex h]. cbn [stdin] in Hin. subst i.
  split.
  - intros Hs. cbn [stdin]. rewrite Hs.
    unfold try_except, menu_loop, menu_banner, bind, print, input. run_step.
    repeat split; reflexivity.
  - intros rest Hs. cbn [stdin]. rewrite Hs.
    cbn [List.length menu_loop].
    unfold try_except, menu_banner, bind, print, input. run_step.
    repeat split; reflexivity.
Qed.

Lemma menu_at_end_of_input_or_interrupt_witness :
  fst (run (mk_Namespace "key" "secret" true false None None None None None None
              false false None false true)
         (Demo.start [] Demo.accepting_exchange)) = Exit 1.
Proof.
  exact (proj1 (proj1 (menu_at_end_of_input_or_interrupt
                         (mk_Namespace "key" "secret" true false None None None None None
                            None false false None false true)
                         (Demo.start [] Demo.accepting_exchange)
                         (snd (__init__ "key" "secret" true
                                 (Demo.start [] Demo.accepting_exchange)))
                         Demo.demo_bot eq_refl eq_refl) eq_refl)).
Defined.

End MenuProps.

(* ===================================================================== *)
(** ** The orders sent from the interactive mode *)
(* ===================================================================== *)

Module SentOrderProps.
Import Bot Cli Props Traces.

Lemma upper_char_idempotent (c : ascii) :
  PyStr.upper_char (PyStr.upper_char c) = PyStr.upper_char c.
Proof.
  destruct c as [[] [] [] [] [] [] [] []]; vm_compute; reflexivity.
Qed.

Lemma upper_idempotent (s : string) : PyStr.upper (PyStr.upper s) = PyStr.upper s.
Proof.
  induction s as [|c r IH]; [reflexivity|].
  cbn [PyStr.upper]. now rewrite upper_char_idempotent, IH.
Qed.

Lemma validate_positive_float_above_zero (value name : string) (v : PyFloat.float) :
  validate_positive_float value name = inr v -> PyFloat.le v PyFloat.zero = false.
Proof.
  unfold validate_positive_float, float_call.
  destruct (PyFloat.of_string value) as [x|].
  - destruct (PyFloat.le x PyFloat.zero) eqn:E.
    + cbn [value_error is_ValueError exn_type exn_str].
      destruct (PyStr.contains _ _); discriminate.
    + now intros [= <-].
  - cbn [value_error is_ValueError exn_type exn_str].
    destruct (PyStr.contains _ _); discriminate.
Qed.

Lemma validate_side_result (side s : string) :
  validate_side side = inr s -> s = "BUY" \/ s = "SELL".
Proof.
  destruct (ValidatorProps.validate_side_cases side) as [(H & ->)|(_ & _ & ->)];
    [|discriminate].
  now intros [= <-].
Qed.

(** A computation that makes no call keeps the orders sent as they are. *)
Lemma keeps_quiet {A : Type} (m : M A) :
  (forall w, calls (snd (m w)) = calls w) -> keeps m.
Proof. intros H w Hw. unfold orders_validated. now rewrite H. Qed.

Lemma keeps_ret {A : Type} (a : A) : keeps (ret a).
Proof. now apply keeps_quiet. Qed.

Lemma keeps_raise {A : Type} (e : exn) : keeps (@raise A e).
Proof. now apply keeps_quiet. Qed.

Lemma keeps_exit {A : Type} (c : Z) : keeps (@sys_exit A c).
Proof. now apply keeps_quiet. Qed.

Lemma keeps_print (text : string) : keeps (print text).
Proof. now apply keeps_quiet. Qed.

Lemma keeps_logger_info (text : string) : keeps (logger_info text).
Proof. now apply keeps_quiet. Qed.

Lemma keeps_logger_error (text : string) : keeps (logger_error text).
Proof. now apply keeps_quiet. Qed.

Lemma keeps_input (prompt : string) : keeps (input prompt).
Proof.
  apply keeps_quiet. intros w. unfold input. cbn.
  destruct (stdin w) as [|[s|] r]; reflexivity.
Qed.

Lemma keeps_lift {A : Type} (r : exn + A) : keeps (lift r).
Proof. destruct r; [apply keeps_raise|apply keeps_ret]. Qed.

(** A call keeps them when it is not an order, or is a validated one. *)
Lemma keeps_call_client (c : api_call) :
  match c with
  | FuturesCreateOrder p => validated_order p = true
  | _ => True
  end ->
  keeps (call_client c).
Proof.
  intros Hc w Hw. unfold call_client, orders_validated in *.
  destruct (exchange w (calls w) c); destruct c; cbn; try assumption;
    now rewrite Hc.
Qed.

Lemma keeps_bind {A B : Type} (m : M A) (k : A -> M B) :
  keeps m -> (forall a, keeps (k a)) -> keeps (bind m k).
Proof.
  intros Hm Hk w Hw. unfold bind. specialize (Hm w Hw).
  destruct (m w) as [[a|e|c|] w1]; cbn in *; try assumption. now apply Hk.
Qed.

Lemma keeps_try {A : Type} (m : M A) (hs : list ((exn -> bool) * (exn -> M A))) :
  keeps m -> Forall (fun ah => forall e, keeps (snd ah e)) hs -> keeps (try_except m hs).
Proof.
  intros Hm Hhs w Hw. unfold try_except. specialize (Hm w Hw).
  destruct (m w) as [[a|e|c|] w1]; cbn in *; try assumption.
  assert (Hf : forall h, find_handler hs e = Some h -> keeps (h e)).
  { clear - Hhs. induction Hhs as [|[acc h'] r Hh _ IH]; cbn; [discriminate|].
    destruct (acc e); [|exact IH]. intros h [= <-]. apply Hh. }
  destruct (find_handler hs e) as [h|]; [now apply (Hf h eq_refl)|assumption].
Qed.

(** After a validator, the value that goes on is the one it accepted. *)
Lemma keeps_validated {A B : Type} (r : exn + A) (k : option A -> M B) :
  (forall a, r = inr a -> keeps (k (Some a))) -> keeps (k None) ->
  keeps (bind (validated r) k).
Proof.
  intros Hs Hn w Hw. destruct r as [e|a].
  - unfold bind, validated, try_except, lift, raise. cbn.
    destruct (is_ValueError e); cbn; [|assumption].
    now apply Hn.
  - now apply (Hs a eq_refl).
Qed.

(** One goal for each [except] clause. *)
Ltac each_handler :=
  first [ apply Forall_nil | apply Forall_cons; [intro; cbn [snd]|each_handler] ].

Ltac keeps_step :=
  lazymatch goal with
  | |- keeps (bind (validated _) _) => fail
  | |- keeps (bind _ _) => apply keeps_bind; [|intro]
  | |- keeps (try_except _ _) => apply keeps_try; [|each_handler]
  | |- keeps (print _) => apply keeps_print
  | |- keeps (input _) => apply keeps_input
  | |- keeps (logger_info _) => apply keeps_logger_info
  | |- keeps (logger_error _) => apply keeps_logger_error
  | |- keeps (lift _) => apply keeps_lift
  | |- keeps (raise _) => apply keeps_raise
  | |- keeps (sys_exit _) => apply keeps_exit
  | |- keeps (ret _) => apply keeps_ret
  | |- keeps (call_client _) => apply keeps_call_client; try exact I
  end.

Lemma keeps_place (bot : BasicBot) (o : order_request) :
  validated_order (payload_of o) = true -> keeps (place bot o).
Proof.
  intros H.
  destruct o; unfold place, place_market_order, place_limit_order, place_stop_limit_order,
    order_handlers, _log_request, _log_response, _log_error; repeat keeps_step; exact H.
Qed.

Lemma keeps_print_order_details (r : response) : keeps (print_order_details r).
Proof.
  unfold print_order_details. repeat keeps_step.
  destruct (has_key r "stopPrice"); keeps_step.
Qed.

Lemma keeps_get_order_status (bot : BasicBot) (symbol : string) (order_id : Z) :
  keeps (get_order_status bot symbol order_id).
Proof. unfold get_order_status, _log_error. repeat keeps_step. Qed.

Lemma keeps_cancel_order (bot : BasicBot) (symbol : string) (order_id : Z) :
  keeps (cancel_order bot symbol order_id).
Proof. unfold cancel_order, _log_error, _log_response. repeat keeps_step. Qed.

Lemma keeps_print_account_info (bot : BasicBot) : keeps (print_account_info bot).
Proof.
  unfold print_account_info, get_account_balance, _log_error. repeat keeps_step.
Qed.

Lemma keeps_int_call (text : string) : keeps (int_call text).
Proof. unfold int_call. destruct (PyInt.of_string text); keeps_step. Qed.

(** The payload built from a symbol in upper case, a side the validator
    returned and amounts the validator returned is a validated order. *)
Lemma validated_payload (o : order_request) (line : string) :
  (match o with
   | Market symbol side quantity =>
       symbol = PyStr.upper (PyStr.strip line) /\ (side = "BUY" \/ side = "SELL") /\
       PyFloat.le quantity PyFloat.zero = false
   | Limit symbol side quantity price _ =>
       symbol = PyStr.upper (PyStr.strip line) /\ (side = "BUY" \/ side = "SELL") /\
       PyFloat.le quantity PyFloat.zero = false /\ PyFloat.le price PyFloat.zero = false
   | StopLimit symbol side quantity price stop_price _ =>
       symbol = PyStr.upper (PyStr.strip line) /\ (side = "BUY" \/ side = "SELL") /\
       PyFloat.le quantity PyFloat.zero = false /\ PyFloat.le price PyFloat.zero = false /\
       PyFloat.le stop_price PyFloat.zero = false
   end) ->
  (PyStr.upper (PyStr.strip line) =? "")%string = false ->
  validated_order (payload_of o) = true.
Proof.
  intros H Hne.
  destruct o as [symbol side q|symbol side q p tif|symbol side q p sp tif];
    unfold validated_order; cbn -[PyStr.upper PyStr.strip PyFloat.le].
  - destruct H as (-> & Hs & Hq).
    rewrite Hne, upper_idempotent, String.eqb_refl, Hq.
    destruct Hs as [-> | ->]; reflexivity.
  - destruct H as (-> & Hs & Hq & Hp).
    rewrite Hne, upper_idempotent, String.eqb_refl, Hq, Hp.
    destruct Hs as [-> | ->]; reflexivity.
  - destruct H as (-> & Hs & Hq & Hp & Hsp).
    rewrite Hne, upper_idempotent, String.eqb_refl, Hq, Hp, Hsp.
    destruct Hs as [-> | ->]; reflexivity.
Qed.

(** The side conditions of [validated_payload], from what the validators
    returned. *)
Ltac from_validators :=
  repeat lazymatch goal with
    | H : match validate_positive_float ?a ?n with _ => _ end = inr _ |- _ =>
        let E := fresh "E" in
        destruct (validate_positive_float a n) eqn:E; [discriminate H|]
    | H : inr _ = inr _ |- _ => injection H as H; subst
    | H : (_, _) = (_, _) |- _ => injection H as ? ?; subst
    | |- _ /\ _ => split
    | |- _ = PyStr.upper (PyStr.strip _) => reflexivity
    | |- _ \/ _ => eapply validate_side_result; eassumption
    | |- PyFloat.le _ _ = false => eapply validate_positive_float_above_zero; eassumption
    end.

Ltac prompt_keeps :=
  repeat lazymatch goal with
    | |- keeps (bind (validated _) _) =>
        apply keeps_validated; [intros ? ?; cbv beta iota zeta|cbv beta iota zeta]
    | |- keeps (bind (place_market_order ?b ?s ?sd ?q) _) =>
        apply keeps_bind;
        [apply (keeps_place b (Market s sd q)); eapply validated_payload;
         [from_validators|eassumption]
        |intro]
    | |- keeps (bind (place_limit_order ?b ?s ?sd ?q ?p ?t) _) =>
        apply keeps_bind;
        [apply (keeps_place b (Limit s sd q p t)); eapply validated_payload;
         [from_validators|eassumption]
        |intro]
    | |- keeps (bind (place_stop_limit_order ?b ?s ?sd ?q ?p ?sp ?t) _) =>
        apply keeps_bind;
        [apply (keeps_place b (StopLimit s sd q p sp t)); eapply validated_payload;
         [from_validators|eassumption]
        |intro]
    | |- keeps (print_order_details _) => apply keeps_print_order_details
    | |- keeps (get_order_status _ _ _) => apply keeps_get_order_status
    | |- keeps (cancel_order _ _ _) => apply keeps_cancel_order
    | |- keeps (int_call _) => apply keeps_int_call
    | |- keeps (if ?b then _ else _) => destruct b eqn:?
    | |- keeps (match ?x with _ => _ end) => destruct x eqn:?
    | |- keeps (let (_, _) := ?x in _) => destruct x eqn:?
    | |- keeps (let _ := _ in _) => cbv zeta
    | |- _ => keeps_step
    end.

Lemma keeps_place_order_interactive (bot : BasicBot) : keeps (place_order_interactive bot).
Proof. unfold place_order_interactive. prompt_keeps. Qed.

Lemma keeps_menu_loop (bot : BasicBot) (fuel : nat) : keeps (menu_loop fuel bot).
Proof.
  induction fuel as [|fuel IH]; [now apply keeps_quiet|].
  cbn [menu_loop]. unfold menu_banner.
  repeat lazymatch goal with
    | |- keeps (menu_loop _ _) => exact IH
    | |- keeps (place_order_interactive _) => apply keeps_place_order_interactive
    | |- keeps (print_account_info _) => apply keeps_print_account_info
    | |- _ => prompt_keeps
    end.
Qed.

(** The construction of the bot places no order. *)
Lemma keeps_init (key secret : string) (t : bool) : keeps (__init__ key secret t).
Proof.
  intros w Hw. unfold orders_validated in *.
  destruct (CliProps.init_cases key secret t w)
    as [(bot & w1 & -> & _ & _ & H & _)|(e & w1 & -> & H & _)]; cbn [snd].
  - rewrite H. destruct t; exact Hw.
  - now rewrite H.
Qed.

(** Every order the interactive mode sends has passed the validators of the
    prompts: its side is BUY or SELL, its symbol is not empty and is in
    upper case, and its quantity, its price and its stop price, when it has
    them, are floats that are not at most zero.  This holds for the whole
    session, whatever is typed and whatever the exchange answers. *)
Theorem interactive_orders_are_validated (av : argv) (w : world) :
  opt_interactive av = true ->
  orders_validated w ->
  orders_validated (snd (main av w)).
Proof.
  intros Hi Hw. unfold main.
  destruct (parse_args av) as [args|] eqn:Hp; [|exact Hw].
  destruct (CliProps.parse_args_fields av args Hp)
    as (_ & _ & _ & _ & _ & _ & _ & _ & _ & _ & _ & _ & _ & _ & Hint).
  rewrite Hi in Hint.
  revert w Hw. change (keeps (run args)).
  unfold run, main_handlers.
  repeat lazymatch goal with
    | |- keeps (__init__ _ _ _) => apply keeps_init
    | |- keeps (dispatch _ _) =>
        unfold dispatch, interactive_mode; rewrite Hint; intros w Hw; apply keeps_menu_loop, Hw
    | |- _ => keeps_step
    end.
Qed.

Lemma interactive_orders_are_validated_witness :
  forallb validated_order
    (order_payloads
       (calls (snd (main (interactive_argv "key" "secret")
                      (Demo.start (session (TMarket "btcusdt" "buy" "0.5"))
                         Demo.accepting_exchange)))))
  = true.
Proof.
  apply (interactive_orders_are_validated (interactive_argv "key" "secret")
           (Demo.start (session (TMarket "btcusdt" "buy" "0.5")) Demo.accepting_exchange));
    reflexivity.
Defined.

End SentOrderProps.

(* ===================================================================== *)
(** ** The symbol lookup and the example script *)
(* ===================================================================== *)

Module LookupProps.
Import Bot Cli Props Lookup.

(** The loop of [get_symbol_info] on entries that all have a name: it
    returns the first entry of that name, and raises when there is none. *)
Lemma find_symbol_first (l : list (dict pyval)) (symbol : string) (w : world) :
  forallb has_name l = true ->
  find_symbol l symbol w =
    match find (names symbol) l with
    | Some s => (Ret s, w)
    | None => (Raise (mk_exn ValueError ("Symbol " ++ symbol ++ " not found")), w)
    end.
Proof.
  induction l as [|s r IH]; [reflexivity|].
  cbn [forallb find find_symbol]. intros H. apply andb_prop in H as [Hs Hr].
  unfold has_name in Hs. unfold names, subscript, bind.
  destruct (dict_get s "symbol") as [name|]; [|discriminate]. cbn.
  destruct (eq_str name symbol); [reflexivity|]. now apply IH.
Qed.

(** [get_symbol_info], when the exchange information lists trading pairs
    that all carry a ['symbol'].  The result is the first pair whose symbol
    equals the argument as it is written, without any change of case, and
    nothing is logged.  When no pair has that symbol, a [ValueError] that
    names the symbol is logged once and raised.  An exception of the
    request itself is logged once and raised again unchanged. *)
Theorem get_symbol_info_finds_first_match (futures_exchange_info : M exchange_info)
    (self : BasicBot) (symbol : string) (w w1 : world) :
  (forall info l,
     futures_exchange_info w = (Ret info, w1) ->
     symbols info = Some l ->
     forallb has_name l = true ->
     get_symbol_info futures_exchange_info self symbol w =
       match find (names symbol) l with
       | Some s => (Ret s, w1)
       | None =>
           (Raise (mk_exn ValueError ("Symbol " ++ symbol ++ " not found")),
            with_log
              (cons (ERROR, "Error getting symbol info for " ++ symbol
                              ++ ": ValueError - Symbol " ++ symbol ++ " not found"))
              w1)
       end) /\
  (forall e,
     futures_exchange_info w = (Raise e, w1) ->
     is_Exception e = true ->
     get_symbol_info futures_exchange_info self symbol w =
       (Raise e,
        with_log
          (cons (ERROR, "Error getting symbol info for " ++ symbol ++ ": "
                          ++ class_name (exn_type e) ++ " - " ++ exn_str e))
          w1)).
Proof.
  split.
  - intros info l Hi Hl Hn.
    unfold get_symbol_info, try_except, bind. rewrite Hi, Hl. cbn [ret].
    rewrite (find_symbol_first l symbol w1 Hn).
    destruct (find (names symbol) l); reflexivity.
  - intros e Hi He.
    unfold get_symbol_info, try_except, bind. rewrite Hi. cbn [find_handler].
    rewrite He. reflexivity.
Qed.

Lemma get_symbol_info_finds_first_match_witness :
  fst (get_symbol_info
         (ret (mk_exchange_info
                 (Some [[("symbol", VStr "BTCUSDT"); ("status", VStr "TRADING")];
                        [("symbol", VStr "ETHUSDT"); ("status", VStr "TRADING")]])))
         Demo.demo_bot "ETHUSDT" (Demo.start [] Demo.accepting_exchange))
  = Ret [("symbol", VStr "ETHUSDT"); ("status", VStr "TRADING")].
Proof.
  exact (f_equal fst
           (proj1 (get_symbol_info_finds_first_match
                     (ret (mk_exchange_info
                             (Some [[("symbol", VStr "BTCUSDT"); ("status", VStr "TRADING")];
                                    [("symbol", VStr "ETHUSDT"); ("status", VStr "TRADING")]])))
                     Demo.demo_bot "ETHUSDT" (Demo.start [] Demo.accepting_exchange)
                     (Demo.start [] Demo.accepting_exchange))
              _ _ eq_refl eq_refl eq_refl)).
Defined.

(** The example script.  It builds the bot on the test network with the
    placeholder credentials and asks for the account twice, once in the
    connection test and once for the balance: it never sends or cancels an
    order.  It has no [try]: an exception of any of the three calls ends
    the script.  Otherwise it prints the available balance, [None] when the
    account has none, and a closing line. *)
Theorem example_reads_the_balance_only (w : world) :
  let new := ClientNew Example.API_KEY Example.API_SECRET true in
  let r := Example.main w in
  match exchange w (calls w) new with
  | Raises e => fst r = Raise e /\ calls (snd r) = new :: calls w
  | Returns _ =>
      match exchange w (new :: calls w) FuturesAccount with
      | Raises e => fst r = Raise e /\ calls (snd r) = FuturesAccount :: new :: calls w
      | Returns _ =>
          calls (snd r) = FuturesAccount :: FuturesAccount :: new :: calls w /\
          match exchange w (FuturesAccount :: new :: calls w) FuturesAccount with
          | Raises e => fst r = Raise e
          | Returns account =>
              fst r = Ret tt /\
              stdout (snd r) =
                app [nl ++ "Example completed!";
                     "Available balance: " ++ get_or_None account "availableBalance"
                       ++ " USDT";
                     nl ++ "Checking account balance...";
                     "Initializing bot..."]
                  (stdout w)
          end
      end
  end.
Proof.
  unfold Example.main, __init__, _test_connection, get_account_balance, subscript,
    try_except, bind, call_client, logger_info, logger_error, _log_error, print, raise, ret.
  run_step.
  destruct (exchange w (calls w) (ClientNew Example.API_KEY Example.API_SECRET true))
    as [r|[[] msg]]; run_step; try (split; reflexivity).
  destruct (exchange w _ FuturesAccount) as [r'|[[] msg]]; run_step;
    try (split; reflexivity).
  destruct (exchange w _ FuturesAccount) as [r''|[[] msg]]; run_step;
    repeat split; reflexivity.
Qed.

End LookupProps.

(* ===================================================================== *)
(** ** Order queries: from the menu and from the command line *)
(* ===================================================================== *)

Module QueryRunProps.
Import Bot Cli Props Traces.

Ltac unfold_query :=
  unfold menu_banner, int_call, get_order_status, cancel_order, print_order_details,
    _log_response, _log_error, logger_info, logger_error, call_client, print, input,
    raise, ret, sys_exit, try_except, bind.

(** Entries 3 and 4 of the menu, with an order id that [int] reads.  One
    call is made, for the symbol in upper case without the white space
    around it.  Whether the exchange answers or raises an [Exception], the
    menu is shown again with the lines that follow still to be read; after
    an exception the last line printed is its text. *)
Theorem menu_goes_on_after_a_query (bot : BasicBot) (fuel : nat) (w : world)
    (choice symbol id : string) (rest : list input_event) (n : Z) :
  stdin w = Line choice :: Line symbol :: Line id :: rest ->
  PyStr.strip choice = "3" \/ PyStr.strip choice = "4" ->
  PyInt.of_string (PyStr.strip id) = inr n ->
  let sym := PyStr.upper (PyStr.strip symbol) in
  let c := if String.eqb (PyStr.strip choice) "3"
           then FuturesGetOrder sym n else FuturesCancelOrder sym n in
  (forall e, exchange w (calls w) c = Raises e -> is_Exception e = true) ->
  exists w',
    menu_loop (S fuel) bot w = menu_loop fuel bot w' /\
    stdin w' = rest /\ calls w' = c :: calls w /\
    forall e, exchange w (calls w) c = Raises e ->
              hd_error (stdout w') = Some ("Error: " ++ exn_str e).
Proof.
  destruct w as [i o l cs ex h]. cbn [stdin calls exchange]. intros -> Hc Hid.
  destruct Hc as [Hc|Hc]; rewrite Hc; cbv zeta; cbn [String.eqb Ascii.eqb Bool.eqb];
    intros Hex; cbn [menu_loop]; unfold_query; run_step; rewrite Hc; run_step;
    rewrite Hid; run_step.
  - destruct (ex cs (FuturesGetOrder (PyStr.upper (PyStr.strip symbol)) n))
      as [r|[[] msg]] eqn:E; run_step;
      try (specialize (Hex _ eq_refl); discriminate Hex);
      try destruct (has_key r "stopPrice"); run_step;
      (eexists; split; [reflexivity|]; repeat split; now intros e [= <-]).
  - destruct (ex cs (FuturesCancelOrder (PyStr.upper (PyStr.strip symbol)) n))
      as [r|[[] msg]] eqn:E; run_step;
      try (specialize (Hex _ eq_refl); discriminate Hex);
      (eexists; split; [reflexivity|]; repeat split; now intros e [= <-]).
Qed.

Lemma menu_goes_on_after_a_query_witness :
  exists w',
    menu_loop 2 Demo.demo_bot
      (Demo.start [Line "4"; Line " btcusdt "; Line "42"; Line "5"]
         (Demo.failing_exchange Demo.insufficient_margin))
    = menu_loop 1 Demo.demo_bot w' /\
    stdin w' = [Line "5"] /\ calls w' = [FuturesCancelOrder "BTCUSDT" 42].
Proof.
  destruct (menu_goes_on_after_a_query Demo.demo_bot 1
              (Demo.start [Line "4"; Line " btcusdt "; Line "42"; Line "5"]
                 (Demo.failing_exchange Demo.insufficient_margin))
              "4" " btcusdt " "42" [Line "5"] 42 eq_refl (or_intror eq_refl) eq_refl)
    as (w' & H1 & H2 & H3 & _).
  - intros e H. discriminate H.
  - exists w'. repeat split; assumption.
Defined.

(** [--order-status] and [--cancel-order] with a symbol and an order id
    other than 0.  One call is made, for the symbol as it is written on the
    command line; when both options are given the status is queried and
    nothing is cancelled.  When the exchange answers the program returns
    normally; when it raises an [Exception] the program prints its text and
    ends with status 1. *)
Theorem id_operations_by_exchange_answer (args : Namespace) (w w1 : world) (bot : BasicBot)
    (symbol : string) (n : Z) :
  __init__ (args_api_key args) (args_api_secret args) (use_testnet args) w = (Ret bot, w1) ->
  args_interactive args = false -> args_balance args = false ->
  args_order_status args = true \/ args_cancel_order args = true ->
  args_symbol args = Some symbol -> symbol <> "" ->
  args_order_id args = Some n -> n <> 0 ->
  let c := if args_order_status args
           then FuturesGetOrder symbol n else FuturesCancelOrder symbol n in
  let r := run args w in
  calls (snd r) = c :: calls w1 /\
  match exchange w1 (calls w1) c with
  | Returns _ => fst r = Ret tt
  | Raises e =>
      if is_Exception e
      then fst r = Exit 1 /\ hd_error (stdout (snd r)) = Some ("Error: " ++ exn_str e)
      else fst r = Exit 0
  end.
Proof.
  intros Hinit Hi Hb Hop Hs Hne Hid Hn0. cbv zeta.
  rewrite (CliProps.run_init_ok _ _ _ _ Hinit).
  unfold dispatch, order_status_mode, cancel_order_mode. rewrite Hi, Hb, Hs, Hid.
  cbn [truthy_str truthy_int].
  destruct (String.eqb_spec symbol "") as [|_]; [contradiction|].
  destruct (Z.eqb_spec n 0) as [|_]; [contradiction|].
  unfold main_handlers.
  destruct (args_order_status args).
  - unfold_query. run_step.
    destruct (exchange w1 (calls w1) (FuturesGetOrder symbol n)) as [resp|[[] msg]];
      run_step; try destruct (has_key resp "stopPrice"); repeat split; reflexivity.
  - destruct Hop as [Hop|Hop]; [discriminate|]. rewrite Hop.
    unfold_query. run_step.
    destruct (exchange w1 (calls w1) (FuturesCancelOrder symbol n)) as [resp|[[] msg]];
      run_step; repeat split; reflexivity.
Qed.

Lemma id_operations_by_exchange_answer_witness :
  calls (snd (run (mk_Namespace "key" "secret" true false None (Some "btcusdt") None
                     None None None false true (Some 7) true false)
                (Demo.start [] Demo.accepting_exchange)))
  = [FuturesGetOrder "btcusdt" 7; FuturesAccount; ClientNew "key" "secret" true].
Proof.
  refine (proj1 (id_operations_by_exchange_answer
                   (mk_Namespace "key" "secret" true false None (Some "btcusdt") None
                      None None None false true (Some 7) true false)
                   (Demo.start [] Demo.accepting_exchange)
                   (snd (__init__ "key" "secret" true
                           (Demo.start [] Demo.accepting_exchange)))
                   Demo.demo_bot "btcusdt" 7 eq_refl eq_refl eq_refl (or_introl eq_refl)
                   eq_refl _ eq_refl _)); discriminate.
Defined.

(** The printed details of a response.  [print_order_details] only writes
    to standard output: eight labelled fields between two rules, followed
    by the stop price for a response that has one.  A field the response
    lacks is printed as [N/A]. *)
Theorem order_details_lines (response : response) (w : world) :
  let field label key := label ++ get_default response key "N/A" in
  print_order_details response w =
    (Ret tt,
     with_stdout
       (app
          (cons (rule60 ++ nl)
             (app
                (if has_key response "stopPrice"
                 then [field "Stop Price:      " "stopPrice"] else [])
                [field "Time:            " "updateTime";
                 field "Status:          " "status";
                 field "Price:           " "price";
                 field "Quantity:        " "origQty";
                 field "Type:            " "type";
                 field "Side:            " "side";
                 field "Symbol:          " "symbol";
                 field "Order ID:        " "orderId";
                 rule60;
                 "ORDER DETAILS";
                 nl ++ rule60])))
       w).
Proof.
  unfold print_order_details, bind, print, ret.
  destruct w as [i o l cs ex h]. destruct (has_key response "stopPrice"); reflexivity.
Qed.

End QueryRunProps.

(* ===================================================================== *)
(** ** Orders from the command line, and the choice at the menu *)
(* ===================================================================== *)

Module FlagOrderProps.
Import Bot Cli Props Traces.

Lemma errors_of_infos (infos l : list (log_level * string)) :
  Forall (fun entry => fst entry = INFO) infos ->
  errors_of (infos ++ l) = errors_of l.
Proof.
  induction 1 as [|[[] t] r H _ IH]; cbn in *; [reflexivity|assumption|discriminate].
Qed.

(** An order from the command line with all the options its type
    requires.  One order is sent, with the payload of the method for that
    type.  When the exchange answers, the details are printed and the
    program goes on to return.  When the exchange raises an [Exception],
    the bot logs one error, the only line the program prints is
    [Error placing order:] with the text of the exception, and the process
    ends with status 1. *)
Theorem flag_order_by_exchange_answer (bot : BasicBot) (args : Namespace)
    (order_type : string) (o : order_request) (w : world) :
  order_of_flags args order_type = Some o ->
  let r := place_order_mode bot args order_type w in
  calls (snd r) = FuturesCreateOrder (payload_of o) :: calls w /\
  match exchange w (calls w) (FuturesCreateOrder (payload_of o)) with
  | Returns response =>
      fst r = Ret tt /\ hd_error (stdout (snd r)) = Some (rule60 ++ nl) /\
      errors_of (log (snd r)) = errors_of (log w)
  | Raises e =>
      if is_Exception e then
        fst r = Exit 1 /\
        stdout (snd r) = ("Error placing order: " ++ exn_str e) :: stdout w /\
        errors_of (log (snd r)) =
          ("Error " ++ context_of o ++ ": " ++ class_name (exn_type e) ++ " - "
             ++ exn_str e) :: errors_of (log w)
      else fst r = Raise e
  end.
Proof.
  intros Ho. cbv zeta.
  assert (E : place_order_mode bot args order_type =
              try_except
                (response <- place bot o ;; print_order_details response)
                [(is_Exception,
                  fun e => print ("Error placing order: " ++ exn_str e) ;; sys_exit 1)]).
  { unfold order_of_flags in Ho. unfold place_order_mode.
    destruct (truthy_str (args_symbol args)) as [symbol|]; [|discriminate].
    destruct (truthy_str (args_side args)) as [side|]; [|discriminate].
    destruct (truthy_float (args_quantity args)) as [quantity|]; [|discriminate].
    destruct (String.eqb order_type "market"); [now injection Ho as <-|].
    destruct (String.eqb order_type "limit").
    { destruct (truthy_float (args_price args)); [now injection Ho as <-|discriminate]. }
    destruct (String.eqb order_type "stop-limit"); [|discriminate].
    destruct (truthy_float (args_price args)); [|discriminate].
    destruct (truthy_float (args_stop_price args)); [now injection Ho as <-|discriminate]. }
  rewrite E. clear E.
  destruct (BotProps.place_run bot o w) as (before & after & Hb & Ha & E).
  unfold try_except, bind. rewrite E. cbv zeta.
  destruct (exchange w (calls w) (FuturesCreateOrder (payload_of o))) as [resp|e].
  - unfold print_order_details, bind, print, ret.
    destruct (has_key resp "stopPrice"); cbn; rewrite !errors_of_infos by auto;
      repeat split; reflexivity.
  - destruct e as [[] msg]; cbn; rewrite ?errors_of_infos by auto;
      repeat split; reflexivity.
Qed.

Lemma flag_order_by_exchange_answer_witness :
  fst (place_order_mode Demo.demo_bot
         (mk_Namespace "key" "secret" true false (Some "market") (Some "BTCUSDT")
            (Some "BUY") (Some Demo.one) None None false false None false false)
         "market"
         (Demo.start [] (Demo.failing_exchange Demo.insufficient_margin)))
  = Exit 1.
Proof.
  exact (proj1 (proj2 (flag_order_by_exchange_answer Demo.demo_bot
                         (mk_Namespace "key" "secret" true false (Some "market")
                            (Some "BTCUSDT") (Some "BUY") (Some Demo.one) None None
                            false false None false false)
                         "market" (Market "BTCUSDT" "BUY" Demo.one)
                         (Demo.start [] (Demo.failing_exchange Demo.insufficient_margin))
                         eq_refl))).
Defined.

(** A choice at the menu that is none of 1 to 5 once the white space around
    it is removed, an empty line included: the program prints
    [Invalid option] and shows the menu again; no call is made and the
    lines that follow stay to be read. *)
Theorem menu_rejects_unknown_choice (bot : BasicBot) (fuel : nat) (w : world)
    (choice : string) (rest : list input_event) :
  stdin w = Line choice :: rest ->
  ~ In (PyStr.strip choice) ["1"; "2"; "3"; "4"; "5"] ->
  exists w',
    menu_loop (S fuel) bot w = menu_loop fuel bot w' /\
    stdin w' = rest /\ calls w' = calls w /\ log w' = log w /\
    hd_error (stdout w') = Some "Invalid option".
Proof.
  destruct w as [i o l cs ex h]. cbn [stdin calls log]. intros -> Hc.
  cbn [menu_loop]. unfold menu_banner, bind, print, input. run_step.
  destruct (String.eqb_spec (PyStr.strip choice) "1") as [E|_];
    [exfalso; apply Hc; rewrite E; cbn; tauto|].
  destruct (String.eqb_spec (PyStr.strip choice) "2") as [E|_];
    [exfalso; apply Hc; rewrite E; cbn; tauto|].
  destruct (String.eqb_spec (PyStr.strip choice) "3") as [E|_];
    [exfalso; apply Hc; rewrite E; cbn; tauto|].
  destruct (String.eqb_spec (PyStr.strip choice) "4") as [E|_];
    [exfalso; apply Hc; rewrite E; cbn; tauto|].
  destruct (String.eqb_spec (PyStr.strip choice) "5") as [E|_];
    [exfalso; apply Hc; rewrite E; cbn; tauto|].
  run_step. eexists. split; [reflexivity|]. repeat split.
Qed.

Lemma menu_rejects_unknown_choice_witness :
  exists w',
    menu_loop 2 Demo.demo_bot (Demo.start [Line ""; Line "5"] Demo.accepting_exchange)
    = menu_loop 1 Demo.demo_bot w' /\
    stdin w' = [Line "5"].
Proof.
  destruct (menu_rejects_unknown_choice Demo.demo_bot 1
              (Demo.start [Line ""; Line "5"] Demo.accepting_exchange)
              "" [Line "5"] eq_refl)
    as (w' & H1 & H2 & _).
  - cbn. intros [H|[H|[H|[H|[H|[]]]]]]; discriminate H.
  - exists w'. split; assumption.
Defined.

End FlagOrderProps.

(* ===================================================================== *)
(** ** Orders typed at the prompts *)
(* ===================================================================== *)

Module TypedOrderProps.
Import Bot Cli Props Traces.

(** The end of an order typed at the prompts, by the answer of the
    exchange. *)
Lemma placed_then_reported (bot : BasicBot) (r : order_request) (w : world) :
  let res :=
    try_except
      (bind (place bot r) print_order_details)
      [(is_KeyboardInterrupt, fun _ => print (nl ++ nl ++ "Operation cancelled by user"));
       (is_Exception, fun e => print (nl ++ "Error placing order: " ++ exn_str e))] w in
  fst res = Ret tt /\
  calls (snd res) = FuturesCreateOrder (payload_of r) :: calls w /\
  stdin (snd res) = stdin w /\
  match exchange w (calls w) (FuturesCreateOrder (payload_of r)) with
  | Returns _ =>
      hd_error (stdout (snd res)) = Some (rule60 ++ nl) /\
      errors_of (log (snd res)) = errors_of (log w)
  | Raises e =>
      if is_Exception e then
        stdout (snd res) = (nl ++ "Error placing order: " ++ exn_str e) :: stdout w /\
        errors_of (log (snd res)) =
          ("Error " ++ context_of r ++ ": " ++ class_name (exn_type e) ++ " - "
             ++ exn_str e) :: errors_of (log w)
      else
        stdout (snd res) = (nl ++ nl ++ "Operation cancelled by user") :: stdout w /\
        errors_of (log (snd res)) = errors_of (log w)
  end.
Proof.
  destruct (BotProps.place_run bot r w) as (before & after & Hb & Ha & E).
  cbv zeta. unfold try_except, bind. rewrite E. cbv zeta.
  destruct (exchange w (calls w) (FuturesCreateOrder (payload_of r))) as [resp|e].
  - unfold print_order_details, bind, print, ret.
    destruct (has_key resp "stopPrice"); cbn;
      rewrite !FlagOrderProps.errors_of_infos by auto; repeat split; reflexivity.
  - destruct e as [[] msg]; cbn; rewrite ?FlagOrderProps.errors_of_infos by auto;
      repeat split; reflexivity.
Qed.

Ltac prompt_read E :=
  erewrite RoundTripProps.try_except_bind_ret in E by reflexivity; cbv beta zeta iota in E.

(** The last step: the protected block has come to the order method. *)
Ltac prompt_done bot r E :=
  let H := fresh "H" in
  match type of E with
  | ?res = try_except _ _ ?W =>
      pose proof (placed_then_reported bot r W) as H;
      cbv zeta in H;
      replace
        (try_except
           (bind (place bot r) print_order_details)
           [(is_KeyboardInterrupt,
             fun _ => print (nl ++ nl ++ "Operation cancelled by user"));
            (is_Exception, fun e => print (nl ++ "Error placing order: " ++ exn_str e))] W)
        with res in H by exact E
  end;
  cbn [stdin calls exchange log stdout with_stdin with_stdout] in H;
  destruct H as (H1 & H2 & H3 & H4);
  split; [exact H1|]; split; [exact H2|]; split; [exact H3|];
  match type of H4 with
  | match ?x with _ => _ end =>
      destruct x as [resp|e]; [exact H4|];
      destruct (is_Exception e); (split; [now rewrite (proj1 H4)|exact (proj2 H4)])
  end.

(** An order typed at the prompts that the prompts accept.  The order sent
    is the one of the typed lines: the symbol without the white space
    around it and in upper case, the side in upper case, the amounts as
    [float] reads them.  Whatever the exchange answers, the function
    returns with the lines that follow still to be read.  After an answer
    the details are printed; after an [Exception] the bot has logged one
    error and the last line printed is [Error placing order:] with its
    text. *)
Theorem typed_order_is_sent_and_reported (bot : BasicBot) (w : world) (o : order_text)
    (r : order_request) (rest : list input_event) :
  typed_order o = Some r ->
  stdin w = (prompts_of o ++ rest)%list ->
  let res := place_order_interactive bot w in
  fst res = Ret tt /\
  calls (snd res) = FuturesCreateOrder (payload_of r) :: calls w /\
  stdin (snd res) = rest /\
  match exchange w (calls w) (FuturesCreateOrder (payload_of r)) with
  | Returns _ =>
      hd_error (stdout (snd res)) = Some (rule60 ++ nl) /\
      errors_of (log (snd res)) = errors_of (log w)
  | Raises e =>
      if is_Exception e then
        hd_error (stdout (snd res)) = Some (nl ++ "Error placing order: " ++ exn_str e) /\
        errors_of (log (snd res)) =
          ("Error " ++ context_of r ++ ": " ++ class_name (exn_type e) ++ " - "
             ++ exn_str e) :: errors_of (log w)
      else
        hd_error (stdout (snd res)) = Some (nl ++ nl ++ "Operation cancelled by user") /\
        errors_of (log (snd res)) = errors_of (log w)
  end.
Proof.
  destruct w as [i out l c ex h]. cbn [stdin calls exchange log]. intros Hread ->.
  cbv zeta.
  destruct o as [symbol side quantity|symbol side quantity price
                |symbol side quantity price stop];
    cbn [typed_order] in Hread; cbv zeta in Hread;
    destruct (String.eqb (PyStr.upper (PyStr.strip symbol)) "") eqn:Hne;
    try discriminate;
    destruct (validate_side (PyStr.strip side)) as [?|sd] eqn:Hsd; try discriminate;
    destruct (validate_positive_float (PyStr.strip quantity) "Quantity") as [?|q] eqn:Hq;
    try discriminate.
  - injection Hread as <-. cbn [prompts_of app].
    remember (place_order_interactive bot _) as res eqn:E.
    unfold place_order_interactive, bind at 1 2 3, print in E.
    prompt_read E. rewrite Hne in E.
    do 5 prompt_read E.
    change (dict_get order_type_map (PyStr.strip "1")) with (Some "MARKET") in E.
    cbv iota in E.
    prompt_read E. rewrite Hsd in E. do 2 prompt_read E. rewrite Hq in E. prompt_read E.
    change (String.eqb "MARKET" "MARKET") with true in E. cbv iota in E.
    prompt_done bot (Market (PyStr.upper (PyStr.strip symbol)) sd q) E.
  - destruct (validate_positive_float (PyStr.strip price) "Price") as [?|p] eqn:Hp;
      try discriminate.
    injection Hread as <-. cbn [prompts_of app].
    remember (place_order_interactive bot _) as res eqn:E.
    unfold place_order_interactive, bind at 1 2 3, print in E.
    prompt_read E. rewrite Hne in E.
    do 5 prompt_read E.
    change (dict_get order_type_map (PyStr.strip "2")) with (Some "LIMIT") in E.
    cbv iota in E.
    prompt_read E. rewrite Hsd in E. do 2 prompt_read E. rewrite Hq in E. prompt_read E.
    change (String.eqb "LIMIT" "MARKET") with false in E.
    change (String.eqb "LIMIT" "LIMIT") with true in E. cbv iota in E.
    prompt_read E. rewrite Hp in E. prompt_read E.
    prompt_done bot (Limit (PyStr.upper (PyStr.strip symbol)) sd q p None) E.
  - destruct (validate_positive_float (PyStr.strip price) "Price") as [?|p] eqn:Hp;
      try discriminate.
    destruct (validate_positive_float (PyStr.strip stop) "Stop price") as [?|sp] eqn:Hsp;
      try discriminate.
    injection Hread as <-. cbn [prompts_of app].
    remember (place_order_interactive bot _) as res eqn:E.
    unfold place_order_interactive, bind at 1 2 3, print in E.
    prompt_read E. rewrite Hne in E.
    do 5 prompt_read E.
    change (dict_get order_type_map (PyStr.strip "3")) with (Some "STOP-LIMIT") in E.
    cbv iota in E.
    prompt_read E. rewrite Hsd in E. do 2 prompt_read E. rewrite Hq in E. prompt_read E.
    change (String.eqb "STOP-LIMIT" "MARKET") with false in E.
    change (String.eqb "STOP-LIMIT" "LIMIT") with false in E.
    change (String.eqb "STOP-LIMIT" "STOP-LIMIT") with true in E. cbv iota in E.
    do 2 prompt_read E. rewrite Hp, Hsp in E. prompt_read E.
    prompt_done bot (StopLimit (PyStr.upper (PyStr.strip symbol)) sd q p sp None) E.
Qed.

Lemma typed_order_is_sent_and_reported_witness :
  calls (snd (place_order_interactive Demo.demo_bot
                (Demo.start (prompts_of (TMarket " btcusdt " "buy" "0.5"))
                   (Demo.failing_exchange Demo.insufficient_margin))))
  = [FuturesCreateOrder
       [("symbol", VStr "BTCUSDT"); ("side", VStr "BUY"); ("type", VStr "MARKET");
        ("quantity", VFloat (S754_finite false 4503599627370496 (-53)))]].
Proof.
  refine (proj1 (proj2 (typed_order_is_sent_and_reported Demo.demo_bot
                          (Demo.start (prompts_of (TMarket " btcusdt " "buy" "0.5"))
                             (Demo.failing_exchange Demo.insufficient_margin))
                          (TMarket " btcusdt " "buy" "0.5")
                          (Market "BTCUSDT" "BUY" (S754_finite false 4503599627370496 (-53)))
                          [] _ _)));
    vm_compute; reflexivity.
Defined.

End TypedOrderProps.
